(** * GausControl: the speed-violation detection and alerting pipeline

    A shallow embedding of the real-time core of the GausControl service
    ([services/speedProcessor.js], [services/alertSystem.js],
    [services/mqttSpeedProcessor.js]) together with the properties its
    design document states about it.

    Conventions of the embedding.
    - A JavaScript number is a binary64 value.  One that the code reads and
      compares but does not compute (a speed, a limit) is kept as the rational
      that it is ([Q]).  One that the code computes ([exceedAmount],
      [exceedPercentage]) or that can be anything (a parsed field) is a
      [JS.number], with [NaN] and the infinities, and each operation rounds
      its exact result as binary64 does ([JS.round64]).  Only the running
      mean of a vehicle's speeds and the violation rate of the statistics
      are kept in exact arithmetic, which is how the property about the mean
      reads it; no other value depends on either.
    - Objects that the code mutates in place ([this.vehicleStates],
      [this.alertHistory], [this.activeAlerts], counters) are threaded as
      explicit state: a method [m(x)] becomes [m x this : result * this'].
    - A read of the wall clock ([Date.now()], [new Date()]) and the outcome of
      a call to a collaborator (data store, broker) are inputs of the call,
      collected in a record [Env]; the calls a method makes to collaborators
      are returned as a list of [Event]s, oldest first.
    - One message handler runs to completion before the next one starts. *)

From Stdlib Require Import ZArith QArith Qpower Qround Qminmax Qabs Lqa Lia List String Ascii.
From stdpp Require Import base gmap strings list.

Set Warnings "-register-all".

(** ** JavaScript values *)

Module JS.

Inductive number : Type :=
| Fin (q : Q)
| NaN
| PosInf
| NegInf.

Inductive value : Type :=
| Undefined
| Null
| Bool (b : bool)
| Num (n : number)
| Str (s : string)
| DateV (ms : Z)
| Obj (props : list (string * value))
| Arr (items : list value).

Inductive type_tag : Type :=
| TUndefined | TObject | TBoolean | TNumber | TString.

#[global] Instance type_tag_eq_dec : EqDecision type_tag.
Proof. solve_decision. Defined.

(** [typeof v] *)
Definition typeof (v : value) : type_tag :=
  match v with
  | Undefined => TUndefined
  | Null | DateV _ | Obj _ | Arr _ => TObject
  | Bool _ => TBoolean
  | Num _ => TNumber
  | Str _ => TString
  end.

(** [x > y] on finite numbers. *)
Definition Qgtb (x y : Q) : bool := negb (Qle_bool x y).

(** [x < y] on finite numbers. *)
Definition Qltb (x y : Q) : bool := negb (Qle_bool y x).

Definition isNaN (n : number) : bool :=
  match n with NaN => true | _ => false end.

(** [a < b]; every comparison with [NaN] is false. *)
Definition ltb (a b : number) : bool :=
  match a, b with
  | NaN, _ | _, NaN => false
  | Fin x, Fin y => Qltb x y
  | NegInf, NegInf => false
  | NegInf, _ => true
  | _, PosInf => match a with PosInf => false | _ => true end
  | _, _ => false
  end.

(** [a > b] *)
Definition gtb (a b : number) : bool := ltb b a.

(** ToBoolean *)
Definition truthy (v : value) : bool :=
  match v with
  | Undefined | Null => false
  | Bool b => b
  | Num (Fin q) => negb (Qeq_bool q 0)
  | Num NaN => false
  | Num _ => true
  | Str s => negb (String.eqb s EmptyString)
  | DateV _ | Obj _ | Arr _ => true
  end.

(** [v === null] *)
Definition is_null (v : value) : bool :=
  match v with Null => true | _ => false end.

(** [a || b] *)
Definition or (a b : value) : value := if truthy a then a else b.

Fixpoint assoc (k : string) (ps : list (string * value)) : value :=
  match ps with
  | [] => Undefined
  | (k', v) :: ps' => if String.eqb k' k then v else assoc k ps'
  end.

(** [o.k] for an [o] that is neither [null] nor [undefined]; the own
    properties of an array or a date carry none of the names read here. *)
Definition get (o : value) (k : string) : value :=
  match o with
  | Obj ps => assoc k ps
  | _ => Undefined
  end.

Definition is_space (c : ascii) : bool :=
  match nat_of_ascii c with
  | 9 | 10 | 11 | 12 | 13 | 32 => true
  | _ => false
  end.

(** The white space and line terminators of the language beyond ASCII, in
    the UTF-8 bytes of a text: U+00A0 in two bytes; U+1680, U+2000 to U+200A,
    U+2028, U+2029, U+202F, U+205F, U+3000 and U+FEFF in three. *)
Definition is_space2 (c1 c2 : ascii) : bool :=
  (nat_of_ascii c1 =? 194) && (nat_of_ascii c2 =? 160).

Definition is_space3 (c1 c2 c3 : ascii) : bool :=
  let n1 := nat_of_ascii c1 in
  let n2 := nat_of_ascii c2 in
  let n3 := nat_of_ascii c3 in
  ((n1 =? 225) && (n2 =? 154) && (n3 =? 128))
  || ((n1 =? 226) && (n2 =? 128)
      && (((128 <=? n3) && (n3 <=? 138)) || (n3 =? 168) || (n3 =? 169) || (n3 =? 175)))
  || ((n1 =? 226) && (n2 =? 129) && (n3 =? 159))
  || ((n1 =? 227) && (n2 =? 128) && (n3 =? 128))
  || ((n1 =? 239) && (n2 =? 187) && (n3 =? 191)).

Fixpoint trimStart (s : string) : string :=
  match s with
  | String c1 s1 =>
      if is_space c1 then trimStart s1
      else
        match s1 with
        | String c2 s2 =>
            if is_space2 c1 c2 then trimStart s2
            else
              match s2 with
              | String c3 s3 => if is_space3 c1 c2 c3 then trimStart s3 else s
              | EmptyString => s
              end
        | EmptyString => s
        end
  | EmptyString => EmptyString
  end.

(** Whether a text is white space throughout. *)
Fixpoint all_space (s : string) : bool :=
  match s with
  | String c1 s1 =>
      if is_space c1 then all_space s1
      else
        match s1 with
        | String c2 s2 =>
            if is_space2 c1 c2 then all_space s2
            else
              match s2 with
              | String c3 s3 => is_space3 c1 c2 c3 && all_space s3
              | EmptyString => false
              end
        | EmptyString => false
        end
  | EmptyString => true
  end.

Fixpoint trimEnd (s : string) : string :=
  match s with
  | EmptyString => EmptyString
  | String c s' => if all_space s then EmptyString else String c (trimEnd s')
  end.

(** [s.trim()] *)
Definition trim (s : string) : string := trimEnd (trimStart s).

(** The number that the text [x.toFixed(2)] denotes: the multiple of 1/100
    nearest to [x], a tie going away from zero. *)
Definition toFixed2 (x : Q) : Q :=
  if Qle_bool 0 x
  then inject_Z (Qfloor (x * 100 + (1 # 2))) / 100
  else - (inject_Z (Qfloor (- x * 100 + (1 # 2))) / 100).

(** The number that the text [x.toFixed(1)] denotes. *)
Definition toFixed1 (x : Q) : Q :=
  if Qle_bool 0 x
  then inject_Z (Qfloor (x * 10 + (1 # 2))) / 10
  else - (inject_Z (Qfloor (- x * 10 + (1 # 2))) / 10).

(** *** Arithmetic

    A number of the language is a binary64 value.  A finite one is kept as
    the rational that it is; the result of an operation is the exact result
    rounded to the nearest binary64 value, a tie going to the even
    significand, and to an infinity beyond the range.  The sign of a zero is
    not kept: a zero counts as [+0].  (It matters only where a zero is
    divided by; the one divisor of this program is the speed limit, which
    [updateConfiguration] takes only when positive and which the properties
    below take to be positive.) *)

(** The integer part of the binary logarithm of a positive rational. *)
Definition ilog2 (q : Q) : Z :=
  let e := (Z.log2 (Qnum q) - Z.log2 (Zpos (Qden q)))%Z in
  if Qle_bool (Qpower 2 e) q then e else (e - 1)%Z.

(** The nearest integer, a tie going to the even one. *)
Definition roundEven (q : Q) : Z :=
  let f := Qfloor q in
  match (q - inject_Z f ?= 1 # 2)%Q with
  | Lt => f
  | Gt => (f + 1)%Z
  | Eq => if Z.even f then f else (f + 1)%Z
  end.

(** The binary64 value nearest to a positive rational: 53 significant bits,
    on the grid of [2 ^ -1074] below [2 ^ -1022]. *)
Definition round64_pos (q : Q) : number :=
  let e := Z.max (ilog2 q - 52) (-1074) in
  let x := Qred (inject_Z (roundEven (q / Qpower 2 e)) * Qpower 2 e) in
  if Qle_bool (Qpower 2 1024) x then PosInf else Fin x.

Definition neg (a : number) : number :=
  match a with
  | Fin x => Fin (- x)
  | NaN => NaN
  | PosInf => NegInf
  | NegInf => PosInf
  end.

(** The binary64 value nearest to a rational. *)
Definition round64 (q : Q) : number :=
  let r := Qred q in
  match Qnum r with
  | Z0 => Fin 0
  | Zpos _ => round64_pos r
  | Zneg _ => neg (round64_pos (- r))
  end.

(** A rational that is a binary64 value. *)
Definition exact (q : Q) : Prop :=
  match round64 q with
  | Fin x => (x == q)%Q
  | _ => False
  end.

(** [a - b] *)
Definition sub (a b : number) : number :=
  match a, b with
  | NaN, _ | _, NaN => NaN
  | Fin x, Fin y => round64 (x - y)
  | PosInf, PosInf | NegInf, NegInf => NaN
  | PosInf, _ | _, NegInf => PosInf
  | NegInf, _ | _, PosInf => NegInf
  end.

(** The sign of a number that is not [NaN]; a zero counts as positive. *)
Definition negative (a : number) : bool :=
  match a with
  | Fin x => Qltb x 0
  | NegInf => true
  | _ => false
  end.

Definition is_zero (a : number) : bool :=
  match a with
  | Fin x => Qeq_bool x 0
  | _ => false
  end.

Definition infinity (negative : bool) : number :=
  if negative then NegInf else PosInf.

(** [a * b] *)
Definition mul (a b : number) : number :=
  match a, b with
  | NaN, _ | _, NaN => NaN
  | Fin x, Fin y => round64 (x * y)
  | _, _ =>
      if is_zero a || is_zero b then NaN
      else infinity (xorb (negative a) (negative b))
  end.

(** [a / b] *)
Definition div (a b : number) : number :=
  match a, b with
  | NaN, _ | _, NaN => NaN
  | Fin x, Fin y =>
      if Qeq_bool y 0
      then if Qeq_bool x 0 then NaN else infinity (Qltb x 0)
      else round64 (x / y)
  | Fin _, _ => Fin 0
  | _, Fin _ => infinity (xorb (negative a) (negative b))
  | _, _ => NaN
  end.

(** [parseFloat(a.toFixed(2))]: from [10 ^ 21] on, [toFixed] gives the text
    of the number itself. *)
Definition parseFixed2 (a : number) : number :=
  match a with
  | Fin x => if Qle_bool (Qpower 10 21) (Qabs x) then a else round64 (toFixed2 x)
  | _ => a
  end.

(** The number that the text [a.toFixed(1)] denotes. *)
Definition fixed1 (a : number) : number :=
  match a with
  | Fin x => if Qle_bool (Qpower 10 21) (Qabs x) then a else Fin (toFixed1 x)
  | _ => a
  end.

(** The services of the JavaScript runtime that the parse step calls. *)
Class Runtime : Type := {
  (** [JSON.parse(s)]; [None] when it throws a [SyntaxError] *)
  JSON_parse : string -> option value;
  (** [String(v)] *)
  ToString : value -> string;
  (** [new Date(s).getTime()]; [None] when it is [NaN] *)
  Date_parse : string -> option Z;
  (** [new Date(ms).toISOString()], for a time value in range *)
  toISOString : Z -> string
}.

(** The largest time value of a [Date], in milliseconds. *)
Definition maxTime : Z := 8640000000000000.

(** [new Date(n).getTime()]: the time clip of a number, [None] for [NaN]. *)
Definition timeClip (n : number) : option Z :=
  match n with
  | Fin q =>
      if Qle_bool (Qabs q) (inject_Z maxTime)
      then Some (if Qle_bool 0 q then Qfloor q else (- Qfloor (- q))%Z)
      else None
  | _ => None
  end.

Definition is_alnum (c : ascii) : bool :=
  let n := nat_of_ascii c in
  ((48 <=? n) && (n <=? 57)) || ((65 <=? n) && (n <=? 90)) || ((97 <=? n) && (n <=? 122)).

(** [/^[A-Za-z0-9]+$/.test(s)] *)
Fixpoint all_alnum (s : string) : bool :=
  match s with
  | EmptyString => true
  | String c s' => is_alnum c && all_alnum s'
  end.

Definition test_alnum (s : string) : bool :=
  negb (String.eqb s EmptyString) && all_alnum s.

(** The property names that a plain object inherits from
    [Object.prototype]. *)
Definition objectPrototype : list string :=
  ["constructor"; "__defineGetter__"; "__defineSetter__"; "hasOwnProperty";
   "__lookupGetter__"; "__lookupSetter__"; "isPrototypeOf"; "propertyIsEnumerable";
   "toString"; "valueOf"; "__proto__"; "toLocaleString"].

Definition inherited (key : string) : bool := bool_decide (key ∈ objectPrototype).

(** [a <= b]; false when either side is [NaN]. *)
Definition leb (a b : number) : bool :=
  match a, b with
  | NaN, _ | _, NaN => false
  | _, _ => negb (ltb b a)
  end.

(** The conversions to a number that read the text of a string or call the
    methods of an object. *)
Class Coercions : Type := {
  StringToNumber : string -> number;
  ObjectToNumber : value -> number
}.

(** [Number(v)]; it is also the number that [v < d] compares with the time
    value of a date [d]. *)
Definition toNumber {coercions : Coercions} (v : value) : number :=
  match v with
  | Undefined => NaN
  | Null => Fin 0
  | Bool b => Fin (if b then 1 else 0)
  | Num n => n
  | Str s => StringToNumber s
  | DateV ms => Fin (inject_Z ms)
  | Obj _ | Arr _ => ObjectToNumber v
  end.

End JS.

(** ** Data model *)

Inductive Severity : Type := LOW | MEDIUM | HIGH | CRITICAL.

#[global] Instance Severity_eq_dec : EqDecision Severity.
Proof. solve_decision. Defined.

(** The object that [MqttSpeedProcessor.parseSpeedMessage] returns. *)
Module SpeedMessage.
Record t : Type := mk {
  vehicleId : string;
  speed : JS.number;
  timestamp : JS.value;
  location : JS.value;
  vehicleType : JS.value;
  metadata : JS.value
}.
End SpeedMessage.

(** A validated reading: the [data] of a successful validation. *)
Module SpeedData.
Record t : Type := mk {
  vehicleId : string;
  speed : Q;
  timestamp : JS.value;
  location : JS.value;
  vehicleType : JS.value;
  metadata : JS.value;
  receivedAt : Z
}.
End SpeedData.

(** One entry of [SpeedProcessor.vehicleStates]. *)
Module VehicleState.
Record t : Type := mk {
  vehicleId : string;
  lastSeen : JS.value;
  consecutiveViolations : nat;
  totalViolations : nat;
  averageSpeed : Q;
  maxSpeed : Q;
  recordCount : nat;
  (** [{speed, timestamp}] entries, oldest first *)
  speedHistory : list (Q * JS.value)
}.
End VehicleState.

(** The object that [SpeedProcessor.checkSpeedViolation] returns.  The
    template string [`violation_${Date.now()}_${vehicleId}`] is kept as the
    pair of its two holes. *)
Module Violation.
Record t : Type := mk {
  id : Z * string;
  vehicleId : string;
  speed : Q;
  speedLimit : Q;
  exceedAmount : JS.number;
  exceedPercentage : JS.number;
  severity : Severity;
  isConsecutive : bool;
  consecutiveCount : nat;
  timestamp : JS.value;
  location : JS.value;
  vehicleType : JS.value;
  detectedAt : Z
}.
End Violation.

(** What an alert strategy returns; a field a strategy does not set is
    [None].  A description is kept as the strategy's template and the values
    that fill its holes. *)
Module AlertData.
Inductive Priority : Type := NORMAL | MEDIUM | HIGH | CRITICAL.
Inductive Description : Type :=
| ExceededBy (vehicleId : string) (exceedAmount1 : JS.number)
| ConsecutiveViolations (vehicleId : string) (consecutiveCount : nat)
| CriticalAt (vehicleId : string) (speed : Q) (exceedPercentage : JS.number)
| PatternDetected (vehicleId : string).
Record t : Type := mk {
  priority : Priority;
  recommendedAction : string;
  description : Description;
  requiresImmediate : option bool;
  escalated : option bool;
  patternDetected : option bool
}.
End AlertData.

Inductive AlertStatus : Type := ACTIVE | RESOLVED | DISMISSED.

(** The object that [AlertSystem.createAlert] builds: the violation's fields,
    the fixed [type] and [status], and the strategy's [alertData] spread over
    them (its keys are disjoint from the others). *)
Module Alert.
Record t : Type := mk {
  id : Z * string;
  type : string;
  severity : Severity;
  vehicleId : string;
  speed : Q;
  speedLimit : Q;
  exceedAmount : JS.number;
  exceedPercentage : JS.number;
  location : JS.value;
  vehicleType : JS.value;
  timestamp : JS.value;
  detectedAt : Z;
  createdAt : Z;
  isConsecutive : bool;
  consecutiveCount : nat;
  status : AlertStatus;
  alertData : AlertData.t
}.
End Alert.

(** One entry of [AlertSystem.activeAlerts]. *)
Module ActiveAlert.
Record t : Type := mk {
  lastAlert : Z;
  alertId : Z * string;
  severity : Severity
}.
End ActiveAlert.

(** The message that [MqttSpeedProcessor.publishAlert] sends to the broker. *)
Module AlertMessage.
Inductive Kind : Type := SIMPLE | CRITICAL.
Inductive Text : Type :=
| ExceededSpeed (vehicleId : string) (speed : Q) (timestamp : JS.value)
| ExceededConsecutively (vehicleId : string) (consecutiveCount : nat).
Record t : Type := mk {
  type : Kind;
  vehicleId : string;
  speed : Q;
  speedLimit : Q;
  consecutiveCount : option nat;
  timestamp : JS.value;
  message : Text;
  alertId : Z * string;
  generatedAt : Z
}.
End AlertMessage.

(** The calls made to the collaborators, with their outcome ([true]: the
    promise resolved, [false]: it rejected). *)
Inductive Event : Type :=
| SaveSpeedRecord (speedData : SpeedData.t) (ok : bool)
| MqttPublishAlert (alert : Alert.t) (ok : bool)
| SendNotification (handler : string) (alert : Alert.t) (ok : bool)
| MqttPublish (message : AlertMessage.t) (ok : bool).

(** ** Effects

    An [async] method is a computation over the object state [S] that ends by
    returning a value or by throwing; what it wrote to the state before a
    throw stays written, and the collaborator calls it made stay made. *)

Inductive Error : Type :=
| SyntaxError
| TypeError
| ReferenceError
| Rejected (operation : string).

Inductive Completion (A : Type) : Type :=
| Return (a : A)
| Throw (e : Error).
Arguments Return {A} a.
Arguments Throw {A} e.

Record M (S A : Type) : Type := mkM {
  run : S -> Completion A * S * list Event
}.
Arguments mkM {S A} run.
Arguments run {S A} m s.

#[global] Instance M_ret {S} : MRet (M S) :=
  fun A a => mkM (fun s => (Return a, s, [])).

#[global] Instance M_bind {S} : MBind (M S) :=
  fun A B f m =>
    mkM (fun s =>
      match run m s with
      | (Return a, s', events) =>
          let '(c, s'', events') := run (f a) s' in (c, s'', events ++ events')
      | (Throw e, s', events) => (Throw e, s', events)
      end).

(** [throw e] *)
Definition throw {S A} (e : Error) : M S A :=
  mkM (fun s => (Throw e, s, [])).

(** [try { body } catch (error) { handler }] *)
Definition try_catch {S A} (body : M S A) (handler : Error -> M S A) : M S A :=
  mkM (fun s =>
    match run body s with
    | (Return a, s', events) => (Return a, s', events)
    | (Throw e, s', events) =>
        let '(c, s'', events') := run (handler e) s' in (c, s'', events ++ events')
    end).

(** Read [this]. *)
Definition get_this {S} : M S S :=
  mkM (fun s => (Return s, s, [])).

(** Run a state-passing method on [this]. *)
Definition state {S A} (f : S -> A * S) : M S A :=
  mkM (fun s => let '(a, s') := f s in (Return a, s', [])).

(** Mutate [this]. *)
Definition modify {S} (f : S -> S) : M S unit :=
  mkM (fun s => (Return tt, f s, [])).

(** A call to a collaborator that resolves ([ok]) or rejects. *)
Definition call {S} (event : Event) (ok : bool) (operation : string) : M S unit :=
  mkM (fun s => (if ok then Return tt else Throw (Rejected operation), s, [event])).

(** Run a method of an object that [this] holds a reference to. *)
Definition zoom {S S' A} (proj : S -> S') (upd : S' -> S -> S) (m : M S' A) : M S A :=
  mkM (fun s => let '(c, s', events) := run m (proj s) in (c, upd s' s, events)).

(** [for (const x of l) { body }] *)
Fixpoint forEach {S A} (l : list A) (body : A -> M S unit) : M S unit :=
  match l with
  | [] => mret tt
  | x :: l' => body x ;; forEach l' body
  end.

(** ** The alert engine ([services/alertSystem.js]) *)

Module AlertSystem.

(** The classes [SimpleViolationStrategy], [ConsecutiveViolationStrategy],
    [CriticalViolationStrategy], [PatternViolationStrategy], registered by
    [initializeStrategies] under these keys. *)
Inductive Strategy : Type := simple | consecutive | critical | pattern.

Definition name (s : Strategy) : string :=
  match s with
  | simple => "simple"
  | consecutive => "consecutive"
  | critical => "critical"
  | pattern => "pattern"
  end.

Record t : Type := mk {
  (** whether a broker client was injected *)
  mqttClient : bool;
  (** the [name]s of the injected notification handlers *)
  notificationHandlers : list string;
  (** newest first *)
  alertHistory : list Alert.t;
  activeAlerts : gmap string ActiveAlert.t;
  maxHistorySize : nat;
  suppressionWindow : Z
}.

Definition constructor (mqttClient : bool) (notificationHandlers : list string) : t :=
  {| mqttClient := mqttClient;
     notificationHandlers := notificationHandlers;
     alertHistory := [];
     activeAlerts := ∅;
     maxHistorySize := 1000;
     suppressionWindow := 30000 |}.

(** The clock readings and collaborator outcomes of one [processViolation]. *)
Record Env : Type := mkEnv {
  (** [Date.now()] in [shouldSuppressAlert] *)
  now_suppress : Z;
  (** [Date.now()] in the alert id *)
  now_alertId : Z;
  (** [new Date()] for [createdAt] *)
  now_createdAt : Z;
  (** [Date.now()] in [storeAlert] *)
  now_lastAlert : Z;
  (** whether [mqttClient.publishAlert] resolves *)
  publishAlert_ok : bool;
  (** whether [handler.sendNotification] resolves, by handler name *)
  sendNotification_ok : string -> bool
}.

(** What [processViolation] resolves to: [{success, alert, strategy}],
    [{success, suppressed, reason}] or [{success: false, error, violation}]. *)
Inductive Result : Type :=
| Created (alert : Alert.t) (strategy : string)
| Suppressed
| Failed (error : Error) (violation : option Violation.t).

Definition determineStrategy (violation : Violation.t) : Strategy :=
  if decide (Violation.severity violation = CRITICAL) then critical
  else if Violation.isConsecutive violation then consecutive
  else simple.

Definition shouldSuppressAlert (now : Z) (violation : Violation.t) (this : t) : bool :=
  match activeAlerts this !! Violation.vehicleId violation with
  | None => false
  | Some activeAlert =>
      let timeDiff := (now - ActiveAlert.lastAlert activeAlert)%Z in
      (timeDiff <? suppressionWindow this)%Z
  end.

(** [strategy.processViolation(violation)] *)
Definition strategy_processViolation (s : Strategy) (violation : Violation.t) : AlertData.t :=
  match s with
  | simple =>
      {| AlertData.priority := AlertData.NORMAL;
         AlertData.recommendedAction := "Monitor vehicle speed";
         AlertData.description :=
           AlertData.ExceededBy (Violation.vehicleId violation)
             (JS.fixed1 (Violation.exceedAmount violation));
         AlertData.requiresImmediate := None;
         AlertData.escalated := None;
         AlertData.patternDetected := None |}
  | consecutive =>
      {| AlertData.priority := AlertData.HIGH;
         AlertData.recommendedAction := "Immediate intervention required";
         AlertData.description :=
           AlertData.ConsecutiveViolations (Violation.vehicleId violation)
             (Violation.consecutiveCount violation);
         AlertData.requiresImmediate := None;
         AlertData.escalated := Some true;
         AlertData.patternDetected := None |}
  | critical =>
      {| AlertData.priority := AlertData.CRITICAL;
         AlertData.recommendedAction := "Emergency response required";
         AlertData.description :=
           AlertData.CriticalAt (Violation.vehicleId violation)
             (Violation.speed violation) (Violation.exceedPercentage violation);
         AlertData.requiresImmediate := Some true;
         AlertData.escalated := Some true;
         AlertData.patternDetected := None |}
  | pattern =>
      {| AlertData.priority := AlertData.MEDIUM;
         AlertData.recommendedAction := "Pattern analysis required";
         AlertData.description := AlertData.PatternDetected (Violation.vehicleId violation);
         AlertData.requiresImmediate := None;
         AlertData.escalated := None;
         AlertData.patternDetected := Some true |}
  end.

Definition createAlert (now_id now_created : Z) (violation : Violation.t)
    (alertData : AlertData.t) : Alert.t :=
  {| Alert.id := (now_id, Violation.vehicleId violation);
     Alert.type := "SPEED_VIOLATION";
     Alert.severity := Violation.severity violation;
     Alert.vehicleId := Violation.vehicleId violation;
     Alert.speed := Violation.speed violation;
     Alert.speedLimit := Violation.speedLimit violation;
     Alert.exceedAmount := Violation.exceedAmount violation;
     Alert.exceedPercentage := Violation.exceedPercentage violation;
     Alert.location := Violation.location violation;
     Alert.vehicleType := Violation.vehicleType violation;
     Alert.timestamp := Violation.timestamp violation;
     Alert.detectedAt := Violation.detectedAt violation;
     Alert.createdAt := now_created;
     Alert.isConsecutive := Violation.isConsecutive violation;
     Alert.consecutiveCount := Violation.consecutiveCount violation;
     Alert.status := ACTIVE;
     Alert.alertData := alertData |}.

Definition storeAlert (now : Z) (alert : Alert.t) (this : t) : t :=
  (* this.alertHistory.unshift(alert) *)
  let unshifted := alert :: alertHistory this in
  (* if (length > maxHistorySize) this.alertHistory.pop() *)
  let history :=
    if maxHistorySize this <? length unshifted then removelast unshifted else unshifted in
  {| mqttClient := mqttClient this;
     notificationHandlers := notificationHandlers this;
     alertHistory := history;
     activeAlerts :=
       <[Alert.vehicleId alert :=
           {| ActiveAlert.lastAlert := now;
              ActiveAlert.alertId := Alert.id alert;
              ActiveAlert.severity := Alert.severity alert |}]> (activeAlerts this);
     maxHistorySize := maxHistorySize this;
     suppressionWindow := suppressionWindow this |}.

(** [sendNotifications]: a rejected [publishAlert] leaves the outer [try]
    before the handler loop, a rejected handler only its own [try]; the
    [notifications] array is only logged. *)
Definition sendNotifications (env : Env) (alert : Alert.t) : M t unit :=
  try_catch
    (this ← get_this;
     (if mqttClient this
      then call (MqttPublishAlert alert (publishAlert_ok env)) (publishAlert_ok env)
             "mqttClient.publishAlert"
      else mret tt) ;;
     forEach (notificationHandlers this) (fun handler =>
       try_catch
         (call (SendNotification handler alert (sendNotification_ok env handler))
            (sendNotification_ok env handler) "handler.sendNotification")
         (fun error => mret tt)))
    (fun error => mret tt).

(** [processViolation]; the argument [None] stands for a [null] or
    [undefined] violation, on which the first property read throws. *)
Definition processViolation (env : Env) (violation : option Violation.t) : M t Result :=
  try_catch
    (v ← match violation with Some v => mret v | None => throw TypeError end;
     this ← get_this;
     if shouldSuppressAlert (now_suppress env) v this then mret Suppressed
     else
       let strategy := determineStrategy v in
       let alertData := strategy_processViolation strategy v in
       let alert := createAlert (now_alertId env) (now_createdAt env) v alertData in
       modify (storeAlert (now_lastAlert env) alert) ;;
       sendNotifications env alert ;;
       mret (Created alert (name strategy)))
    (fun error => mret (Failed error violation)).

(** *** [processViolation] around its first [await]

    The method is [async].  At [await strategy.processViolation(violation)]
    it hands control back, and whatever else is due runs before it goes on:
    another call of the method on the same engine among it.  The part up to
    that [await] reads the engine and writes nothing; the part after it
    stores the alert.  Run one right after the other, the two parts are the
    method (the later [await]s are inside [sendNotifications], which does
    not touch the engine). *)

(** What a call holds while it waits for its strategy. *)
Record Pending : Type := mkPending {
  pendingViolation : Violation.t;
  pendingStrategy : Strategy;
  pendingAlertData : AlertData.t
}.

(** The part up to the first [await]: a call that has ended, with its
    result, or one that waits. *)
Definition processViolation_begin (env : Env) (violation : option Violation.t) (this : t)
    : Result + Pending :=
  match violation with
  | None => inl (Failed TypeError None)
  | Some v =>
      if shouldSuppressAlert (now_suppress env) v this then inl Suppressed
      else
        let strategy := determineStrategy v in
        inr {| pendingViolation := v;
               pendingStrategy := strategy;
               pendingAlertData := strategy_processViolation strategy v |}
  end.

(** The part after the first [await]. *)
Definition processViolation_resume (env : Env) (pending : Pending) : M t Result :=
  let v := pendingViolation pending in
  try_catch
    (let alert :=
       createAlert (now_alertId env) (now_createdAt env) v (pendingAlertData pending) in
     modify (storeAlert (now_lastAlert env) alert) ;;
     sendNotifications env alert ;;
     mret (Created alert (name (pendingStrategy pending))))
    (fun error => mret (Failed error (Some v))).

(** [cleanupOldAlerts(maxAge)] with [Date.now()] read as [now]. *)
Definition cleanupOldAlerts (now maxAge : Z) (this : t) : nat * t :=
  let cutoffTime := (now - maxAge)%Z in
  let kept := filter (fun alert => (cutoffTime < Alert.createdAt alert)%Z) (alertHistory this) in
  (length (alertHistory this) - length kept,
   {| mqttClient := mqttClient this;
      notificationHandlers := notificationHandlers this;
      alertHistory := kept;
      activeAlerts := activeAlerts this;
      maxHistorySize := maxHistorySize this;
      suppressionWindow := suppressionWindow this |}).

(** A [startDate] or [endDate] of the criteria: a number, a text with the
    time value that [new Date(text)] has ([None]: an invalid date), or a
    [Date] with its time value. *)
Inductive DateCriterion : Type :=
| Millis (n : JS.number)
| DateText (text : string) (time : option Z)
| DateObject (time : option Z).

(** [if (criteria.startDate)] *)
Definition given (c : DateCriterion) : bool :=
  match c with
  | Millis n => JS.truthy (JS.Num n)
  | DateText text _ => negb (String.eqb text EmptyString)
  | DateObject _ => true
  end.

(** [new Date(criteria.startDate).getTime()]; [None] is [NaN]. *)
Definition timeValue (c : DateCriterion) : option Z :=
  match c with
  | Millis n => JS.timeClip n
  | DateText _ time => time
  | DateObject time => time
  end.

(** The [criteria] of [getAlerts]; a key that is missing is [None]. *)
Record Criteria : Type := mkCriteria {
  by_vehicleId : option string;
  by_severity : option Severity;
  startDate : option DateCriterion;
  endDate : option DateCriterion;
  limit : option Z
}.

(** [l.slice(0, n)] for an integer [n]: a negative [n] counts from the end. *)
Definition slice_to {A} (n : Z) (l : list A) : list A :=
  if (n <? 0)%Z then take (Z.to_nat (Z.of_nat (length l) + n)) l
  else take (Z.to_nat n) l.

(** [getAlerts(criteria)]; an empty [vehicleId], a date that is 0, [NaN] or
    the empty text, and a [limit] of 0 are falsy and filter nothing.  Against
    an invalid date every comparison is false. *)
Definition getAlerts (criteria : Criteria) (this : t) : list Alert.t :=
  let filteredAlerts := alertHistory this in
  let filteredAlerts :=
    match by_vehicleId criteria with
    | Some vehicleId =>
        if negb (String.eqb vehicleId EmptyString)
        then filter (fun alert => Alert.vehicleId alert = vehicleId) filteredAlerts
        else filteredAlerts
    | None => filteredAlerts
    end in
  let filteredAlerts :=
    match by_severity criteria with
    | Some severity => filter (fun alert => Alert.severity alert = severity) filteredAlerts
    | None => filteredAlerts
    end in
  let filteredAlerts :=
    match startDate criteria with
    | Some startDate =>
        if given startDate then
          match timeValue startDate with
          | Some time => filter (fun alert => (time <= Alert.createdAt alert)%Z) filteredAlerts
          | None => []
          end
        else filteredAlerts
    | None => filteredAlerts
    end in
  let filteredAlerts :=
    match endDate criteria with
    | Some endDate =>
        if given endDate then
          match timeValue endDate with
          | Some time => filter (fun alert => (Alert.createdAt alert <= time)%Z) filteredAlerts
          | None => []
          end
        else filteredAlerts
    | None => filteredAlerts
    end in
  match limit criteria with
  | Some limit => if (limit =? 0)%Z then filteredAlerts else slice_to limit filteredAlerts
  | None => filteredAlerts
  end.

(** The string of a severity, as it keys [stats.bySeverity]. *)
Definition severityName (severity : Severity) : string :=
  match severity with
  | LOW => "LOW"
  | MEDIUM => "MEDIUM"
  | HIGH => "HIGH"
  | CRITICAL => "CRITICAL"
  end.

(** An own property of [stats.bySeverity] or [stats.byVehicle]: a count, or,
    under a key that the object inherits, the text of the inherited function
    followed by that many digits 1. *)
Inductive Tally : Type :=
| Count (n : nat)
| InheritedText (ones : nat).

(** The object that [getAlertStats] returns; the two maps hold the own
    properties of the two plain objects. *)
Record AlertStats : Type := mkAlertStats {
  total : nat;
  active : nat;
  bySeverity : gmap string Tally;
  byVehicle : gmap string Tally;
  recentCount : nat
}.

(** [counts[key] = (counts[key] || 0) + 1] on a plain object.  Under a key
    that [Object.prototype] defines, the first read finds the inherited
    function, which is truthy, and [+ 1] appends to its text; the text is
    truthy in turn.  An assignment to [__proto__] of a value that is not an
    object does nothing. *)
Definition tally (key : string) (counts : gmap string Tally) : gmap string Tally :=
  if String.eqb key "__proto__" then counts
  else
    match counts !! key with
    | Some (Count n) => <[key := Count (S n)]> counts
    | Some (InheritedText ones) => <[key := InheritedText (S ones)]> counts
    | None =>
        if JS.inherited key then <[key := InheritedText 1]> counts
        else <[key := Count 1]> counts
    end.

(** [getAlertStats()] with [Date.now()] read as [now]. *)
Definition getAlertStats (now : Z) (this : t) : AlertStats :=
  let recentTime := (now - 3600000)%Z in
  foldl
    (fun stats alert =>
       {| total := total stats;
          active := active stats;
          bySeverity := tally (severityName (Alert.severity alert)) (bySeverity stats);
          byVehicle := tally (Alert.vehicleId alert) (byVehicle stats);
          recentCount :=
            if (recentTime <? Alert.createdAt alert)%Z then S (recentCount stats)
            else recentCount stats |})
    {| total := length (alertHistory this);
       active := size (activeAlerts this);
       bySeverity := ∅;
       byVehicle := ∅;
       recentCount := 0 |}
    (alertHistory this).

End AlertSystem.

(** ** The speed processor ([services/speedProcessor.js]) *)

Module SpeedProcessor.

(** [this.validator].  The module imports [SimpleSpeedValidator] while its
    constructor names [SpeedDataValidator]; the processor is therefore
    embedded over any validator, a function of the clock reading that it
    stamps as [receivedAt] and of the raw data.  A valid result carries the
    normalised reading, an invalid one the error list. *)
Inductive ValidationResult : Type :=
| Valid (data : SpeedData.t)
| Invalid (errors : list (string * string)).

Class Validator : Type := {
  validateSpeedData : Z -> SpeedMessage.t -> ValidationResult
}.

Record t : Type := mk {
  (** whether an alert system was injected *)
  alertSystem : bool;
  (** whether a data store was injected *)
  dataStore : bool;
  vehicleStates : gmap string VehicleState.t;
  speedLimit : Q;
  consecutiveLimit : nat;
  timeWindow : Z;
  processedCount : nat;
  violationCount : nat
}.

(** The constructor.  Its first statement,
    [this.validator = new SpeedDataValidator()], names a class that the
    module does not bind (it requires [SimpleSpeedValidator] only), so the
    constructor throws a [ReferenceError] before it assigns any field. *)
Definition constructor (alertSystem dataStore : bool)
    (speedLimit : Q) (consecutiveLimit : nat) (timeWindow : Z) : Completion t :=
  Throw ReferenceError.

(** The fields as the statements after the first assign them, from the
    three [config.get('alerts. ...')] values: a processor with no vehicle
    and nothing counted.  The methods below are embedded over any processor
    state and any validator. *)
Definition fresh (alertSystem dataStore : bool)
    (speedLimit : Q) (consecutiveLimit : nat) (timeWindow : Z) : t :=
  {| alertSystem := alertSystem;
     dataStore := dataStore;
     vehicleStates := ∅;
     speedLimit := speedLimit;
     consecutiveLimit := consecutiveLimit;
     timeWindow := timeWindow;
     processedCount := 0;
     violationCount := 0 |}.

Definition set_vehicleStates (m : gmap string VehicleState.t) (this : t) : t :=
  {| alertSystem := alertSystem this;
     dataStore := dataStore this;
     vehicleStates := m;
     speedLimit := speedLimit this;
     consecutiveLimit := consecutiveLimit this;
     timeWindow := timeWindow this;
     processedCount := processedCount this;
     violationCount := violationCount this |}.

Definition incr_processedCount (this : t) : t :=
  {| alertSystem := alertSystem this;
     dataStore := dataStore this;
     vehicleStates := vehicleStates this;
     speedLimit := speedLimit this;
     consecutiveLimit := consecutiveLimit this;
     timeWindow := timeWindow this;
     processedCount := S (processedCount this);
     violationCount := violationCount this |}.

Definition incr_violationCount (this : t) : t :=
  {| alertSystem := alertSystem this;
     dataStore := dataStore this;
     vehicleStates := vehicleStates this;
     speedLimit := speedLimit this;
     consecutiveLimit := consecutiveLimit this;
     timeWindow := timeWindow this;
     processedCount := processedCount this;
     violationCount := S (violationCount this) |}.

(** The object literal that [updateVehicleState] starts from when the map has
    no entry for the vehicle. *)
Definition initialState (vehicleId : string) : VehicleState.t :=
  {| VehicleState.vehicleId := vehicleId;
     VehicleState.lastSeen := JS.Null;
     VehicleState.consecutiveViolations := 0;
     VehicleState.totalViolations := 0;
     VehicleState.averageSpeed := 0;
     VehicleState.maxSpeed := 0;
     VehicleState.recordCount := 0;
     VehicleState.speedHistory := [] |}.

(** [updateVehicleState(speedData)]: the snapshot returned and the processor
    with the vehicle's entry written.  (The snapshot is a shallow copy: its
    history is the array of the stored state.)  The counters, [Math.max] and
    the comparison with the limit involve no rounding.  [averageSpeed] is the
    mean in exact arithmetic; the code rounds the product, the sum and the
    quotient to binary64 at each step, so the value it stores can differ from
    this one in the last digits, and nothing else is computed from it. *)
Definition updateVehicleState (speedData : SpeedData.t) (this : t) : VehicleState.t * t :=
  let vehicleId := SpeedData.vehicleId speedData in
  let currentState :=
    default (initialState vehicleId) (vehicleStates this !! vehicleId) in
  let lastSeen := SpeedData.timestamp speedData in
  let recordCount := S (VehicleState.recordCount currentState) in
  let maxSpeed := Qmax (VehicleState.maxSpeed currentState) (SpeedData.speed speedData) in
  let totalSpeed :=
    (VehicleState.averageSpeed currentState * inject_Z (Z.of_nat (recordCount - 1))
     + SpeedData.speed speedData)%Q in
  let averageSpeed := (totalSpeed / inject_Z (Z.of_nat recordCount))%Q in
  let pushed :=
    VehicleState.speedHistory currentState
    ++ [(SpeedData.speed speedData, SpeedData.timestamp speedData)] in
  let speedHistory := if 10 <? length pushed then tail pushed else pushed in
  let violating := JS.Qgtb (SpeedData.speed speedData) (speedLimit this) in
  let consecutiveViolations :=
    if violating then S (VehicleState.consecutiveViolations currentState) else 0 in
  let totalViolations :=
    if violating then S (VehicleState.totalViolations currentState)
    else VehicleState.totalViolations currentState in
  let newState :=
    {| VehicleState.vehicleId := VehicleState.vehicleId currentState;
       VehicleState.lastSeen := lastSeen;
       VehicleState.consecutiveViolations := consecutiveViolations;
       VehicleState.totalViolations := totalViolations;
       VehicleState.averageSpeed := averageSpeed;
       VehicleState.maxSpeed := maxSpeed;
       VehicleState.recordCount := recordCount;
       VehicleState.speedHistory := speedHistory |} in
  (newState, set_vehicleStates (<[vehicleId := newState]> (vehicleStates this)) this).

Definition classifySeverity (exceedPercentage : JS.number) : Severity :=
  if JS.gtb exceedPercentage (JS.Fin 50) then CRITICAL
  else if JS.gtb exceedPercentage (JS.Fin 25) then HIGH
  else if JS.gtb exceedPercentage (JS.Fin 10) then MEDIUM
  else LOW.

(** [checkSpeedViolation]; [now] is the [Date.now()] of the id and
    [detectedAt] the [new Date()].  The excess and the percentage are
    computed as the code computes them, each operation rounded to
    binary64. *)
Definition checkSpeedViolation (now detectedAt : Z) (speedData : SpeedData.t)
    (vehicleState : VehicleState.t) (this : t) : option Violation.t * t :=
  if Qle_bool (SpeedData.speed speedData) (speedLimit this) then (None, this)
  else
    let this' := incr_violationCount this in
    let exceedAmount := JS.sub (JS.Fin (SpeedData.speed speedData)) (JS.Fin (speedLimit this)) in
    let exceedPercentage :=
      JS.mul (JS.div exceedAmount (JS.Fin (speedLimit this))) (JS.Fin 100) in
    let severity := classifySeverity exceedPercentage in
    let isConsecutive :=
      consecutiveLimit this <=? VehicleState.consecutiveViolations vehicleState in
    (Some
       {| Violation.id := (now, SpeedData.vehicleId speedData);
          Violation.vehicleId := SpeedData.vehicleId speedData;
          Violation.speed := SpeedData.speed speedData;
          Violation.speedLimit := speedLimit this;
          Violation.exceedAmount := exceedAmount;
          Violation.exceedPercentage := JS.parseFixed2 exceedPercentage;
          Violation.severity := severity;
          Violation.isConsecutive := isConsecutive;
          Violation.consecutiveCount := VehicleState.consecutiveViolations vehicleState;
          Violation.timestamp := SpeedData.timestamp speedData;
          Violation.location := JS.or (SpeedData.location speedData) JS.Null;
          Violation.vehicleType :=
            JS.or (SpeedData.vehicleType speedData) (JS.Str "unknown");
          Violation.detectedAt := detectedAt |},
     this').

(** [getProcessingStats()]; the violation rate is the exact quotient,
    rounded to two decimals. *)
Record Stats : Type := mkStats {
  stats_processedCount : nat;
  stats_violationCount : nat;
  stats_activeVehicles : nat;
  stats_speedLimit : Q;
  stats_violationRate : Q
}.

Definition getProcessingStats (this : t) : Stats :=
  {| stats_processedCount := processedCount this;
     stats_violationCount := violationCount this;
     stats_activeVehicles := size (vehicleStates this);
     stats_speedLimit := speedLimit this;
     stats_violationRate :=
       if 0 <? processedCount this
       then JS.toFixed2
              (inject_Z (Z.of_nat (violationCount this))
               / inject_Z (Z.of_nat (processedCount this)) * 100)%Q
       else 0%Q |}.

(** The clock readings and collaborator outcomes of one [processSpeedData]. *)
Record Env : Type := mkEnv {
  (** the clock as the validator reads it *)
  now_validate : Z;
  (** [Date.now()] in the violation id *)
  now_violationId : Z;
  (** [new Date()] for [detectedAt] *)
  now_detectedAt : Z;
  (** whether [dataStore.saveSpeedRecord] resolves *)
  saveSpeedRecord_ok : bool;
  alertEnv : AlertSystem.Env
}.

Inductive Result : Type :=
| ValidationFailed (details : list (string * string))
| Success (data : SpeedData.t) (vehicleState : VehicleState.t)
    (violation : option Violation.t) (stats : Stats)
| ProcessingError (error : Error).

Definition on_this {A} (m : M t A) : M (t * AlertSystem.t) A :=
  zoom fst (fun this s => (this, s.2)) m.

Definition on_alertSystem {A} (m : M AlertSystem.t A) : M (t * AlertSystem.t) A :=
  zoom snd (fun alerts s => (s.1, alerts)) m.

(** *** [validators/simpleSpeedValidator.js]

    The validator that [speedProcessor.js] imports, on the object that the
    parse step produces. *)

Section SimpleSpeedValidator.
Context {runtime : JS.Runtime}.

Definition validVehicleTypes : list string :=
  ["car"; "truck"; "bus"; "motorcycle"; "emergency"; "public"; "unknown"].

Definition check_vehicleId (vehicleId : string) : list (string * string) :=
  if String.eqb vehicleId EmptyString
  then [("vehicleId", "vehicleId is required and must be a string")]
  else if (String.length vehicleId <? 3) || (20 <? String.length vehicleId)
  then [("vehicleId", "vehicleId must be between 3 and 20 characters")]
  else if negb (JS.test_alnum vehicleId)
  then [("vehicleId", "vehicleId must contain only alphanumeric characters")]
  else [].

Definition check_speed (speed : JS.number) : list (string * string) :=
  if JS.isNaN speed
  then [("speed", "speed must be a valid number")]
  else if JS.ltb speed (JS.Fin 0) || JS.gtb speed (JS.Fin 500)
  then [("speed", "speed must be between 0 and 500 km/h")]
  else [].

(** The timestamp branch: the errors and the normalised timestamp, or a
    throw when [toISOString] meets an invalid date. *)
Definition check_timestamp (now : Z) (timestamp : JS.value)
    : Completion (list (string * string) * JS.value) :=
  if JS.truthy timestamp then
    match timestamp with
    | JS.Str text =>
        match JS.Date_parse text with
        | None => Return ([("timestamp", "timestamp must be a valid date string")], timestamp)
        | Some ms => Return ([], JS.Str (JS.toISOString ms))
        end
    | JS.Num n =>
        match JS.timeClip n with
        | Some ms => Return ([], JS.Str (JS.toISOString ms))
        | None => Throw (Rejected "RangeError: Invalid time value")
        end
    | JS.DateV _ => Return ([], timestamp)
    | _ => Return ([("timestamp", "timestamp must be a date, string, or number")], timestamp)
    end
  else Return ([], JS.Str (JS.toISOString now)).

Definition in_range (lo hi : Q) (v : JS.value) : bool :=
  match v with
  | JS.Num n => negb (JS.ltb n (JS.Fin lo) || JS.gtb n (JS.Fin hi))
  | _ => false
  end.

Definition is_undefined (v : JS.value) : bool :=
  match v with JS.Undefined => true | _ => false end.

Definition check_location (location : JS.value) : list (string * string) * JS.value :=
  if negb (is_undefined location) && negb (JS.is_null location) then
    if negb (bool_decide (JS.typeof location = JS.TObject))
    then ([("location", "location must be an object or null")], location)
    else
      let hasLat := negb (is_undefined (JS.get location "lat"))
                    || negb (is_undefined (JS.get location "latitude")) in
      let hasLng := negb (is_undefined (JS.get location "lng"))
                    || negb (is_undefined (JS.get location "longitude")) in
      if hasLat || hasLng then
        let lat := JS.or (JS.get location "lat") (JS.get location "latitude") in
        let lng := JS.or (JS.get location "lng") (JS.get location "longitude") in
        ((if in_range (-90) 90 lat then []
          else [("location.latitude", "latitude must be a number between -90 and 90")])
         ++
         (if in_range (-180) 180 lng then []
          else [("location.longitude", "longitude must be a number between -180 and 180")]),
         JS.Obj [("lat", lat); ("lng", lng)])
      else ([], location)
  else ([], location).

Definition normalize_vehicleType (vehicleType : JS.value) : JS.value :=
  let normalized := JS.or vehicleType (JS.Str "unknown") in
  if JS.truthy vehicleType
     && negb (match vehicleType with
              | JS.Str s => bool_decide (s ∈ validVehicleTypes)
              | _ => false
              end)
  then JS.Str "unknown"
  else normalized.

Definition normalize_metadata (metadata : JS.value) : JS.value :=
  if negb (is_undefined metadata) && negb (JS.is_null metadata)
     && negb (bool_decide (JS.typeof metadata = JS.TObject))
  then JS.Null
  else metadata.

(** The number behind a speed that passed [check_speed]. *)
Definition finite (speed : JS.number) : Q :=
  match speed with JS.Fin q => q | _ => 0%Q end.

Definition simple_validateSpeedData (now : Z) (data : SpeedMessage.t) : ValidationResult :=
  match check_timestamp now (SpeedMessage.timestamp data) with
  | Throw _ => Invalid [("unknown", "Unexpected validation error")]
  | Return (timestampErrors, normalizedTimestamp) =>
      let '(locationErrors, normalizedLocation) :=
        check_location (SpeedMessage.location data) in
      let errors :=
        check_vehicleId (SpeedMessage.vehicleId data)
        ++ check_speed (SpeedMessage.speed data)
        ++ timestampErrors ++ locationErrors in
      if 0 <? length errors then Invalid errors
      else
        Valid
          {| SpeedData.vehicleId := JS.trim (SpeedMessage.vehicleId data);
             SpeedData.speed := finite (SpeedMessage.speed data);
             SpeedData.timestamp := normalizedTimestamp;
             SpeedData.location := normalizedLocation;
             SpeedData.vehicleType := normalize_vehicleType (SpeedMessage.vehicleType data);
             SpeedData.metadata := normalize_metadata (SpeedMessage.metadata data);
             SpeedData.receivedAt := now |}
  end.

Definition SimpleSpeedValidator : Validator :=
  {| validateSpeedData := simple_validateSpeedData |}.

End SimpleSpeedValidator.

Section WithValidator.
Context {validator : Validator}.

(** [processSpeedData(rawData)].  The state is [this] together with the
    alert system object that [this.alertSystem] refers to. *)
Definition processSpeedData (env : Env) (rawData : SpeedMessage.t)
    : M (t * AlertSystem.t) Result :=
  try_catch
    (match validateSpeedData (now_validate env) rawData with
     | Invalid errors => mret (ValidationFailed errors)
     | Valid speedData =>
         on_this (modify incr_processedCount) ;;
         vehicleState ← on_this (state (updateVehicleState speedData));
         violation ← on_this (state (checkSpeedViolation (now_violationId env)
                                        (now_detectedAt env) speedData vehicleState));
         this ← on_this get_this;
         (if dataStore this
          then call (SaveSpeedRecord speedData (saveSpeedRecord_ok env))
                 (saveSpeedRecord_ok env) "dataStore.saveSpeedRecord"
          else mret tt) ;;
         match violation with
         | Some v =>
             if alertSystem this
             then on_alertSystem
                    (AlertSystem.processViolation (alertEnv env) (Some v)) ;; mret tt
             else mret tt
         | None => mret tt
         end ;;
         this ← on_this get_this;
         mret (Success speedData vehicleState violation (getProcessingStats this))
     end)
    (fun error => mret (ProcessingError error)).

End WithValidator.

(** [getVehicleState(vehicleId)]; [None] is its [null]. *)
Definition getVehicleState (vehicleId : string) (this : t) : option VehicleState.t :=
  vehicleStates this !! vehicleId.

(** Whether [cleanupOldStates] deletes an entry: [state.lastSeen < cutoffTime]
    for the date [cutoffTime]. *)
Definition expired {coercions : JS.Coercions} (cutoffTime : Z)
    (entry : string * VehicleState.t) : bool :=
  JS.ltb (JS.toNumber (VehicleState.lastSeen entry.2)) (JS.Fin (inject_Z cutoffTime)).

(** [cleanupOldStates(maxAge)] with [Date.now()] read as [now]: the number of
    entries deleted and the processor without them. *)
Definition cleanupOldStates {coercions : JS.Coercions} (now maxAge : Z) (this : t)
    : nat * t :=
  let cutoffTime := (now - maxAge)%Z in
  let cleaned := filter (fun entry => expired cutoffTime entry = true) (vehicleStates this) in
  let kept := filter (fun entry => expired cutoffTime entry = false) (vehicleStates this) in
  (size cleaned, set_vehicleStates kept this).

(** [resetStats()] *)
Definition resetStats (this : t) : t :=
  {| alertSystem := alertSystem this;
     dataStore := dataStore this;
     vehicleStates := vehicleStates this;
     speedLimit := speedLimit this;
     consecutiveLimit := consecutiveLimit this;
     timeWindow := timeWindow this;
     processedCount := 0;
     violationCount := 0 |}.

(** The argument of [updateConfiguration]; a key that is missing is [None]. *)
Record NewConfig : Type := mkNewConfig {
  new_speedLimit : option Q;
  new_consecutiveLimit : option nat;
  new_timeWindow : option Z
}.

(** [updateConfiguration(newConfig)]: a value is taken only if it is truthy
    and positive. *)
Definition updateConfiguration (newConfig : NewConfig) (this : t) : t :=
  {| alertSystem := alertSystem this;
     dataStore := dataStore this;
     vehicleStates := vehicleStates this;
     speedLimit :=
       match new_speedLimit newConfig with
       | Some limit =>
           if negb (Qeq_bool limit 0) && JS.Qgtb limit 0 then limit else speedLimit this
       | None => speedLimit this
       end;
     consecutiveLimit :=
       match new_consecutiveLimit newConfig with
       | Some limit =>
           if negb (limit =? 0) && (0 <? limit) then limit else consecutiveLimit this
       | None => consecutiveLimit this
       end;
     timeWindow :=
       match new_timeWindow newConfig with
       | Some window =>
           if negb (window =? 0)%Z && (0 <? window)%Z then window else timeWindow this
       | None => timeWindow this
       end;
     processedCount := processedCount this;
     violationCount := violationCount this |}.

(** [isSpeedViolation(data, speedLimit)] of the validators, on a validated
    reading. *)
Definition isSpeedViolation (data : SpeedData.t) (speedLimit : Q) : bool :=
  JS.Qgtb (SpeedData.speed data) speedLimit.

End SpeedProcessor.

(** ** The message handler ([services/mqttSpeedProcessor.js]) *)

Module MqttSpeedProcessor.

Record t : Type := mk {
  alertSystem : AlertSystem.t;
  speedProcessor : SpeedProcessor.t;
  isRunning : bool;
  messageCount : nat;
  errorCount : nat;
  lastMessageTime : option Z;
  startTime : option Z;
  speedLimit : Q;
  consecutiveLimit : nat
}.

(** The fields as the constructor assigns them, around a given speed
    processor, with [config.get('alerts.speedLimit')] and
    [config.get('alerts.consecutiveLimit')]. *)
Definition around (speedProcessor : SpeedProcessor.t)
    (speedLimit : Q) (consecutiveLimit : nat) : t :=
  {| alertSystem := AlertSystem.constructor true [];
     speedProcessor := speedProcessor;
     isRunning := false;
     messageCount := 0;
     errorCount := 0;
     lastMessageTime := None;
     startTime := None;
     speedLimit := if Qeq_bool speedLimit 0 then 60 else speedLimit;
     consecutiveLimit := if consecutiveLimit =? 0 then 3 else consecutiveLimit |}.

(** The constructor, with the three [config.get('alerts. ...')] values: it
    builds the broker client, the repositories and the alert engine, and
    then calls [new SpeedProcessor(...)], whose throw it does not catch. *)
Definition constructor (speedLimit : Q) (consecutiveLimit : nat) (timeWindow : Z)
    : Completion t :=
  match SpeedProcessor.constructor true true speedLimit consecutiveLimit timeWindow with
  | Return speedProcessor => Return (around speedProcessor speedLimit consecutiveLimit)
  | Throw error => Throw error
  end.

Definition receive (now : Z) (this : t) : t :=
  {| alertSystem := alertSystem this;
     speedProcessor := speedProcessor this;
     isRunning := isRunning this;
     messageCount := S (messageCount this);
     errorCount := errorCount this;
     lastMessageTime := Some now;
     startTime := startTime this;
     speedLimit := speedLimit this;
     consecutiveLimit := consecutiveLimit this |}.

Definition incr_errorCount (this : t) : t :=
  {| alertSystem := alertSystem this;
     speedProcessor := speedProcessor this;
     isRunning := isRunning this;
     messageCount := messageCount this;
     errorCount := S (errorCount this);
     lastMessageTime := lastMessageTime this;
     startTime := startTime this;
     speedLimit := speedLimit this;
     consecutiveLimit := consecutiveLimit this |}.

Definition set_services (s : SpeedProcessor.t * AlertSystem.t) (this : t) : t :=
  {| alertSystem := s.2;
     speedProcessor := s.1;
     isRunning := isRunning this;
     messageCount := messageCount this;
     errorCount := errorCount this;
     lastMessageTime := lastMessageTime this;
     startTime := startTime this;
     speedLimit := speedLimit this;
     consecutiveLimit := consecutiveLimit this |}.

(** Run a method of [this.speedProcessor], which shares [this.alertSystem]. *)
Definition on_speedProcessor {A} (m : M (SpeedProcessor.t * AlertSystem.t) A) : M t A :=
  zoom (fun this => (speedProcessor this, alertSystem this)) set_services m.

(** The clock readings and the outcome of one [publishAlert]. *)
Record PublishEnv : Type := mkPublishEnv {
  now_alertId : Z;
  now_generatedAt : Z;
  publish_ok : bool
}.

(** The clock readings and collaborator outcomes of one [handleSpeedMessage]. *)
Record Env : Type := mkEnv {
  (** [new Date()] on entry *)
  now_message : Z;
  (** [new Date()] for a missing timestamp in [parseSpeedMessage] *)
  now_timestamp : Z;
  processEnv : SpeedProcessor.Env;
  simpleEnv : PublishEnv;
  criticalEnv : PublishEnv
}.

(** The alert data that [generateAlerts] hands to [publishAlert]. *)
Record AlertDraft : Type := mkDraft {
  draft_type : AlertMessage.Kind;
  draft_vehicleId : string;
  draft_speed : Q;
  draft_speedLimit : Q;
  draft_consecutiveCount : option nat;
  draft_timestamp : JS.value;
  draft_message : AlertMessage.Text
}.

Section WithRuntime.
Context {runtime : JS.Runtime} {validator : SpeedProcessor.Validator}.

(** The number behind a value whose [typeof] is ['number']. *)
Definition number_of (v : JS.value) : JS.number :=
  match v with JS.Num n => n | _ => JS.NaN end.

(** The part of [parseSpeedMessage] after the payload is an object. *)
Definition normalizeMessage (now : Z) (parsedMessage : JS.value) : option SpeedMessage.t :=
  if negb (JS.truthy parsedMessage)
     || negb (bool_decide (JS.typeof parsedMessage = JS.TObject))
  then None
  else if negb (JS.truthy (JS.get parsedMessage "vehicleId"))
          || negb (bool_decide (JS.typeof (JS.get parsedMessage "speed") = JS.TNumber))
  then None
  else
    let speed := number_of (JS.get parsedMessage "speed") in
    if JS.isNaN speed || JS.ltb speed (JS.Fin 0) || JS.gtb speed (JS.Fin 500)
    then None
    else
      Some
        {| SpeedMessage.vehicleId :=
             JS.trim (JS.ToString (JS.get parsedMessage "vehicleId"));
           SpeedMessage.speed := speed;
           SpeedMessage.timestamp :=
             JS.or (JS.get parsedMessage "timestamp") (JS.Str (JS.toISOString now));
           SpeedMessage.location := JS.or (JS.get parsedMessage "location") JS.Null;
           SpeedMessage.vehicleType :=
             JS.or (JS.get parsedMessage "vehicleType") (JS.Str "unknown");
           SpeedMessage.metadata := JS.or (JS.get parsedMessage "metadata") JS.Null |}.

(** [parseSpeedMessage(message)]: [None] is its [null]; a [JSON.parse] that
    throws lands in the [catch], which returns [null] as well. *)
Definition parseSpeedMessage (now : Z) (message : JS.value) : option SpeedMessage.t :=
  match message with
  | JS.Str text =>
      (* typeof message === 'string' *)
      if negb (JS.truthy message) || (String.length (JS.trim text) =? 0) then None
      else
        match JS.JSON_parse text with
        | Some parsedMessage => normalizeMessage now parsedMessage
        | None => None
        end
  | _ =>
      if bool_decide (JS.typeof message = JS.TObject) && negb (JS.is_null message)
      then normalizeMessage now message
      else None
  end.

(** [publishAlert(alertData)]: the draft completed with [alertId] and
    [generatedAt], sent with QoS 2; a rejected publish is caught here. *)
Definition publishAlert (env : PublishEnv) (alertData : AlertDraft) : M t unit :=
  try_catch
    (let alertMessage :=
       {| AlertMessage.type := draft_type alertData;
          AlertMessage.vehicleId := draft_vehicleId alertData;
          AlertMessage.speed := draft_speed alertData;
          AlertMessage.speedLimit := draft_speedLimit alertData;
          AlertMessage.consecutiveCount := draft_consecutiveCount alertData;
          AlertMessage.timestamp := draft_timestamp alertData;
          AlertMessage.message := draft_message alertData;
          AlertMessage.alertId := (now_alertId env, draft_vehicleId alertData);
          AlertMessage.generatedAt := now_generatedAt env |} in
     call (MqttPublish alertMessage (publish_ok env)) (publish_ok env) "mqttClient.publish")
    (fun error => mret tt).

(** [generateAlerts(processingResult)], on the [data], [violation] and
    [vehicleState] of a successful result. *)
Definition generateAlerts (env : Env) (speedData : SpeedData.t)
    (violation : option Violation.t) (vehicleState : VehicleState.t) : M t unit :=
  match violation with
  | None => mret tt
  | Some violation =>
      try_catch
        (this ← get_this;
         (if JS.Qgtb (Violation.speed violation) (speedLimit this)
          then
            publishAlert (simpleEnv env)
              {| draft_type := AlertMessage.SIMPLE;
                 draft_vehicleId := Violation.vehicleId violation;
                 draft_speed := Violation.speed violation;
                 draft_speedLimit := speedLimit this;
                 draft_consecutiveCount := None;
                 draft_timestamp := SpeedData.timestamp speedData;
                 draft_message :=
                   AlertMessage.ExceededSpeed (Violation.vehicleId violation)
                     (Violation.speed violation) (SpeedData.timestamp speedData) |}
          else mret tt) ;;
         (if Violation.isConsecutive violation
             && (consecutiveLimit this <=? Violation.consecutiveCount violation)
          then
            publishAlert (criticalEnv env)
              {| draft_type := AlertMessage.CRITICAL;
                 draft_vehicleId := Violation.vehicleId violation;
                 draft_speed := Violation.speed violation;
                 draft_speedLimit := speedLimit this;
                 draft_consecutiveCount := Some (Violation.consecutiveCount violation);
                 draft_timestamp := SpeedData.timestamp speedData;
                 draft_message :=
                   AlertMessage.ExceededConsecutively (Violation.vehicleId violation)
                     (Violation.consecutiveCount violation) |}
          else mret tt))
        (fun error => mret tt)
  end.

(** [handleSpeedMessage(topic, message)].  The statistics printed every 50
    messages go to the console only. *)
Definition handleSpeedMessage (env : Env) (topic : string) (message : JS.value) : M t unit :=
  modify (receive (now_message env)) ;;
  try_catch
    (match parseSpeedMessage (now_timestamp env) message with
     | None => modify incr_errorCount
     | Some speedData =>
         processingResult ←
           on_speedProcessor
             (SpeedProcessor.processSpeedData (processEnv env) speedData);
         match processingResult with
         | SpeedProcessor.Success data vehicleState violation _ =>
             generateAlerts env data violation vehicleState
         | _ => modify incr_errorCount
         end
     end)
    (fun error => modify incr_errorCount).

(** The broker client's dispatch ([MqttClient.handleMessage]): the payload
    text is parsed if it can be, and handed over as text otherwise. *)
Definition deliver (env : Env) (topic : string) (payload : string) : M t unit :=
  let parsedMessage :=
    match JS.JSON_parse payload with
    | Some v => v
    | None => JS.Str payload
    end in
  handleSpeedMessage env topic parsedMessage.

(** A stream of payloads, each with the environment of its handler run. *)
Fixpoint deliverAll (stream : list (Env * string)) (topic : string) : M t unit :=
  match stream with
  | [] => mret tt
  | (env, payload) :: rest => deliver env topic payload ;; deliverAll rest topic
  end.

End WithRuntime.

End MqttSpeedProcessor.

(** ** Observations used in the statements *)

Module Observe.

(** The state record of a vehicle, or the initial one if the map has none. *)
Definition stateOf (vehicleId : string) (this : SpeedProcessor.t) : VehicleState.t :=
  default (SpeedProcessor.initialState vehicleId)
          (SpeedProcessor.vehicleStates this !! vehicleId).

(** Feed readings, oldest first, to [updateVehicleState]. *)
Definition updateAll (readings : list SpeedData.t) (this : SpeedProcessor.t)
    : SpeedProcessor.t :=
  foldl (fun s r => (SpeedProcessor.updateVehicleState r s).2) this readings.

(** Whether a reading is above the limit of the processor. *)
Definition violating (this : SpeedProcessor.t) (r : SpeedData.t) : bool :=
  JS.Qgtb (SpeedData.speed r) (SpeedProcessor.speedLimit this).

(** The synchronous part of [processSpeedData] on a valid reading, as the
    method runs it: count the reading, update the vehicle state, classify. *)
Definition synchronous (env : SpeedProcessor.Env) (speedData : SpeedData.t)
    (this : SpeedProcessor.t) : VehicleState.t * option Violation.t * SpeedProcessor.t :=
  let '(vehicleState, this2) :=
    SpeedProcessor.updateVehicleState speedData (SpeedProcessor.incr_processedCount this) in
  let '(violation, this3) :=
    SpeedProcessor.checkSpeedViolation (SpeedProcessor.now_violationId env)
      (SpeedProcessor.now_detectedAt env) speedData vehicleState this2 in
  (vehicleState, violation, this3).

(** The readings of one vehicle among a list of readings. *)
Definition readingsOf (vehicleId : string) (readings : list SpeedData.t) : list SpeedData.t :=
  filter (fun r => SpeedData.vehicleId r = vehicleId) readings.

Definition sumQ (l : list Q) : Q := foldr Qplus 0%Q l.

(** The arithmetic mean of a non-empty list. *)
Definition mean (l : list Q) : Q := (sumQ l / inject_Z (Z.of_nat (length l)))%Q.

(** The history entry that a reading pushes. *)
Definition sample (r : SpeedData.t) : Q * JS.value :=
  (SpeedData.speed r, SpeedData.timestamp r).

(** What the tracker knows of a vehicle after the readings [seen] of it. *)
Definition summarises (st : VehicleState.t) (seen : list SpeedData.t) : Prop :=
  VehicleState.recordCount st = length seen /\
  (VehicleState.averageSpeed st * inject_Z (Z.of_nat (length seen))
   == sumQ (map SpeedData.speed seen))%Q /\
  VehicleState.speedHistory st = drop (length seen - 10) (map sample seen).

(** The percentage over the limit as [checkSpeedViolation] computes it, each
    operation rounded, and the percentage itself. *)
Definition percentOver (speed limit : Q) : JS.number :=
  JS.mul (JS.div (JS.sub (JS.Fin speed) (JS.Fin limit)) (JS.Fin limit)) (JS.Fin 100).

Definition exactPercentOver (speed limit : Q) : Q := ((speed - limit) / limit * 100)%Q.

(** One use of the alert engine by its owner. *)
Inductive Call : Type :=
| ProcessViolation (env : AlertSystem.Env) (violation : option Violation.t)
| CleanupOldAlerts (now maxAge : Z).

Definition call1 (c : Call) (this : AlertSystem.t) : AlertSystem.t :=
  match c with
  | ProcessViolation env violation =>
      (run (AlertSystem.processViolation env violation) this).1.2
  | CleanupOldAlerts now maxAge => (AlertSystem.cleanupOldAlerts now maxAge this).2
  end.

Definition calls (cs : list Call) (this : AlertSystem.t) : AlertSystem.t :=
  foldl (fun s c => call1 c s) this cs.



(** The two stateful services that the handler drives. *)
Definition services (this : MqttSpeedProcessor.t) : SpeedProcessor.t * AlertSystem.t :=
  (MqttSpeedProcessor.speedProcessor this, MqttSpeedProcessor.alertSystem this).

(** Two handler states that differ at most in the message statistics. *)
Definition sameServices (this that : MqttSpeedProcessor.t) : Prop :=
  services this = services that /\
  MqttSpeedProcessor.speedLimit this = MqttSpeedProcessor.speedLimit that /\
  MqttSpeedProcessor.consecutiveLimit this = MqttSpeedProcessor.consecutiveLimit that.

(** Whether a collaborator call hands an alert to the broker. *)
Definition is_publication (e : Event) : bool :=
  match e with
  | MqttPublishAlert _ _ | SendNotification _ _ _ | MqttPublish _ _ => true
  | SaveSpeedRecord _ _ => false
  end.

(** What the criteria of [getAlerts] ask of an alert, the limit apart. *)
Definition matches (criteria : AlertSystem.Criteria) (alert : Alert.t) : Prop :=
  (forall vehicleId,
     AlertSystem.by_vehicleId criteria = Some vehicleId ->
     vehicleId <> EmptyString -> Alert.vehicleId alert = vehicleId) /\
  (forall severity,
     AlertSystem.by_severity criteria = Some severity -> Alert.severity alert = severity) /\
  (forall startDate,
     AlertSystem.startDate criteria = Some startDate ->
     AlertSystem.given startDate = true ->
     exists time, AlertSystem.timeValue startDate = Some time /\
                  (time <= Alert.createdAt alert)%Z) /\
  (forall endDate,
     AlertSystem.endDate criteria = Some endDate ->
     AlertSystem.given endDate = true ->
     exists time, AlertSystem.timeValue endDate = Some time /\
                  (Alert.createdAt alert <= time)%Z).

(** The own property that [n] alerts leave under [key] in a tally that starts
    empty. *)
Definition tallied (key : string) (n : nat) : option AlertSystem.Tally :=
  if n =? 0 then None
  else if String.eqb key "__proto__" then None
  else if JS.inherited key then Some (AlertSystem.InheritedText n)
  else Some (AlertSystem.Count n).

(** The same criteria without the limit. *)
Definition unlimited (criteria : AlertSystem.Criteria) : AlertSystem.Criteria :=
  {| AlertSystem.by_vehicleId := AlertSystem.by_vehicleId criteria;
     AlertSystem.by_severity := AlertSystem.by_severity criteria;
     AlertSystem.startDate := AlertSystem.startDate criteria;
     AlertSystem.endDate := AlertSystem.endDate criteria;
     AlertSystem.limit := None |}.

(** What holds of the state stored for a vehicle under [key]. *)
Definition wellFormed (key : string) (st : VehicleState.t) : Prop :=
  VehicleState.vehicleId st = key /\
  VehicleState.consecutiveViolations st <= VehicleState.totalViolations st /\
  VehicleState.totalViolations st <= VehicleState.recordCount st /\
  1 <= VehicleState.recordCount st /\
  length (VehicleState.speedHistory st) = min (VehicleState.recordCount st) 10.

(** One use of the speed processor through its synchronous methods. *)
Inductive TrackerOp : Type :=
| Update (r : SpeedData.t)
| Check (now detectedAt : Z) (r : SpeedData.t) (snapshot : VehicleState.t)
| CleanupOldStates (now maxAge : Z)
| ResetStats
| UpdateConfiguration (newConfig : SpeedProcessor.NewConfig).

Section TrackerOps.
Context {coercions : JS.Coercions}.

Definition trackerOp1 (op : TrackerOp) (this : SpeedProcessor.t) : SpeedProcessor.t :=
  match op with
  | Update r => (SpeedProcessor.updateVehicleState r this).2
  | Check now detectedAt r snapshot =>
      (SpeedProcessor.checkSpeedViolation now detectedAt r snapshot this).2
  | CleanupOldStates now maxAge => (SpeedProcessor.cleanupOldStates now maxAge this).2
  | ResetStats => SpeedProcessor.resetStats this
  | UpdateConfiguration newConfig => SpeedProcessor.updateConfiguration newConfig this
  end.

Definition trackerOps (ops : list TrackerOp) (this : SpeedProcessor.t) : SpeedProcessor.t :=
  foldl (fun s op => trackerOp1 op s) this ops.

End TrackerOps.



(** What is configured in the processor, in the alert engine and in the
    handler, as opposed to what they record. *)
Definition processorConfiguration (sp : SpeedProcessor.t) : Q * nat * Z * bool * bool :=
  (SpeedProcessor.speedLimit sp, SpeedProcessor.consecutiveLimit sp,
   SpeedProcessor.timeWindow sp, SpeedProcessor.dataStore sp, SpeedProcessor.alertSystem sp).

Definition engineConfiguration (alerts : AlertSystem.t) : bool * list string * nat * Z :=
  (AlertSystem.mqttClient alerts, AlertSystem.notificationHandlers alerts,
   AlertSystem.maxHistorySize alerts, AlertSystem.suppressionWindow alerts).

Definition configuration (this : MqttSpeedProcessor.t)
    : Q * nat * bool * option Z * (Q * nat * Z * bool * bool) * (bool * list string * nat * Z) :=
  (MqttSpeedProcessor.speedLimit this, MqttSpeedProcessor.consecutiveLimit this,
   MqttSpeedProcessor.isRunning this, MqttSpeedProcessor.startTime this,
   processorConfiguration (MqttSpeedProcessor.speedProcessor this),
   engineConfiguration (MqttSpeedProcessor.alertSystem this)).

Section Malformed.
Context {runtime : JS.Runtime}.

(** An object without a numeric [speed]: the field is missing or is not a
    number. *)
Definition lacksSpeed (o : JS.value) : Prop :=
  JS.typeof (JS.get o "speed") <> JS.TNumber.

(** The malformed messages: a blank text, a text that [JSON.parse] rejects, a
    text or a pre-parsed value that carries no numeric [speed]. *)
Inductive malformed : JS.value -> Prop :=
| blank (text : string) :
    String.length (JS.trim text) = 0 -> malformed (JS.Str text)
| unparsable (text : string) :
    JS.JSON_parse text = None -> malformed (JS.Str text)
| text_without_speed (text : string) (o : JS.value) :
    JS.JSON_parse text = Some o -> lacksSpeed o -> malformed (JS.Str text)
| value_without_speed (o : JS.value) :
    JS.typeof o <> JS.TString -> lacksSpeed o -> malformed o.

End Malformed.

End Observe.

(** ** Concrete inputs for the examples *)

Module Sample.

Definition reading (vehicleId : string) (speed : Q) : SpeedData.t :=
  {| SpeedData.vehicleId := vehicleId;
     SpeedData.speed := speed;
     SpeedData.timestamp := JS.DateV 0;
     SpeedData.location := JS.Null;
     SpeedData.vehicleType := JS.Str "car";
     SpeedData.metadata := JS.Null;
     SpeedData.receivedAt := 0 |}.

(** The finite number that a decimal literal denotes. *)
Definition decimal (q : Q) : Q :=
  match JS.round64 q with
  | JS.Fin x => x
  | _ => 0%Q
  end.

Definition violation (vehicleId : string) (speed : Q) (severity : Severity)
    (consecutiveCount : nat) : Violation.t :=
  {| Violation.id := (0%Z, vehicleId);
     Violation.vehicleId := vehicleId;
     Violation.speed := speed;
     Violation.speedLimit := 60;
     Violation.exceedAmount := JS.sub (JS.Fin speed) (JS.Fin 60);
     Violation.exceedPercentage :=
       JS.parseFixed2
         (JS.mul (JS.div (JS.sub (JS.Fin speed) (JS.Fin 60)) (JS.Fin 60)) (JS.Fin 100));
     Violation.severity := severity;
     Violation.isConsecutive := 3 <=? consecutiveCount;
     Violation.consecutiveCount := consecutiveCount;
     Violation.timestamp := JS.DateV 0;
     Violation.location := JS.Null;
     Violation.vehicleType := JS.Str "car";
     Violation.detectedAt := 0 |}.

(** An environment in which every clock read gives [now] and every
    collaborator call succeeds. *)
Definition alertEnv (now : Z) : AlertSystem.Env :=
  {| AlertSystem.now_suppress := now;
     AlertSystem.now_alertId := now;
     AlertSystem.now_createdAt := now;
     AlertSystem.now_lastAlert := now;
     AlertSystem.publishAlert_ok := true;
     AlertSystem.sendNotification_ok := fun _ => true |}.

(** Number conversions under which a text that is not empty is not a
    number (as the ISO text of a date is not). *)
Definition coercions : JS.Coercions :=
  {| JS.StringToNumber := fun text =>
       if String.eqb text EmptyString then JS.Fin 0 else JS.NaN;
     JS.ObjectToNumber := fun _ => JS.NaN |}.

(** A reading stamped with a date. *)
Definition readingOn (ms : Z) (vehicleId : string) (speed : Q) : SpeedData.t :=
  {| SpeedData.vehicleId := vehicleId;
     SpeedData.speed := speed;
     SpeedData.timestamp := JS.DateV ms;
     SpeedData.location := JS.Null;
     SpeedData.vehicleType := JS.Str "car";
     SpeedData.metadata := JS.Null;
     SpeedData.receivedAt := ms |}.

(** A speed processor with a store and an alert engine and the default
    configuration (limit 60, threshold 3, time window 60000), before its
    first reading. *)
Definition processor : SpeedProcessor.t :=
  SpeedProcessor.fresh true true 60 3 60000.

(** The same processor under another speed limit. *)
Definition processorAt (speedLimit : Q) : SpeedProcessor.t :=
  SpeedProcessor.fresh true true speedLimit 3 60000.

Definition dq : string := String "034"%char EmptyString.

(** [{"vehicleId":"VEH005","speed":95}] *)
Definition speeding : string :=
  ("{" ++ dq ++ "vehicleId" ++ dq ++ ":" ++ dq ++ "VEH005" ++ dq ++ ","
   ++ dq ++ "speed" ++ dq ++ ":95}")%string.

(** [{"invalid": "json"], cut before the closing brace *)
Definition truncated : string :=
  ("{" ++ dq ++ "invalid" ++ dq ++ ": " ++ dq ++ "json" ++ dq)%string.

(** [{"vehicleId":"X"}] *)
Definition withoutSpeed : string :=
  ("{" ++ dq ++ "vehicleId" ++ dq ++ ":" ++ dq ++ "X" ++ dq ++ "}")%string.

(** A runtime that knows the payloads above and the epoch. *)
Definition runtime : JS.Runtime :=
  {| JS.JSON_parse := fun text =>
       if String.eqb text speeding
       then Some (JS.Obj [("vehicleId", JS.Str "VEH005"); ("speed", JS.Num (JS.Fin 95))])
       else if String.eqb text withoutSpeed
       then Some (JS.Obj [("vehicleId", JS.Str "X")])
       else None;
     JS.ToString := fun v => match v with JS.Str text => text | _ => EmptyString end;
     JS.Date_parse := fun _ => Some 0%Z;
     JS.toISOString := fun _ => "1970-01-01T00:00:00.000Z" |}.

(** The validator of [validators/simpleSpeedValidator.js] on that runtime. *)
Definition validator : SpeedProcessor.Validator :=
  @SpeedProcessor.SimpleSpeedValidator runtime.

(** An environment in which every clock read gives [now], the data store
    answers as [saved] says and the broker accepts every publication. *)
Definition processEnv (now : Z) (saved : bool) : SpeedProcessor.Env :=
  {| SpeedProcessor.now_validate := now;
     SpeedProcessor.now_violationId := now;
     SpeedProcessor.now_detectedAt := now;
     SpeedProcessor.saveSpeedRecord_ok := saved;
     SpeedProcessor.alertEnv := alertEnv now |}.

(** The same, for one run of the handler. *)
Definition env (now : Z) (saved : bool) : MqttSpeedProcessor.Env :=
  {| MqttSpeedProcessor.now_message := now;
     MqttSpeedProcessor.now_timestamp := now;
     MqttSpeedProcessor.processEnv := processEnv now saved;
     MqttSpeedProcessor.simpleEnv :=
       {| MqttSpeedProcessor.now_alertId := now;
          MqttSpeedProcessor.now_generatedAt := now;
          MqttSpeedProcessor.publish_ok := true |};
     MqttSpeedProcessor.criticalEnv :=
       {| MqttSpeedProcessor.now_alertId := now;
          MqttSpeedProcessor.now_generatedAt := now;
          MqttSpeedProcessor.publish_ok := true |} |}.

(** A handler around it, with the same limit and threshold, before its
    first message. *)
Definition service : MqttSpeedProcessor.t := MqttSpeedProcessor.around processor 60 3.

(** A pre-parsed message with the two required fields. *)
Definition message (vehicleId : string) (speed : Q) : JS.value :=
  JS.Obj [("vehicleId", JS.Str vehicleId); ("speed", JS.Num (JS.Fin speed))].

(** The reading that [validator] makes of [message vehicleId speed] at [now]. *)
Definition readingAt (now : Z) (vehicleId : string) (speed : Q) : SpeedData.t :=
  {| SpeedData.vehicleId := vehicleId;
     SpeedData.speed := speed;
     SpeedData.timestamp := JS.Str "1970-01-01T00:00:00.000Z";
     SpeedData.location := JS.Null;
     SpeedData.vehicleType := JS.Str "unknown";
     SpeedData.metadata := JS.Null;
     SpeedData.receivedAt := now |}.

End Sample.

(** ** Properties *)

Section Arithmetic.

Lemma Qgtb_spec (x y : Q) : JS.Qgtb x y = true <-> (y < x)%Q.
Proof.
  unfold JS.Qgtb. rewrite negb_true_iff.
  split.
  - intros H. apply Qnot_le_lt. intros Hle.
    apply Qle_bool_iff in Hle. congruence.
  - intros H. destruct (Qle_bool x y) eqn:E; [|reflexivity].
    apply Qle_bool_iff in E. lra.
Qed.

Lemma Qgtb_false (x y : Q) : JS.Qgtb x y = false <-> (x <= y)%Q.
Proof.
  unfold JS.Qgtb. rewrite negb_false_iff. apply Qle_bool_iff.
Qed.

Lemma Qle_bool_false (x y : Q) : Qle_bool x y = false <-> (y < x)%Q.
Proof.
  rewrite <- Qgtb_spec. unfold JS.Qgtb. now rewrite negb_true_iff.
Qed.

(** Rounding to hundredths lands on a multiple of 1/100 at distance at most
    1/200. *)
Lemma toFixed2_spec (x : Q) :
  exists n : Z,
    (JS.toFixed2 x == inject_Z n / 100)%Q /\
    (x - (1 # 200) <= JS.toFixed2 x)%Q /\ (JS.toFixed2 x <= x + (1 # 200))%Q.
Proof.
  unfold JS.toFixed2. destruct (Qle_bool 0 x) eqn:E.
  - exists (Qfloor (x * 100 + (1 # 2))). split; [reflexivity|].
    pose proof (Qfloor_le (x * 100 + (1 # 2))) as Hle.
    pose proof (Qlt_floor (x * 100 + (1 # 2))) as Hlt.
    rewrite inject_Z_plus in Hlt. change (inject_Z 1) with 1%Q in Hlt.
    set (f := inject_Z (Qfloor (x * 100 + (1 # 2)))) in *.
    split.
    + apply Qle_shift_div_l; lra.
    + apply Qle_shift_div_r; lra.
  - exists (- Qfloor (- x * 100 + (1 # 2)))%Z. split.
    + rewrite inject_Z_opp. field.
    + pose proof (Qfloor_le (- x * 100 + (1 # 2))) as Hle.
      pose proof (Qlt_floor (- x * 100 + (1 # 2))) as Hlt.
      rewrite inject_Z_plus in Hlt. change (inject_Z 1) with 1%Q in Hlt.
      set (f := inject_Z (Qfloor (- x * 100 + (1 # 2)))) in *.
      assert (H1 : (f / 100 <= - x + (1 # 200))%Q) by (apply Qle_shift_div_r; lra).
      assert (H2 : (- x - (1 # 200) <= f / 100)%Q) by (apply Qle_shift_div_l; lra).
      split; lra.
Qed.

Lemma Qpower2_pos (e : Z) : (0 < 2 ^ e)%Q.
Proof. apply Qpower_0_lt. reflexivity. Qed.

Lemma Qpower2_succ (e : Z) : (2 ^ (e + 1) == 2 * 2 ^ e)%Q.
Proof. rewrite Qpower_plus by discriminate. change (2 ^ 1)%Q with 2%Q. ring. Qed.

Lemma Qpower2_log2 (n : Z) :
  (0 < n)%Z ->
  (2 ^ Z.log2 n <= inject_Z n)%Q /\ (inject_Z n < 2 * 2 ^ Z.log2 n)%Q.
Proof.
  intros Hn. destruct (Z.log2_spec n Hn) as [Hlo Hhi].
  pose proof (Z.log2_nonneg n) as Hnn.
  rewrite <- Qpower2_succ.
  change 2%Q with (inject_Z 2).
  rewrite <- !Zpower_Qpower by lia.
  split; [rewrite <- Zle_Qle | rewrite <- Zlt_Qlt]; lia.
Qed.

Lemma ilog2_spec (q : Q) :
  (0 < q)%Q -> (2 ^ JS.ilog2 q <= q)%Q /\ (q < 2 * 2 ^ JS.ilog2 q)%Q.
Proof.
  intros Hq. destruct q as [n d].
  assert (Hn : (0 < n)%Z).
  { unfold Qlt in Hq. cbn in Hq. lia. }
  destruct (Qpower2_log2 n Hn) as [Hnlo Hnhi].
  destruct (Qpower2_log2 (Zpos d) eq_refl) as [Hdlo Hdhi].
  unfold JS.ilog2. cbn [Qnum Qden].
  set (ln := Z.log2 n) in *. set (ld := Z.log2 (Zpos d)) in *.
  pose proof (Qpower2_pos ln) as Hpn. pose proof (Qpower2_pos ld) as Hpd.
  assert (Hq' : (n # d == inject_Z n / inject_Z (Zpos d))%Q) by apply Qmake_Qdiv.
  assert (He : (2 ^ (ln - ld) == 2 ^ ln / 2 ^ ld)%Q)
    by (apply Qpower_minus; discriminate).
  assert (He1 : (2 ^ (ln - ld - 1) == 2 ^ ln / 2 ^ ld / 2)%Q).
  { rewrite Qpower_minus by discriminate. rewrite He. reflexivity. }
  set (N := inject_Z n) in *. set (D := inject_Z (Zpos d)) in *.
  assert (HD : (0 < D)%Q) by lra.
  assert (Hupper : (N / D < 2 * (2 ^ ln / 2 ^ ld))%Q).
  { apply Qlt_shift_div_r; [exact HD|].
    apply Qlt_le_trans with (2 * 2 ^ ln)%Q; [exact Hnhi|].
    setoid_replace (2 * (2 ^ ln / 2 ^ ld) * D)%Q with (2 * 2 ^ ln * (D / 2 ^ ld))%Q
      using relation Qeq by (field; lra).
    assert (1 <= D / 2 ^ ld)%Q by (apply Qle_shift_div_l; lra).
    nra. }
  assert (Hlower : (2 ^ ln / 2 ^ ld / 2 <= N / D)%Q).
  { apply Qle_shift_div_l; [exact HD|].
    setoid_replace (2 ^ ln / 2 ^ ld / 2 * D)%Q with (2 ^ ln * (D / (2 * 2 ^ ld)))%Q
      using relation Qeq by (field; lra).
    assert (D / (2 * 2 ^ ld) <= 1)%Q by (apply Qle_shift_div_r; lra).
    nra. }
  destruct (Qle_bool (2 ^ (ln - ld)) (n # d)) eqn:E.
  - apply Qle_bool_iff in E. split; [exact E|].
    rewrite Hq', He. exact Hupper.
  - assert (E' : (n # d < 2 ^ (ln - ld))%Q).
    { apply Qnot_le_lt. intros H. apply Qle_bool_iff in H. congruence. }
    split.
    + rewrite He1, Hq'. exact Hlower.
    + rewrite He1. rewrite He in E'. set (X := (2 ^ ln / 2 ^ ld)%Q) in *.
      setoid_replace (2 * (X / 2))%Q with X using relation Qeq by field.
      exact E'.
Qed.

Lemma roundEven_spec (y : Q) : (Qabs (inject_Z (JS.roundEven y) - y) <= 1 # 2)%Q.
Proof.
  unfold JS.roundEven.
  pose proof (Qfloor_le y) as Hle. pose proof (Qlt_floor y) as Hlt.
  rewrite inject_Z_plus in Hlt. change (inject_Z 1) with 1%Q in Hlt.
  apply Qabs_Qle_condition.
  destruct (y - inject_Z (Qfloor y) ?= 1 # 2)%Q eqn:E.
  - apply Qeq_alt in E.
    destruct (Z.even (Qfloor y)); [|rewrite inject_Z_plus; change (inject_Z 1) with 1%Q];
      split; lra.
  - apply Qlt_alt in E. split; lra.
  - apply Qgt_alt in E. rewrite inject_Z_plus. change (inject_Z 1) with 1%Q. split; lra.
Qed.

Lemma round64_pos_spec (q : Q) :
  (0 < q)%Q -> (q <= 2 ^ 1023)%Q ->
  exists x, JS.round64_pos q = JS.Fin x /\
    (Qabs (x - q) <= q * 2 ^ (-53) + 2 ^ (-1075))%Q.
Proof.
  intros Hq Hmax. unfold JS.round64_pos.
  set (e := Z.max (JS.ilog2 q - 52) (-1074)).
  set (m := inject_Z (JS.roundEven (q / 2 ^ e))).
  pose proof (Qpower2_pos e) as HP.
  assert (Hhalf : (Qabs (m * 2 ^ e - q) <= 2 ^ e / 2)%Q).
  { pose proof (roundEven_spec (q / 2 ^ e)) as Hr. fold m in Hr.
    apply Qabs_Qle_condition in Hr. destruct Hr as [Hr1 Hr2].
    assert (Hqe : (q == q / 2 ^ e * 2 ^ e)%Q) by (field; lra).
    apply Qabs_Qle_condition.
    set (y := (q / 2 ^ e)%Q) in *. set (P := (2 ^ e)%Q) in *.
    assert (H1 : (0 <= (m - y + (1 # 2)) * P)%Q) by (apply Qmult_le_0_compat; lra).
    assert (H2 : (0 <= ((1 # 2) - (m - y)) * P)%Q) by (apply Qmult_le_0_compat; lra).
    assert (E1 : ((m - y + (1 # 2)) * P == m * P - y * P + P / 2)%Q) by field.
    assert (E2 : (((1 # 2) - (m - y)) * P == P / 2 - m * P + y * P)%Q) by field.
    rewrite E1 in H1. rewrite E2 in H2.
    assert (Hqe1 : (q <= y * P)%Q) by (rewrite Hqe; apply Qle_refl).
    assert (Hqe2 : (y * P <= q)%Q) by (rewrite <- Hqe; apply Qle_refl).
    clearbody m y P. clear Hmax Hqe e. split; lra. }
  assert (Hbound : (2 ^ e / 2 <= q * 2 ^ (-53) + 2 ^ (-1075))%Q).
  { pose proof (Qpower2_pos (-53)) as Hu. pose proof (Qpower2_pos (-1075)) as Heta.
    destruct (ilog2_spec q Hq) as [Hlo _].
    destruct (Z.max_spec (JS.ilog2 q - 52) (-1074)) as [[_ He]|[_ He]];
      fold e in He; rewrite He.
    - setoid_replace (2 ^ (-1074) / 2)%Q with (2 ^ (-1075))%Q
      using relation Qeq by reflexivity.
      nra.
    - replace (JS.ilog2 q - 52)%Z with (JS.ilog2 q + (-53) + 1)%Z by lia.
      rewrite Qpower2_succ, Qpower_plus by discriminate.
      set (p := (2 ^ JS.ilog2 q)%Q) in *. set (u := (2 ^ (-53))%Q) in *.
      setoid_replace (2 * (p * u) / 2)%Q with (p * u)%Q
      using relation Qeq by field.
      nra. }
  assert (Hx : (Qred (m * 2 ^ e) == m * 2 ^ e)%Q) by apply Qred_correct.
  assert (Hu : (2 ^ (-53) <= 1 # 2)%Q) by (apply Qle_bool_iff; vm_compute; reflexivity).
  assert (Heta : (2 ^ (-1075) <= 1)%Q) by (apply Qle_bool_iff; vm_compute; reflexivity).
  assert (HT : (4 <= 2 ^ 1023)%Q) by (apply Qle_bool_iff; vm_compute; reflexivity).
  assert (HT2 : (2 ^ 1024 == 2 * 2 ^ 1023)%Q) by (apply (Qpower2_succ 1023)).
  apply Qabs_Qle_condition in Hhalf. destruct Hhalf as [Hh1 Hh2].
  set (T := (2 ^ 1023)%Q) in *. set (u := (2 ^ (-53))%Q) in *.
  set (eta := (2 ^ (-1075))%Q) in *. set (P := (2 ^ e)%Q) in *.
  set (x := Qred (m * P)) in *.
  assert (Hqu : (q * u <= T * (1 # 2))%Q).
  { apply Qmult_le_compat_nonneg; split; try lra.
    apply Qlt_le_weak, Qpower2_pos. }
  destruct (Qle_bool (2 ^ 1024) x) eqn:E.
  - apply Qle_bool_iff in E. exfalso. lra.
  - exists x. split; [reflexivity|].
    apply Qabs_Qle_condition. split; lra.
Qed.


(** Rounding to binary64 moves a number within range by at most its
    [2 ^ -53]-th part, or by [2 ^ -1075] among the subnormal values. *)
Lemma round64_spec (q : Q) :
  (Qabs q <= 2 ^ 1023)%Q ->
  exists x, JS.round64 q = JS.Fin x /\
    (Qabs (x - q) <= Qabs q * 2 ^ (-53) + 2 ^ (-1075))%Q.
Proof.
  intros Hmax. unfold JS.round64. cbv zeta.
  pose proof (Qred_correct q) as Hr.
  destruct (Qnum (Qred q)) as [|n|n] eqn:En.
  - assert (Hq : (q == 0)%Q).
    { rewrite <- Hr. destruct (Qred q) as [n d]. cbn in En. subst n. reflexivity. }
    exists 0%Q. split; [reflexivity|]. rewrite Hq. vm_compute. discriminate.
  - assert (Hpos : (0 < Qred q)%Q).
    { destruct (Qred q) as [n' d]. cbn in En. subst n'. reflexivity. }
    destruct (round64_pos_spec (Qred q) Hpos) as (x & Hx & Hb).
    { rewrite Hr. rewrite Qabs_pos in Hmax; [exact Hmax|]. rewrite <- Hr. lra. }
    exists x. split; [exact Hx|].
    rewrite Hr in Hb. rewrite (Qabs_pos q) by (rewrite <- Hr; lra). exact Hb.
  - assert (Hneg : (Qred q < 0)%Q).
    { destruct (Qred q) as [n' d]. cbn in En. subst n'. reflexivity. }
    destruct (round64_pos_spec (- Qred q)) as (x & Hx & Hb).
    { lra. }
    { rewrite Hr. rewrite Qabs_neg in Hmax; [exact Hmax|]. rewrite <- Hr. lra. }
    exists (- x)%Q. rewrite Hx. split; [reflexivity|].
    rewrite Hr in Hb. rewrite (Qabs_neg q) by (rewrite <- Hr; lra).
    setoid_replace (- x - q)%Q with (- (x - - q))%Q using relation Qeq by ring.
    rewrite Qabs_opp. exact Hb.
Qed.

(** Some values: 0.1, 59.6 and 14.37 are no binary64 values and round to
    their neighbours; the middle between the largest value and [2 ^ 1024]
    rounds to the infinity; the middle between 0 and the smallest value
    rounds to 0, the one between the two smallest values to the even one. *)
Lemma round64_examples :
  JS.round64 (1 # 10) = JS.Fin (3602879701896397 # 36028797018963968) /\
  JS.round64 (596 # 10) = JS.Fin (8387954305977549 # 140737488355328) /\
  JS.round64 (1437 # 100) = JS.Fin (8089590830664253 # 562949953421312) /\
  JS.round64 (69 # 8) = JS.Fin (69 # 8) /\
  JS.round64 (2 ^ 1024 - 2 ^ 970) = JS.PosInf /\
  JS.round64 (- (2 ^ 1024)) = JS.NegInf /\
  JS.round64 (2 ^ (-1075)) = JS.Fin 0 /\
  JS.round64 (3 * 2 ^ (-1075)) = JS.round64 (2 ^ (-1073)) /\
  JS.exact (2 ^ (-1074)) /\ ~ JS.exact (1 # 10).
Proof.
  do 9 (split; [vm_compute; reflexivity|]).
  vm_compute. discriminate.
Qed.

(** Equal rationals round to the same value. *)
Lemma round64_Qeq (q q' : Q) : (q == q')%Q -> JS.round64 q = JS.round64 q'.
Proof.
  intros H. unfold JS.round64. now rewrite (Qred_complete q q' H).
Qed.

(** Among the numbers up to a bound that is at least 1 and in range,
    rounding moves by at most the bound's [8 * 10 ^ 15]-th part. *)
Lemma round64_within (q bound : Q) :
  (Qabs q <= bound)%Q -> (1 <= bound)%Q -> (bound <= 2 ^ 1023)%Q ->
  exists x, JS.round64 q = JS.Fin x /\
    (Qabs (x - q) <= bound * (1 # 8000000000000000))%Q.
Proof.
  intros Hq H1 Hmax.
  destruct (round64_spec q) as (x & Hx & Hb); [lra|].
  exists x. split; [exact Hx|].
  assert (Hu : (2 ^ (-53) + 2 ^ (-1075) <= 1 # 8000000000000000)%Q)
    by (apply Qle_bool_iff; vm_compute; reflexivity).
  pose proof (Qpower2_pos (-53)) as Hu0. pose proof (Qpower2_pos (-1075)) as He0.
  pose proof (Qabs_nonneg q) as Hq0.
  set (u := (2 ^ (-53))%Q) in *. set (eta := (2 ^ (-1075))%Q) in *.
  assert (H2 : (Qabs q * u <= bound * u)%Q)
    by (apply Qmult_le_compat_nonneg; split; lra).
  assert (H3 : (1 * eta <= bound * eta)%Q)
    by (apply Qmult_le_compat_nonneg; split; lra).
  assert (H4 : (bound * (u + eta) <= bound * (1 # 8000000000000000))%Q)
    by (apply Qmult_le_compat_nonneg; split; lra).
  assert (E : (bound * (u + eta) == bound * u + bound * eta)%Q) by ring.
  rewrite E in H4. clear Hmax. lra.
Qed.

Lemma Qabs_div_le (x limit bound : Q) :
  (1 <= limit)%Q -> (Qabs x <= bound)%Q -> (Qabs (x / limit) <= bound)%Q.
Proof.
  intros Hl Hx.
  unfold Qdiv. rewrite Qabs_Qmult, Qabs_Qinv, (Qabs_pos limit) by lra.
  pose proof (Qabs_nonneg x) as H0.
  apply Qle_shift_div_r; [lra|].
  assert (H : (Qabs x * 1 <= bound * limit)%Q)
    by (apply Qmult_le_compat_nonneg; split; lra).
  lra.
Qed.

(** The percentage that [checkSpeedViolation] computes, for a limit of at
    least 1 and a speed of at most 500, is finite and within [2 * 10 ^ -11]
    of the exact percentage. *)
Lemma percentOver_error (speed limit : Q) :
  (1 <= limit)%Q -> (limit < speed)%Q -> (speed <= 500)%Q ->
  exists amount x,
    JS.sub (JS.Fin speed) (JS.Fin limit) = JS.Fin amount /\
    (Qabs (amount - (speed - limit)) <= 1 # 10000000000000)%Q /\
    Observe.percentOver speed limit = JS.Fin x /\
    (Qabs (x - Observe.exactPercentOver speed limit) <= 1 # 50000000000)%Q.
Proof.
  intros Hlimit Hover Hspeed.
  assert (Hrange : (50100 <= 2 ^ 1023)%Q) by (apply Qle_bool_iff; vm_compute; reflexivity).
  unfold Observe.percentOver, Observe.exactPercentOver. cbn [JS.sub].
  destruct (round64_within (speed - limit) 499) as (A & HA & HAb); try lra.
  { rewrite Qabs_pos; lra. }
  rewrite HA. cbn [JS.div].
  assert (Hl0 : Qeq_bool limit 0 = false).
  { destruct (Qeq_bool limit 0) eqn:E; [|reflexivity].
    apply Qeq_bool_iff in E. lra. }
  rewrite Hl0.
  assert (HAabs : (Qabs A <= 500)%Q).
  { apply Qabs_Qle_condition in HAb. apply Qabs_Qle_condition. clear Hrange. split; lra. }
  pose proof (Qabs_div_le A limit 500 Hlimit HAabs) as HBabs.
  destruct (round64_within (A / limit) 500) as (D & HD & HDb); try lra.
  rewrite HD. cbn [JS.mul].
  assert (HDabs : (Qabs (D * 100) <= 50100)%Q).
  { apply Qabs_Qle_condition in HDb. apply Qabs_Qle_condition in HBabs.
    apply Qabs_Qle_condition. clear Hrange. split; lra. }
  destruct (round64_within (D * 100) 50100) as (P & HP & HPb); try lra.
  exists A, P. split; [reflexivity|].
  split; [clear Hrange; lra|].
  split; [exact HP|].
  assert (Hdiff : (Qabs ((A - (speed - limit)) / limit) <= 499 * (1 # 8000000000000000))%Q)
    by (apply Qabs_div_le; assumption).
  assert (E : ((A - (speed - limit)) / limit == A / limit - (speed - limit) / limit)%Q)
    by (field; lra).
  rewrite E in Hdiff.
  set (B := (A / limit)%Q) in *. set (b := ((speed - limit) / limit)%Q) in *.
  apply Qabs_Qle_condition in HDb, HPb, Hdiff.
  apply Qabs_Qle_condition. clear Hrange. split; lra.
Qed.

(** Rounding a computed percentage to two decimals, and reading the text
    back, stays within [1/200 + 10 ^ -11] of it. *)
Lemma parseFixed2_error (x : Q) :
  (Qabs x <= 50000)%Q ->
  exists r, JS.parseFixed2 (JS.Fin x) = JS.Fin r /\
    (Qabs (r - x) <= (1 # 200) + (1 # 100000000000))%Q.
Proof.
  intros Hx. unfold JS.parseFixed2.
  assert (Hrange : (50001 <= 2 ^ 1023)%Q) by (apply Qle_bool_iff; vm_compute; reflexivity).
  assert (Hbig : Qle_bool (10 ^ 21) (Qabs x) = false).
  { destruct (Qle_bool (10 ^ 21) (Qabs x)) eqn:E; [|reflexivity].
    apply Qle_bool_iff in E.
    assert (50000 < 10 ^ 21)%Q by reflexivity. lra. }
  rewrite Hbig.
  destruct (toFixed2_spec x) as (n & _ & Hlo & Hhi).
  apply Qabs_Qle_condition in Hx.
  destruct (round64_within (JS.toFixed2 x) 50001) as (r & Hr & Hrb); try lra.
  { apply Qabs_Qle_condition. clear Hrange. split; lra. }
  exists r. split; [exact Hr|].
  apply Qabs_Qle_condition in Hrb. apply Qabs_Qle_condition.
  clear Hrange. split; lra.
Qed.

(** A reading whose excess is a binary64 value and exactly a quarter, or a
    half, of the limit: the computed percentage is exactly 25, or 50. *)
Lemma percentOver_at_boundary (speed limit ratio : Q) :
  (0 < limit)%Q -> JS.exact (speed - limit) ->
  (Observe.exactPercentOver speed limit == ratio * 100)%Q ->
  Observe.percentOver speed limit = JS.mul (JS.round64 ratio) (JS.Fin 100).
Proof.
  intros Hlimit Hexact Hratio.
  unfold Observe.percentOver, Observe.exactPercentOver, JS.exact in *. cbn [JS.sub].
  destruct (JS.round64 (speed - limit)) as [x| | |]; try contradiction.
  cbn [JS.div].
  assert (Hl0 : Qeq_bool limit 0 = false).
  { destruct (Qeq_bool limit 0) eqn:E; [|reflexivity].
    apply Qeq_bool_iff in E. lra. }
  rewrite Hl0. f_equal. apply round64_Qeq.
  rewrite Hexact. set (b := ((speed - limit) / limit)%Q) in *. lra.
Qed.

End Arithmetic.

(** *** Classification of one reading *)

Section Classification.

Lemma checkSpeedViolation_within now detectedAt speedData vehicleState this :
  (SpeedData.speed speedData <= SpeedProcessor.speedLimit this)%Q ->
  SpeedProcessor.checkSpeedViolation now detectedAt speedData vehicleState this
  = (None, this).
Proof.
  intros H. unfold SpeedProcessor.checkSpeedViolation.
  apply Qle_bool_iff in H. now rewrite H.
Qed.

Lemma checkSpeedViolation_over now detectedAt speedData vehicleState this :
  (SpeedProcessor.speedLimit this < SpeedData.speed speedData)%Q ->
  exists v,
    SpeedProcessor.checkSpeedViolation now detectedAt speedData vehicleState this
    = (Some v, SpeedProcessor.incr_violationCount this) /\
    Violation.vehicleId v = SpeedData.vehicleId speedData /\
    Violation.speed v = SpeedData.speed speedData /\
    Violation.speedLimit v = SpeedProcessor.speedLimit this /\
    Violation.exceedAmount v
    = JS.sub (JS.Fin (SpeedData.speed speedData))
        (JS.Fin (SpeedProcessor.speedLimit this)) /\
    Violation.exceedPercentage v
    = JS.parseFixed2 (Observe.percentOver (SpeedData.speed speedData)
                        (SpeedProcessor.speedLimit this)) /\
    Violation.severity v
    = SpeedProcessor.classifySeverity
        (Observe.percentOver (SpeedData.speed speedData)
           (SpeedProcessor.speedLimit this)) /\
    Violation.isConsecutive v
    = (SpeedProcessor.consecutiveLimit this
       <=? VehicleState.consecutiveViolations vehicleState) /\
    Violation.consecutiveCount v = VehicleState.consecutiveViolations vehicleState.
Proof.
  intros H. unfold SpeedProcessor.checkSpeedViolation.
  apply Qle_bool_false in H. rewrite H.
  eexists. split; [reflexivity|]. cbn. repeat split; reflexivity.
Qed.

Lemma gtb_Fin (x y : Q) : JS.gtb (JS.Fin x) (JS.Fin y) = true <-> (y < x)%Q.
Proof. apply Qgtb_spec. Qed.

Lemma gtb_Fin_false (x y : Q) : JS.gtb (JS.Fin x) (JS.Fin y) = false <-> (x <= y)%Q.
Proof. apply Qgtb_false. Qed.

Lemma classifySeverity_spec (p : JS.number) :
  (SpeedProcessor.classifySeverity p = CRITICAL <-> JS.gtb p (JS.Fin 50) = true) /\
  (SpeedProcessor.classifySeverity p = HIGH <->
   JS.gtb p (JS.Fin 50) = false /\ JS.gtb p (JS.Fin 25) = true) /\
  (SpeedProcessor.classifySeverity p = MEDIUM <->
   JS.gtb p (JS.Fin 25) = false /\ JS.gtb p (JS.Fin 10) = true) /\
  (SpeedProcessor.classifySeverity p = LOW <-> JS.gtb p (JS.Fin 10) = false).
Proof.
  assert (Hmono : forall a b : Q, (a <= b)%Q ->
             JS.gtb p (JS.Fin a) = false -> JS.gtb p (JS.Fin b) = false).
  { intros a b Hab. destruct p as [x| | |]; cbn; try congruence.
    unfold JS.Qltb. rewrite !negb_false_iff, !Qle_bool_iff. lra. }
  pose proof (Hmono 10%Q 25%Q ltac:(lra)) as H1025.
  pose proof (Hmono 25%Q 50%Q ltac:(lra)) as H2550.
  pose proof (Hmono 10%Q 50%Q ltac:(lra)) as H1050.
  unfold SpeedProcessor.classifySeverity.
  destruct (JS.gtb p (JS.Fin 50)) eqn:E50, (JS.gtb p (JS.Fin 25)) eqn:E25,
    (JS.gtb p (JS.Fin 10)) eqn:E10;
    repeat split; intros; try discriminate; try tauto;
    try (specialize (H1025 eq_refl)); try (specialize (H2550 eq_refl));
    try (specialize (H1050 eq_refl)); try discriminate; intuition discriminate.
Qed.

(** C1, as the code has it.  For every violating reading the severity follows
    the strict thresholds on the percentage over the limit as the code
    computes it, each operation rounded to binary64: CRITICAL above 50, HIGH
    above 25 and up to 50, MEDIUM above 10 and up to 25, LOW otherwise.  A
    reading whose excess is a binary64 value and exactly 25% of the limit is
    MEDIUM, and one exactly 50% over is HIGH.  For a limit of at least 1 and a
    speed of at most 500 the computed percentage is within [10 ^ -10] of the
    exact one, so the severity is the one of the exact percentage unless that
    lies as close to a threshold.  The limit is positive, as the
    configuration manager requires. *)
Theorem severity_by_strict_thresholds now detectedAt speedData vehicleState this :
  (0 < SpeedProcessor.speedLimit this)%Q ->
  (SpeedProcessor.speedLimit this < SpeedData.speed speedData)%Q ->
  let limit := SpeedProcessor.speedLimit this in
  let speed := SpeedData.speed speedData in
  let p := Observe.percentOver speed limit in
  let exactly := Observe.exactPercentOver speed limit in
  let within := (1 # 10000000000)%Q in
  exists v,
    (SpeedProcessor.checkSpeedViolation now detectedAt speedData vehicleState this).1
    = Some v /\
    (Violation.severity v = CRITICAL <-> JS.gtb p (JS.Fin 50) = true) /\
    (Violation.severity v = HIGH <->
     JS.gtb p (JS.Fin 25) = true /\ JS.gtb p (JS.Fin 50) = false) /\
    (Violation.severity v = MEDIUM <->
     JS.gtb p (JS.Fin 10) = true /\ JS.gtb p (JS.Fin 25) = false) /\
    (Violation.severity v = LOW <-> JS.gtb p (JS.Fin 10) = false) /\
    (JS.exact (speed - limit) -> (exactly == 25)%Q -> Violation.severity v = MEDIUM) /\
    (JS.exact (speed - limit) -> (exactly == 50)%Q -> Violation.severity v = HIGH) /\
    ((1 <= limit)%Q -> (speed <= 500)%Q ->
     (exists x, p = JS.Fin x /\ (Qabs (x - exactly) <= within)%Q) /\
     ((50 + within < exactly)%Q -> Violation.severity v = CRITICAL) /\
     ((25 + within < exactly)%Q -> (exactly <= 50 - within)%Q ->
      Violation.severity v = HIGH) /\
     ((10 + within < exactly)%Q -> (exactly <= 25 - within)%Q ->
      Violation.severity v = MEDIUM) /\
     ((exactly <= 10 - within)%Q -> Violation.severity v = LOW)).
Proof.
  intros Hlimit Hover limit speed p exactly within.
  destruct (checkSpeedViolation_over now detectedAt speedData vehicleState this Hover)
    as (v & Hv & _ & _ & _ & _ & _ & Hsev & _).
  exists v. rewrite Hv. split; [reflexivity|].
  rewrite Hsev. fold limit speed p.
  destruct (classifySeverity_spec p) as (Hc & Hh & Hm & Hl).
  split; [exact Hc|]. split; [rewrite Hh; tauto|]. split; [rewrite Hm; tauto|].
  split; [exact Hl|].
  split; [|split].
  - intros Hexact H25. apply Hm. subst p.
    rewrite (percentOver_at_boundary speed limit (1 # 4) Hlimit Hexact)
      by (fold exactly; rewrite H25; reflexivity).
    split; reflexivity.
  - intros Hexact H50. apply Hh. subst p.
    rewrite (percentOver_at_boundary speed limit (1 # 2) Hlimit Hexact)
      by (fold exactly; rewrite H50; reflexivity).
    split; reflexivity.
  - intros Hlow Hhigh.
    destruct (percentOver_error speed limit Hlow Hover Hhigh)
      as (amount & x & _ & _ & Hp & Hx).
    fold p in Hp. fold exactly in Hx.
    apply Qabs_Qle_condition in Hx. subst within.
    clearbody exactly.
    split; [exists x; split; [exact Hp|apply Qabs_Qle_condition; split; lra]|].
    rewrite Hp in Hc, Hh, Hm, Hl |- *.
    repeat split; intros.
    + apply Hc, gtb_Fin. lra.
    + apply Hh. split; [apply gtb_Fin_false|apply gtb_Fin]; lra.
    + apply Hm. split; [apply gtb_Fin_false|apply gtb_Fin]; lra.
    + apply Hl, gtb_Fin_false. lra.
Qed.

Lemma severity_by_strict_thresholds_witness :
  let limit := Sample.decimal (596 # 10) in
  let speed := Sample.decimal (6556 # 100) in
  exists v,
    (SpeedProcessor.checkSpeedViolation 0 0 (Sample.reading "VEH005" speed)
       (SpeedProcessor.initialState "VEH005") (Sample.processorAt limit)).1 = Some v /\
    Observe.percentOver speed limit = JS.Fin 10 /\
    (10 < Observe.exactPercentOver speed limit)%Q /\
    Violation.severity v = LOW.
Proof.
  intros limit speed.
  destruct (severity_by_strict_thresholds 0 0 (Sample.reading "VEH005" speed)
              (SpeedProcessor.initialState "VEH005") (Sample.processorAt limit))
    as (v & Hv & _ & _ & _ & Hl & _).
  - vm_compute. reflexivity.
  - vm_compute. reflexivity.
  - exists v. split; [exact Hv|].
    split; [vm_compute; reflexivity|].
    split; [vm_compute; reflexivity|].
    apply Hl. vm_compute. reflexivity.
Defined.

(** C1, as the specification words it, fails at both boundaries: with the
    limit at 60, a reading of 75 (exactly 25% over, also as computed) is
    classified MEDIUM, not HIGH, and a reading of 90 (exactly 50% over) is
    classified HIGH, not CRITICAL. *)
Lemma boundary_severity_counterexample :
  let severityAt speed :=
    Violation.severity <$>
      (SpeedProcessor.checkSpeedViolation 0 0 (Sample.reading "VEH005" speed)
         (SpeedProcessor.initialState "VEH005") Sample.processor).1 in
  (Observe.exactPercentOver 75 60 == 25)%Q /\
  Observe.percentOver 75 60 = JS.Fin 25 /\
  severityAt 75%Q = Some MEDIUM /\ severityAt 75%Q <> Some HIGH /\
  (Observe.exactPercentOver 90 60 == 50)%Q /\
  Observe.percentOver 90 60 = JS.Fin 50 /\
  severityAt 90%Q = Some HIGH /\ severityAt 90%Q <> Some CRITICAL.
Proof.
  cbv zeta. repeat split; try reflexivity; vm_compute; try reflexivity; discriminate.
Qed.

End Classification.

Section ViolationRecord.

(** C6, as the code has it.  A valid reading above the (positive) limit
    yields exactly one [Violation]: [checkSpeedViolation] returns one and
    counts one.  Its [exceedAmount] is the binary64 difference
    [speed - limit], the difference itself when that is a binary64 value; its
    [exceedPercentage] is [exceedAmount / limit * 100], each operation
    rounded to binary64, then rounded to two decimals and read back.  For a
    limit of at least 1 and a speed of at most 500 it is the binary64 value
    nearest to a multiple of 1/100 and lies within [1/200 + 10 ^ -10] of the
    exact percentage. *)
Theorem violation_amount_and_percentage now detectedAt speedData vehicleState this :
  (0 < SpeedProcessor.speedLimit this)%Q ->
  (SpeedProcessor.speedLimit this < SpeedData.speed speedData)%Q ->
  let limit := SpeedProcessor.speedLimit this in
  let speed := SpeedData.speed speedData in
  let result :=
    SpeedProcessor.checkSpeedViolation now detectedAt speedData vehicleState this in
  exists v,
    result.1 = Some v /\
    SpeedProcessor.violationCount result.2 = S (SpeedProcessor.violationCount this) /\
    Violation.exceedAmount v = JS.sub (JS.Fin speed) (JS.Fin limit) /\
    Violation.exceedPercentage v
    = JS.parseFixed2
        (JS.mul (JS.div (Violation.exceedAmount v) (JS.Fin limit)) (JS.Fin 100)) /\
    (JS.exact (speed - limit) ->
     exists amount,
       Violation.exceedAmount v = JS.Fin amount /\ (amount == speed - limit)%Q) /\
    ((1 <= limit)%Q -> (speed <= 500)%Q ->
     exists amount percentage (n : Z),
       Violation.exceedAmount v = JS.Fin amount /\
       (Qabs (amount - (speed - limit)) <= 1 # 10000000000000)%Q /\
       Violation.exceedPercentage v = JS.Fin percentage /\
       JS.Fin percentage = JS.round64 (inject_Z n / 100) /\
       (Qabs (percentage - Observe.exactPercentOver speed limit)
        <= (1 # 200) + (1 # 10000000000))%Q).
Proof.
  intros _ Hover limit speed result.
  destruct (checkSpeedViolation_over now detectedAt speedData vehicleState this Hover)
    as (v & Hv & _ & _ & _ & Hamount & Hpct & _).
  exists v. subst result. rewrite Hv. cbn [fst snd].
  split; [reflexivity|]. split; [reflexivity|].
  split; [exact Hamount|].
  split; [rewrite Hpct, Hamount; reflexivity|].
  rewrite Hpct, Hamount. fold limit speed. split.
  - unfold JS.exact. cbn [JS.sub]. intros Hexact.
    destruct (JS.round64 (speed - limit)) as [x| | |]; try contradiction.
    exists x. split; [reflexivity|exact Hexact].
  - intros Hlow Hhigh.
    destruct (percentOver_error speed limit Hlow Hover Hhigh)
      as (amount & x & Ha & Hab & Hp & Hx).
    rewrite Ha, Hp.
    assert (Hover' : (limit < speed)%Q) by exact Hover.
    assert (Hexactly : (0 <= Observe.exactPercentOver speed limit <= 49900)%Q).
    { unfold Observe.exactPercentOver.
      assert (H0 : (0 <= (speed - limit) / limit)%Q)
        by (apply Qle_shift_div_l; lra).
      assert (H1 : ((speed - limit) / limit <= 499)%Q)
        by (apply Qle_shift_div_r; lra).
      set (b := ((speed - limit) / limit)%Q) in *. split; lra. }
    set (exactly := Observe.exactPercentOver speed limit) in *.
    apply Qabs_Qle_condition in Hx.
    destruct (parseFixed2_error x) as (r & Hr & Hrb).
    { apply Qabs_Qle_condition. split; lra. }
    destruct (toFixed2_spec x) as (n & Hn & _).
    exists amount, r, n.
    split; [reflexivity|]. split; [exact Hab|]. split; [exact Hr|].
    split.
    + rewrite <- Hr. unfold JS.parseFixed2.
      destruct (Qle_bool (10 ^ 21) (Qabs x)) eqn:E.
      * apply Qle_bool_iff in E.
        assert (Hx' : (Qabs x <= 50000)%Q) by (apply Qabs_Qle_condition; split; lra).
        assert (50000 < 10 ^ 21)%Q by reflexivity. lra.
      * apply round64_Qeq, Hn.
    + apply Qabs_Qle_condition in Hrb. apply Qabs_Qle_condition. split; lra.
Qed.

Lemma violation_amount_and_percentage_witness :
  exists v,
    (SpeedProcessor.checkSpeedViolation 0 0 (Sample.reading "VEH005" 95)
       (SpeedProcessor.initialState "VEH005") Sample.processor).1 = Some v /\
    Violation.exceedAmount v = JS.Fin 35 /\
    Violation.exceedPercentage v = JS.round64 (5833 # 100).
Proof.
  destruct (violation_amount_and_percentage 0 0 (Sample.reading "VEH005" 95)
              (SpeedProcessor.initialState "VEH005") Sample.processor)
    as (v & Hv & _ & Hamount & Hpct & _).
  - reflexivity.
  - reflexivity.
  - exists v. split; [exact Hv|]. split.
    + rewrite Hamount. vm_compute. reflexivity.
    + rewrite Hpct, Hamount. vm_compute. reflexivity.
Defined.

(** C6, as the specification words it, fails where rounding the quotient
    moves the percentage across the middle between two hundredths: with the
    limit at 60, a reading of 68.625 is 14.375% over, which rounds to 14.38;
    the code computes 14.374999999999998 and stores 14.37. *)
Lemma percentage_rounding_counterexample :
  let speed := (549 # 8)%Q in
  let v :=
    (SpeedProcessor.checkSpeedViolation 0 0 (Sample.reading "VEH005" speed)
       (SpeedProcessor.initialState "VEH005") Sample.processor).1 in
  JS.exact speed /\
  (Observe.exactPercentOver speed 60 == 14375 # 1000)%Q /\
  (JS.toFixed2 (Observe.exactPercentOver speed 60) == 1438 # 100)%Q /\
  Violation.exceedAmount <$> v = Some (JS.Fin (69 # 8)) /\
  Observe.percentOver speed 60 = JS.Fin (8092405580431359 # 562949953421312) /\
  Violation.exceedPercentage <$> v = Some (JS.round64 (1437 # 100)) /\
  Violation.exceedPercentage <$> v <> Some (JS.round64 (1438 # 100)).
Proof.
  cbv zeta. do 6 (split; [vm_compute; reflexivity|]).
  vm_compute. discriminate.
Qed.

End ViolationRecord.

(** *** The vehicle state tracker *)

Section Tracker.

Implicit Types (this : SpeedProcessor.t) (r : SpeedData.t) (v : string).

Lemma updateVehicleState_config r this :
  SpeedProcessor.speedLimit (SpeedProcessor.updateVehicleState r this).2
  = SpeedProcessor.speedLimit this /\
  SpeedProcessor.consecutiveLimit (SpeedProcessor.updateVehicleState r this).2
  = SpeedProcessor.consecutiveLimit this.
Proof. split; reflexivity. Qed.

Lemma updateVehicleState_stored r this :
  SpeedProcessor.vehicleStates (SpeedProcessor.updateVehicleState r this).2
    !! SpeedData.vehicleId r
  = Some (SpeedProcessor.updateVehicleState r this).1.
Proof. cbn. apply lookup_insert_eq. Qed.

Lemma updateVehicleState_other r this v :
  SpeedData.vehicleId r <> v ->
  SpeedProcessor.vehicleStates (SpeedProcessor.updateVehicleState r this).2 !! v
  = SpeedProcessor.vehicleStates this !! v.
Proof. intros H. cbn. now apply lookup_insert_ne. Qed.

Lemma stateOf_updated r this :
  Observe.stateOf (SpeedData.vehicleId r) (SpeedProcessor.updateVehicleState r this).2
  = (SpeedProcessor.updateVehicleState r this).1.
Proof. unfold Observe.stateOf. now rewrite updateVehicleState_stored. Qed.

Lemma stateOf_other r this v :
  SpeedData.vehicleId r <> v ->
  Observe.stateOf v (SpeedProcessor.updateVehicleState r this).2 = Observe.stateOf v this.
Proof. intros H. unfold Observe.stateOf. now rewrite updateVehicleState_other. Qed.

(** The counters of the snapshot, from those of the stored state. *)
Lemma updateVehicleState_counters r this :
  let old := Observe.stateOf (SpeedData.vehicleId r) this in
  let new := (SpeedProcessor.updateVehicleState r this).1 in
  let violating := JS.Qgtb (SpeedData.speed r) (SpeedProcessor.speedLimit this) in
  VehicleState.consecutiveViolations new
  = (if violating then S (VehicleState.consecutiveViolations old) else 0) /\
  VehicleState.totalViolations new
  = (if violating then S (VehicleState.totalViolations old)
     else VehicleState.totalViolations old).
Proof. split; reflexivity. Qed.

Lemma updateAll_cons r rs this :
  Observe.updateAll (r :: rs) this
  = Observe.updateAll rs (SpeedProcessor.updateVehicleState r this).2.
Proof. reflexivity. Qed.

Lemma updateAll_config rs : forall this,
  SpeedProcessor.speedLimit (Observe.updateAll rs this) = SpeedProcessor.speedLimit this /\
  SpeedProcessor.consecutiveLimit (Observe.updateAll rs this)
  = SpeedProcessor.consecutiveLimit this.
Proof.
  induction rs as [|r rs IH]; intros this; [split; reflexivity|].
  rewrite updateAll_cons. destruct (IH (SpeedProcessor.updateVehicleState r this).2) as [-> ->].
  apply updateVehicleState_config.
Qed.

(** The lifetime counter of a vehicle grows by the number of its violating
    readings, whatever the traffic. *)
Lemma totalViolations_updateAll v rs : forall this,
  VehicleState.totalViolations (Observe.stateOf v (Observe.updateAll rs this))
  = VehicleState.totalViolations (Observe.stateOf v this)
    + length (filter (fun r => Observe.violating this r = true) (Observe.readingsOf v rs)).
Proof.
  induction rs as [|r rs IH]; intros this; [cbn; lia|].
  rewrite updateAll_cons, IH. unfold Observe.readingsOf.
  change (fun r0 => Observe.violating (SpeedProcessor.updateVehicleState r this).2 r0 = true)
    with (fun r0 => Observe.violating this r0 = true).
  destruct (decide (SpeedData.vehicleId r = v)) as [<-|Hne].
  - rewrite (filter_cons_True _ r rs) by reflexivity.
    rewrite stateOf_updated.
    destruct (updateVehicleState_counters r this) as [_ ->].
    destruct (JS.Qgtb (SpeedData.speed r) (SpeedProcessor.speedLimit this)) eqn:E.
    + rewrite (filter_cons_True _ r) by exact E. cbn [length].
      rewrite Nat.add_succ_r. reflexivity.
    + rewrite (filter_cons_False _ r)
        by (unfold Observe.violating; rewrite E; discriminate).
      reflexivity.
  - rewrite (filter_cons_False _ r rs) by exact Hne.
    rewrite stateOf_other by exact Hne. reflexivity.
Qed.

(** A run of violating readings of a vehicle, interleaved with any readings
    of other vehicles, adds its length to the consecutive counter. *)
Lemma consecutiveViolations_updateAll v rs : forall this,
  Forall (fun r => SpeedData.vehicleId r = v ->
                   (SpeedProcessor.speedLimit this < SpeedData.speed r)%Q) rs ->
  VehicleState.consecutiveViolations (Observe.stateOf v (Observe.updateAll rs this))
  = VehicleState.consecutiveViolations (Observe.stateOf v this)
    + length (Observe.readingsOf v rs).
Proof.
  induction rs as [|r rs IH]; intros this Hall; [cbn; lia|].
  apply Forall_cons in Hall as [Hr Hall].
  rewrite updateAll_cons, IH by exact Hall. unfold Observe.readingsOf.
  destruct (decide (SpeedData.vehicleId r = v)) as [<-|Hne].
  - rewrite (filter_cons_True _ r rs) by reflexivity.
    rewrite stateOf_updated.
    destruct (updateVehicleState_counters r this) as [-> _].
    apply Qgtb_spec in Hr; [|reflexivity]. rewrite Hr. cbn [length]. lia.
  - rewrite (filter_cons_False _ r rs) by exact Hne.
    rewrite stateOf_other by exact Hne. reflexivity.
Qed.

End Tracker.

Section Counters.

Implicit Types (this : SpeedProcessor.t) (r : SpeedData.t) (v : string).

Lemma totalViolations_run v rs : forall this,
  Forall (fun r => SpeedData.vehicleId r = v ->
                   (SpeedProcessor.speedLimit this < SpeedData.speed r)%Q) rs ->
  VehicleState.totalViolations (Observe.stateOf v (Observe.updateAll rs this))
  = VehicleState.totalViolations (Observe.stateOf v this)
    + length (Observe.readingsOf v rs).
Proof.
  induction rs as [|r rs IH]; intros this Hall; [cbn; lia|].
  apply Forall_cons in Hall as [Hr Hall].
  rewrite updateAll_cons, IH by exact Hall. unfold Observe.readingsOf.
  destruct (decide (SpeedData.vehicleId r = v)) as [<-|Hne].
  - rewrite (filter_cons_True _ r rs) by reflexivity.
    rewrite stateOf_updated.
    destruct (updateVehicleState_counters r this) as [_ ->].
    apply Qgtb_spec in Hr; [|reflexivity]. rewrite Hr. cbn [length]. lia.
  - rewrite (filter_cons_False _ r rs) by exact Hne.
    rewrite stateOf_other by exact Hne. reflexivity.
Qed.

(** C4.  For one vehicle [v], N readings above the limit (whatever other
    vehicles send in between) add N to its consecutive counter, which is
    therefore N for a vehicle seen for the first time, and N to its lifetime
    counter; one more reading of [v] at or below the limit sets the
    consecutive counter to 0 and leaves the lifetime counter alone.  Over any
    readings at all, the lifetime counter grows by exactly the number of
    violating readings of [v]: it is never reset. *)
Theorem consecutive_counter_counts_and_resets this v (rs any : list SpeedData.t) r :
  Forall (fun x => SpeedData.vehicleId x = v ->
                   (SpeedProcessor.speedLimit this < SpeedData.speed x)%Q) rs ->
  SpeedData.vehicleId r = v ->
  (SpeedData.speed r <= SpeedProcessor.speedLimit this)%Q ->
  let n := length (Observe.readingsOf v rs) in
  let this' := Observe.updateAll rs this in
  let after := SpeedProcessor.updateVehicleState r this' in
  VehicleState.consecutiveViolations (Observe.stateOf v this')
  = VehicleState.consecutiveViolations (Observe.stateOf v this) + n /\
  (SpeedProcessor.vehicleStates this !! v = None ->
   VehicleState.consecutiveViolations (Observe.stateOf v this') = n) /\
  VehicleState.totalViolations (Observe.stateOf v this')
  = VehicleState.totalViolations (Observe.stateOf v this) + n /\
  VehicleState.consecutiveViolations after.1 = 0 /\
  VehicleState.consecutiveViolations (Observe.stateOf v after.2) = 0 /\
  VehicleState.totalViolations (Observe.stateOf v after.2)
  = VehicleState.totalViolations (Observe.stateOf v this) + n /\
  VehicleState.totalViolations (Observe.stateOf v (Observe.updateAll any this))
  = VehicleState.totalViolations (Observe.stateOf v this)
    + length (filter (fun x => Observe.violating this x = true)
                (Observe.readingsOf v any)).
Proof.
  intros Hall Hv Hle n this' after.
  pose proof (consecutiveViolations_updateAll v rs this Hall) as Hc.
  pose proof (totalViolations_run v rs this Hall) as Ht.
  fold this' n in Hc, Ht.
  assert (Hlimit : SpeedProcessor.speedLimit this' = SpeedProcessor.speedLimit this)
    by apply updateAll_config.
  assert (Hnot : JS.Qgtb (SpeedData.speed r) (SpeedProcessor.speedLimit this') = false)
    by (rewrite Hlimit; now apply Qgtb_false).
  destruct (updateVehicleState_counters r this') as [Hc' Ht'].
  rewrite Hnot in Hc', Ht'. rewrite Hv in Ht'. fold after in Hc', Ht'.
  assert (Hafter : Observe.stateOf v after.2 = after.1)
    by (subst after; rewrite <- Hv; apply stateOf_updated).
  repeat split.
  - exact Hc.
  - intros Hfresh. rewrite Hc. unfold Observe.stateOf. rewrite Hfresh. reflexivity.
  - exact Ht.
  - exact Hc'.
  - rewrite Hafter. exact Hc'.
  - rewrite Hafter, Ht'. exact Ht.
  - apply totalViolations_updateAll.
Qed.

Lemma consecutive_counter_counts_and_resets_witness :
  let rs := [Sample.reading "VEH003" 65; Sample.reading "VEH009" 40;
             Sample.reading "VEH003" (135 # 2); Sample.reading "VEH003" 70] in
  let this' := Observe.updateAll rs Sample.processor in
  VehicleState.consecutiveViolations (Observe.stateOf "VEH003" this') = 3 /\
  VehicleState.consecutiveViolations
    (SpeedProcessor.updateVehicleState (Sample.reading "VEH003" 60) this').1 = 0.
Proof.
  intros rs this'.
  destruct (consecutive_counter_counts_and_resets Sample.processor "VEH003" rs []
              (Sample.reading "VEH003" 60)) as (_ & Hn & _ & H0 & _).
  - subst rs. repeat constructor; intros H; try discriminate H; reflexivity.
  - reflexivity.
  - vm_compute. discriminate.
  - split; [apply Hn; reflexivity | exact H0].
Defined.

(** C5.  The [Violation] of a reading carries the snapshot's consecutive
    counter as its streak length, uncapped, and has the streak flag set
    exactly when that counter has reached the configured threshold.  So for
    a vehicle whose counter is at 0, the k-th of a run of violating readings
    gets streak length k and the flag exactly when k is at least the
    threshold: with threshold 3, not the first nor the second, but the
    third. *)
Theorem streak_flag_from_threshold this v (rs : list SpeedData.t) r snapshot
    now detectedAt penv :
  Forall (fun x => SpeedData.vehicleId x = v ->
                   (SpeedProcessor.speedLimit this < SpeedData.speed x)%Q) rs ->
  VehicleState.consecutiveViolations (Observe.stateOf v this) = 0 ->
  SpeedData.vehicleId r = v ->
  (SpeedProcessor.speedLimit this < SpeedData.speed r)%Q ->
  let k := S (length (Observe.readingsOf v rs)) in
  (exists viol,
     (SpeedProcessor.checkSpeedViolation now detectedAt r snapshot this).1 = Some viol /\
     Violation.consecutiveCount viol = VehicleState.consecutiveViolations snapshot /\
     (Violation.isConsecutive viol = true <->
      SpeedProcessor.consecutiveLimit this
      <= VehicleState.consecutiveViolations snapshot)) /\
  (exists viol,
     (Observe.synchronous penv r (Observe.updateAll rs this)).1.2 = Some viol /\
     Violation.consecutiveCount viol = k /\
     (Violation.isConsecutive viol = true <-> SpeedProcessor.consecutiveLimit this <= k) /\
     (SpeedProcessor.consecutiveLimit this = 3 ->
      (k = 1 -> Violation.isConsecutive viol = false) /\
      (k = 2 -> Violation.isConsecutive viol = false) /\
      (k = 3 -> Violation.isConsecutive viol = true))).
Proof.
  intros Hall Hzero Hv Hover k. split.
  - destruct (checkSpeedViolation_over now detectedAt r snapshot this Hover)
      as (viol & Hviol & _ & _ & _ & _ & _ & _ & Hflag & Hcount).
    exists viol. rewrite Hviol. split; [reflexivity|]. split; [exact Hcount|].
    rewrite Hflag. apply Nat.leb_le.
  - set (this' := Observe.updateAll rs this).
    destruct (updateAll_config rs this) as [Hlimit Hthreshold]. fold this' in Hlimit, Hthreshold.
    unfold Observe.synchronous.
    set (counted := SpeedProcessor.incr_processedCount this').
    destruct (SpeedProcessor.updateVehicleState r counted) as [vehicleState this2] eqn:Hupd.
    assert (Hcnt : VehicleState.consecutiveViolations vehicleState = k).
    { destruct (updateVehicleState_counters r counted) as [Hc _].
      rewrite Hupd in Hc. cbn [fst] in Hc. rewrite Hc.
      change (SpeedProcessor.speedLimit counted) with (SpeedProcessor.speedLimit this').
      change (Observe.stateOf (SpeedData.vehicleId r) counted)
        with (Observe.stateOf (SpeedData.vehicleId r) this').
      rewrite Hlimit. apply Qgtb_spec in Hover. rewrite Hover, Hv.
      subst this'. rewrite consecutiveViolations_updateAll by exact Hall.
      rewrite Hzero. reflexivity. }
    assert (Hcfg : SpeedProcessor.speedLimit this2 = SpeedProcessor.speedLimit this /\
                   SpeedProcessor.consecutiveLimit this2
                   = SpeedProcessor.consecutiveLimit this).
    { destruct (updateVehicleState_config r counted) as [H1 H2].
      rewrite Hupd in H1, H2. cbn [snd] in H1, H2.
      change (SpeedProcessor.speedLimit counted)
        with (SpeedProcessor.speedLimit this') in H1.
      change (SpeedProcessor.consecutiveLimit counted)
        with (SpeedProcessor.consecutiveLimit this') in H2.
      split; congruence. }
    destruct Hcfg as [Hlimit2 Hthreshold2].
    assert (Hover2 : (SpeedProcessor.speedLimit this2 < SpeedData.speed r)%Q)
      by (rewrite Hlimit2; exact Hover).
    destruct (checkSpeedViolation_over (SpeedProcessor.now_violationId penv)
                (SpeedProcessor.now_detectedAt penv) r vehicleState this2 Hover2)
      as (viol & Hviol & _ & _ & _ & _ & _ & _ & Hflag & Hcount).
    exists viol. rewrite Hviol. split; [reflexivity|].
    rewrite Hcount, Hcnt. split; [reflexivity|].
    rewrite Hflag, Hcnt, Hthreshold2.
    split; [apply Nat.leb_le|].
    intros H3. rewrite H3. repeat split; intros Hk; rewrite Hk; reflexivity.
Qed.

Lemma streak_flag_from_threshold_witness :
  let first := Sample.reading "VEH003" 65 in
  let second := Sample.reading "VEH003" (135 # 2) in
  let third := Sample.reading "VEH003" 70 in
  exists viol,
    (Observe.synchronous (Sample.processEnv 0 true) third
       (Observe.updateAll [first; second] Sample.processor)).1.2
    = Some viol /\
    Violation.consecutiveCount viol = 3 /\ Violation.isConsecutive viol = true.
Proof.
  intros first second third.
  destruct (streak_flag_from_threshold Sample.processor "VEH003" [first; second] third
              (SpeedProcessor.initialState "VEH003") 0 0 (Sample.processEnv 0 true))
    as (_ & viol & Hviol & Hcount & Hflag & _).
  - repeat constructor; intros _; reflexivity.
  - reflexivity.
  - reflexivity.
  - reflexivity.
  - exists viol. split; [exact Hviol|]. split; [exact Hcount|].
    apply Hflag. vm_compute. lia.
Defined.

End Counters.

Section Statistics.

Implicit Types (this : SpeedProcessor.t) (r : SpeedData.t) (v : string).

Lemma sumQ_snoc (l : list Q) (x : Q) : (Observe.sumQ (l ++ [x]) == Observe.sumQ l + x)%Q.
Proof.
  induction l as [|y l IH]; cbn.
  - lra.
  - unfold Observe.sumQ in IH. rewrite IH. lra.
Qed.

Lemma tail_drop {A} (l : list A) : tail l = drop 1 l.
Proof. destruct l; reflexivity. Qed.

(** Pushing onto a window of the ten most recent entries and shifting once
    when it overflows keeps it the window of the ten most recent entries. *)
Lemma history_window {A} (entries : list A) (e : A) :
  let pushed := drop (length entries - 10) entries ++ [e] in
  (if 10 <? length pushed then tail pushed else pushed)
  = drop (length (entries ++ [e]) - 10) (entries ++ [e]).
Proof.
  intros pushed. subst pushed.
  rewrite !length_app, length_drop. cbn [length].
  destruct (le_lt_dec 10 (length entries)) as [Hge|Hlt].
  - replace (length entries - (length entries - 10) + 1) with 11 by lia.
    cbn [Nat.ltb Nat.leb]. rewrite tail_drop.
    rewrite <- drop_app_le by lia. rewrite drop_drop.
    f_equal. lia.
  - replace (length entries - 10) with 0 by lia.
    replace (length entries + 1 - 10) with 0 by lia.
    rewrite !drop_0.
    destruct (10 <? length entries - 0 + 1) eqn:E; [|reflexivity].
    apply Nat.ltb_lt in E. lia.
Qed.

Lemma summarises_initial v : Observe.summarises (SpeedProcessor.initialState v) [].
Proof. repeat split. Qed.

(** The statistics of the snapshot, from those of the stored state. *)
Lemma updateVehicleState_statistics r this :
  let old := Observe.stateOf (SpeedData.vehicleId r) this in
  let new := (SpeedProcessor.updateVehicleState r this).1 in
  let pushed := VehicleState.speedHistory old ++ [Observe.sample r] in
  VehicleState.recordCount new = S (VehicleState.recordCount old) /\
  VehicleState.averageSpeed new
  = ((VehicleState.averageSpeed old
      * inject_Z (Z.of_nat (S (VehicleState.recordCount old) - 1))
      + SpeedData.speed r)
     / inject_Z (Z.of_nat (S (VehicleState.recordCount old))))%Q /\
  VehicleState.speedHistory new
  = (if 10 <? length pushed then tail pushed else pushed).
Proof. repeat split; reflexivity. Qed.

Lemma summarises_update r this seen :
  Observe.summarises (Observe.stateOf (SpeedData.vehicleId r) this) seen ->
  Observe.summarises (SpeedProcessor.updateVehicleState r this).1 (seen ++ [r]).
Proof.
  intros (Hcount & Havg & Hhist).
  destruct (updateVehicleState_statistics r this) as (Hcount' & Havg' & Hhist').
  set (old := Observe.stateOf (SpeedData.vehicleId r) this) in *.
  set (new := (SpeedProcessor.updateVehicleState r this).1) in *.
  unfold Observe.summarises. rewrite Hcount', Havg', Hhist', Hcount, Hhist. clear Hcount' Havg' Hhist'.
  rewrite !length_app, !map_app. cbn [length map].
  replace (S (length seen) - 1) with (length seen) by lia.
  replace (length seen + 1) with (S (length seen)) by lia.
  repeat split.
  - rewrite sumQ_snoc, <- Havg.
    field. rewrite Nat2Z.inj_succ. unfold Z.succ. rewrite inject_Z_plus.
    assert (0 <= inject_Z (Z.of_nat (length seen)))%Q.
    { change 0%Q with (inject_Z 0). rewrite <- Zle_Qle. lia. }
    change (inject_Z 1) with 1%Q. lra.
  - pose proof (history_window (map Observe.sample seen) (Observe.sample r)) as H.
    cbv zeta in H. rewrite !length_app, !length_map in H. cbn [length] in H.
    replace (length seen + 1) with (S (length seen)) in H by lia.
    rewrite <- H. rewrite length_drop, length_map. reflexivity.
Qed.

Lemma summarises_updateAll v rs : forall this seen,
  Observe.summarises (Observe.stateOf v this) seen ->
  Observe.summarises (Observe.stateOf v (Observe.updateAll rs this))
    (seen ++ Observe.readingsOf v rs).
Proof.
  induction rs as [|r rs IH]; intros this seen Hinv.
  - cbn. now rewrite app_nil_r.
  - rewrite updateAll_cons. unfold Observe.readingsOf.
    destruct (decide (SpeedData.vehicleId r = v)) as [<-|Hne].
    + rewrite (filter_cons_True _ r rs) by reflexivity.
      rewrite (cons_middle r seen), app_assoc.
      apply IH. rewrite stateOf_updated. now apply summarises_update.
    + rewrite (filter_cons_False _ r rs) by exact Hne.
      apply IH. now rewrite stateOf_other.
Qed.

Lemma stored_after_updateAll v rs : forall this,
  Observe.readingsOf v rs <> [] ->
  SpeedProcessor.vehicleStates (Observe.updateAll rs this) !! v
  = Some (Observe.stateOf v (Observe.updateAll rs this)).
Proof.
  assert (Hkeep : forall rs this,
             is_Some (SpeedProcessor.vehicleStates this !! v) ->
             is_Some (SpeedProcessor.vehicleStates (Observe.updateAll rs this) !! v)).
  { clear rs. induction rs as [|r rs IH]; intros this Hsome; [exact Hsome|].
    rewrite updateAll_cons. apply IH.
    destruct (decide (SpeedData.vehicleId r = v)) as [<-|Hne].
    - rewrite updateVehicleState_stored. eauto.
    - now rewrite updateVehicleState_other. }
  assert (Hsome : forall this, Observe.readingsOf v rs <> [] ->
             is_Some (SpeedProcessor.vehicleStates (Observe.updateAll rs this) !! v)).
  { induction rs as [|r rs IH]; intros this Hne; [now destruct Hne|].
    rewrite updateAll_cons.
    destruct (decide (SpeedData.vehicleId r = v)) as [<-|Hother].
    - apply Hkeep. rewrite updateVehicleState_stored. eauto.
    - apply IH. unfold Observe.readingsOf in Hne.
      now rewrite (filter_cons_False _ r rs) in Hne. }
  intros this Hne. destruct (Hsome this Hne) as [st Hst].
  unfold Observe.stateOf. now rewrite Hst.
Qed.

(** C9.  After any sequence of readings, for a vehicle [v] that the tracker
    did not know before and that sent at least one of them: the sample count
    is the number of readings of [v], the running average equals their
    arithmetic mean (exact arithmetic), and the recent-speed history is the
    last ten of them in order of arrival, the oldest having been dropped
    first. *)
Theorem running_statistics this v (rs : list SpeedData.t) :
  SpeedProcessor.vehicleStates this !! v = None ->
  let mine := Observe.readingsOf v rs in
  mine <> [] ->
  exists st,
    SpeedProcessor.vehicleStates (Observe.updateAll rs this) !! v = Some st /\
    VehicleState.recordCount st = length mine /\
    (VehicleState.averageSpeed st == Observe.mean (map SpeedData.speed mine))%Q /\
    VehicleState.speedHistory st = drop (length mine - 10) (map Observe.sample mine) /\
    length (VehicleState.speedHistory st) <= 10.
Proof.
  intros Hfresh mine Hne.
  exists (Observe.stateOf v (Observe.updateAll rs this)).
  split; [now apply stored_after_updateAll|].
  assert (Hinit : Observe.summarises (Observe.stateOf v this) []).
  { unfold Observe.stateOf. rewrite Hfresh. apply summarises_initial. }
  destruct (summarises_updateAll v rs this [] Hinit) as (Hcount & Havg & Hhist).
  cbn [app] in *. fold mine in Hcount, Havg, Hhist.
  split; [exact Hcount|]. split; [|split; [exact Hhist|]].
  - unfold Observe.mean. rewrite <- Havg, length_map. field.
    assert (length mine <> 0)
      by (intros Hlen; apply Hne; now apply length_zero_iff_nil).
    assert (0 < inject_Z (Z.of_nat (length mine)))%Q
      by (change 0%Q with (inject_Z 0); rewrite <- Zlt_Qlt; lia).
    lra.
  - rewrite Hhist, length_drop, length_map. lia.
Qed.

Lemma running_statistics_witness :
  let rs := [Sample.reading "VEH003" 65; Sample.reading "VEH009" 40;
             Sample.reading "VEH003" (135 # 2); Sample.reading "VEH003" 70] in
  exists st,
    SpeedProcessor.vehicleStates (Observe.updateAll rs Sample.processor) !! "VEH003"
    = Some st /\
    VehicleState.recordCount st = 3 /\
    (VehicleState.averageSpeed st == 135 # 2)%Q.
Proof.
  intros rs.
  destruct (running_statistics Sample.processor "VEH003" rs)
    as (st & Hst & Hcount & Havg & _).
  - reflexivity.
  - vm_compute. discriminate.
  - exists st. split; [exact Hst|]. split; [exact Hcount|].
    rewrite Havg. reflexivity.
Defined.

End Statistics.

(** *** The alert engine *)

Section Alerts.

Implicit Types (this : AlertSystem.t) (v : Violation.t) (env : AlertSystem.Env).

Lemma run_bind {S A B} (m : M S A) (f : A -> M S B) (s : S) :
  run (m ≫= f) s
  = match run m s with
    | (Return a, s', events) =>
        let '(c, s'', events') := run (f a) s' in (c, s'', events ++ events')
    | (Throw e, s', events) => (Throw e, s', events)
    end.
Proof. reflexivity. Qed.

Lemma run_try_catch {S A} (body : M S A) (handler : Error -> M S A) (s : S) :
  run (try_catch body handler) s
  = match run body s with
    | (Return a, s', events) => (Return a, s', events)
    | (Throw e, s', events) =>
        let '(c, s'', events') := run (handler e) s' in (c, s'', events ++ events')
    end.
Proof. reflexivity. Qed.

(** The handler loop returns normally and leaves the engine alone. *)
Lemma runHandlers_returns env alert (handlers : list string) this :
  exists events,
    run (forEach handlers (fun handler =>
           try_catch
             (call (SendNotification handler alert
                      (AlertSystem.sendNotification_ok env handler))
                (AlertSystem.sendNotification_ok env handler) "handler.sendNotification")
             (fun error => mret tt))) this
    = (Return tt, this, events).
Proof.
  induction handlers as [|h handlers IH]; [eexists; reflexivity|].
  destruct IH as [events IH]. cbn [forEach]. rewrite run_bind, run_try_catch.
  cbn [call run].
  destruct (AlertSystem.sendNotification_ok env h); cbn; rewrite IH; eexists; reflexivity.
Qed.

(** [sendNotifications] returns normally and leaves the engine alone. *)
Lemma sendNotifications_returns env alert this :
  exists events,
    run (AlertSystem.sendNotifications env alert) this = (Return tt, this, events).
Proof.
  unfold AlertSystem.sendNotifications.
  rewrite run_try_catch, run_bind. cbn [get_this run]. rewrite run_bind.
  destruct (runHandlers_returns env alert (AlertSystem.notificationHandlers this) this)
    as [events Hloop].
  destruct (AlertSystem.mqttClient this).
  - cbn [call run]. destruct (AlertSystem.publishAlert_ok env).
    + rewrite Hloop. eexists; reflexivity.
    + eexists; reflexivity.
  - cbn. rewrite Hloop. eexists; reflexivity.
Qed.

(** The two ways [processViolation] ends on a violation object. *)
Lemma processViolation_run env v this :
  let alert :=
    AlertSystem.createAlert (AlertSystem.now_alertId env) (AlertSystem.now_createdAt env) v
      (AlertSystem.strategy_processViolation (AlertSystem.determineStrategy v) v) in
  let result := run (AlertSystem.processViolation env (Some v)) this in
  if AlertSystem.shouldSuppressAlert (AlertSystem.now_suppress env) v this
  then result = (Return AlertSystem.Suppressed, this, [])
  else result.1
       = (Return (AlertSystem.Created alert
                    (AlertSystem.name (AlertSystem.determineStrategy v))),
          AlertSystem.storeAlert (AlertSystem.now_lastAlert env) alert this).
Proof.
  intros alert result. subst result. unfold AlertSystem.processViolation.
  rewrite run_try_catch, run_bind. cbn [mret M_ret run]. rewrite run_bind.
  cbn [get_this run].
  destruct (AlertSystem.shouldSuppressAlert (AlertSystem.now_suppress env) v this).
  - reflexivity.
  - rewrite run_bind. cbn [modify run]. rewrite run_bind. fold alert.
    destruct (sendNotifications_returns env alert
                (AlertSystem.storeAlert (AlertSystem.now_lastAlert env) alert this))
      as [events ->].
    reflexivity.
Qed.

(** [processViolation] never throws, whatever it is given. *)
Lemma processViolation_returns env violation this :
  exists result this' events,
    run (AlertSystem.processViolation env violation) this = (Return result, this', events).
Proof.
  destruct violation as [v|].
  - pose proof (processViolation_run env v this) as H. cbv zeta in H.
    destruct (AlertSystem.shouldSuppressAlert (AlertSystem.now_suppress env) v this).
    + rewrite H. eauto.
    + destruct (run (AlertSystem.processViolation env (Some v)) this) as [[c s] events].
      cbn [fst] in H. injection H as -> ->. eauto.
  - eexists _, _, _. reflexivity.
Qed.

Lemma storeAlert_active now alert this :
  AlertSystem.activeAlerts (AlertSystem.storeAlert now alert this) !! Alert.vehicleId alert
  = Some {| ActiveAlert.lastAlert := now;
            ActiveAlert.alertId := Alert.id alert;
            ActiveAlert.severity := Alert.severity alert |}.
Proof. cbn. apply lookup_insert_eq. Qed.

Lemma storeAlert_history now alert this :
  length (AlertSystem.alertHistory this) <= AlertSystem.maxHistorySize this ->
  AlertSystem.alertHistory (AlertSystem.storeAlert now alert this)
  = take (AlertSystem.maxHistorySize this) (alert :: AlertSystem.alertHistory this).
Proof.
  intros Hle. cbn [AlertSystem.storeAlert AlertSystem.alertHistory].
  destruct (AlertSystem.maxHistorySize this <? length (alert :: AlertSystem.alertHistory this))
    eqn:E.
  - apply Nat.ltb_lt in E. cbn [length] in E.
    rewrite removelast_firstn_len. cbn [length Nat.pred]. f_equal. lia.
  - apply Nat.ltb_ge in E. now rewrite take_ge.
Qed.


(** Run without anything in between, the two parts are the method. *)
Lemma processViolation_parts env violation this :
  run (AlertSystem.processViolation env violation) this
  = match AlertSystem.processViolation_begin env violation this with
    | inl result => (Return result, this, [])
    | inr pending => run (AlertSystem.processViolation_resume env pending) this
    end.
Proof.
  destruct violation as [v|]; [|reflexivity].
  unfold AlertSystem.processViolation, AlertSystem.processViolation_begin,
    AlertSystem.processViolation_resume.
  rewrite !run_try_catch, run_bind. cbn [mret M_ret run]. rewrite run_bind.
  cbn [get_this run].
  destruct (AlertSystem.shouldSuppressAlert (AlertSystem.now_suppress env) v this);
    [reflexivity|].
  cbn [AlertSystem.pendingViolation AlertSystem.pendingStrategy
       AlertSystem.pendingAlertData].
  rewrite run_try_catch.
  set (body := modify _ ≫= _).
  destruct (run body this) as [[[result|error] s] events]; cbn; now rewrite ?app_nil_r.
Qed.




(** What every use of the engine preserves. *)
Lemma bounded_call1 (c : Observe.Call) this :
  AlertSystem.maxHistorySize this = 1000 ->
  length (AlertSystem.alertHistory this) <= 1000 ->
  AlertSystem.maxHistorySize (Observe.call1 c this) = 1000 /\
  length (AlertSystem.alertHistory (Observe.call1 c this)) <= 1000.
Proof.
  intros Hmax Hlen. destruct c as [env [v|]|now maxAge]; cbn [Observe.call1].
  - pose proof (processViolation_run env v this) as H. cbv zeta in H.
    destruct (AlertSystem.shouldSuppressAlert (AlertSystem.now_suppress env) v this).
    + rewrite H. now split.
    + rewrite H. cbn [snd]. split; [exact Hmax|].
      rewrite storeAlert_history by lia. rewrite length_take. lia.
  - now split.
  - cbn. split; [exact Hmax|].
    etransitivity; [apply length_filter|exact Hlen].
Qed.

Lemma bounded_calls (cs : list Observe.Call) : forall this,
  AlertSystem.maxHistorySize this = 1000 ->
  length (AlertSystem.alertHistory this) <= 1000 ->
  AlertSystem.maxHistorySize (Observe.calls cs this) = 1000 /\
  length (AlertSystem.alertHistory (Observe.calls cs this)) <= 1000.
Proof.
  induction cs as [|c cs IH]; intros this Hmax Hlen; [now split|].
  destruct (bounded_call1 c this Hmax Hlen) as [Hmax' Hlen'].
  exact (IH _ Hmax' Hlen').
Qed.

(** C10.  In an engine reached from a fresh one by any sequence of
    [processViolation] calls (creating, suppressing or failing) and
    clean-ups, the alert history holds at most 1000 entries, before and
    after one more [processViolation]; storing an alert puts it at the
    front and keeps the first 1000 entries, so that, once the history is
    full, the entry at the end (the oldest) is the one evicted. *)
Theorem alert_history_bounded mqttClient handlers (cs : list Observe.Call)
    env violation now alert :
  let this := Observe.calls cs (AlertSystem.constructor mqttClient handlers) in
  let after := (run (AlertSystem.processViolation env violation) this).1.2 in
  length (AlertSystem.alertHistory this) <= 1000 /\
  length (AlertSystem.alertHistory after) <= 1000 /\
  AlertSystem.alertHistory (AlertSystem.storeAlert now alert this)
  = take 1000 (alert :: AlertSystem.alertHistory this) /\
  (length (AlertSystem.alertHistory this) < 1000 ->
   AlertSystem.alertHistory (AlertSystem.storeAlert now alert this)
   = alert :: AlertSystem.alertHistory this) /\
  (length (AlertSystem.alertHistory this) = 1000 ->
   AlertSystem.alertHistory (AlertSystem.storeAlert now alert this)
   = alert :: removelast (AlertSystem.alertHistory this)).
Proof.
  intros this after.
  destruct (bounded_calls cs (AlertSystem.constructor mqttClient handlers))
    as [Hmax Hlen]; [reflexivity | cbn; lia |]. fold this in Hmax, Hlen.
  destruct (bounded_call1 (Observe.ProcessViolation env violation) this Hmax Hlen)
    as [_ Hafter].
  assert (Hstore : AlertSystem.alertHistory (AlertSystem.storeAlert now alert this)
                   = take 1000 (alert :: AlertSystem.alertHistory this))
    by (rewrite storeAlert_history, Hmax by lia; reflexivity).
  split; [exact Hlen|]. split; [exact Hafter|]. split; [exact Hstore|]. split.
  - intros Hlt. rewrite Hstore. apply take_ge. cbn [length]. lia.
  - intros Hfull. rewrite Hstore. cbn [take]. f_equal.
    rewrite removelast_firstn_len, Hfull. reflexivity.
Qed.

Lemma alert_history_bounded_witness :
  let this := Observe.calls [] (AlertSystem.constructor true []) in
  let alert :=
    AlertSystem.createAlert 0 0 (Sample.violation "VEH005" 95 CRITICAL 1)
      (AlertSystem.strategy_processViolation AlertSystem.critical
         (Sample.violation "VEH005" 95 CRITICAL 1)) in
  AlertSystem.alertHistory (AlertSystem.storeAlert 0 alert this) = [alert].
Proof.
  intros this alert.
  destruct (alert_history_bounded true [] [] (Sample.alertEnv 0) None 0 alert)
    as (_ & _ & _ & Hfront & _).
  apply Hfront. cbn. lia.
Defined.

End Alerts.

(** *** The pipeline *)

Section Pipeline.
Context {validator : SpeedProcessor.Validator}.

Implicit Types (this : SpeedProcessor.t) (alerts : AlertSystem.t) (d : SpeedData.t).

Lemma synchronous_injections env d this :
  SpeedProcessor.dataStore (Observe.synchronous env d this).2
  = SpeedProcessor.dataStore this /\
  SpeedProcessor.alertSystem (Observe.synchronous env d this).2
  = SpeedProcessor.alertSystem this /\
  SpeedProcessor.speedLimit (Observe.synchronous env d this).2
  = SpeedProcessor.speedLimit this.
Proof.
  unfold Observe.synchronous.
  destruct (SpeedProcessor.updateVehicleState d _) as [vehicleState this2] eqn:Hupd.
  assert (H2 : this2 = (SpeedProcessor.updateVehicleState d
                          (SpeedProcessor.incr_processedCount this)).2)
    by now rewrite Hupd.
  unfold SpeedProcessor.checkSpeedViolation.
  destruct (Qle_bool _ _); rewrite H2; repeat split; reflexivity.
Qed.

(** [processSpeedData] on a valid reading, case by case. *)
Lemma processSpeedData_valid env raw d this alerts vehicleState violation this3 :
  SpeedProcessor.validateSpeedData (SpeedProcessor.now_validate env) raw
  = SpeedProcessor.Valid d ->
  Observe.synchronous env d this = (vehicleState, violation, this3) ->
  let ok := SpeedProcessor.saveSpeedRecord_ok env in
  let saved := if SpeedProcessor.dataStore this then [SaveSpeedRecord d ok] else [] in
  let success :=
    SpeedProcessor.Success d vehicleState violation
      (SpeedProcessor.getProcessingStats this3) in
  run (SpeedProcessor.processSpeedData env raw) (this, alerts)
  = if SpeedProcessor.dataStore this && negb ok
    then (Return (SpeedProcessor.ProcessingError (Rejected "dataStore.saveSpeedRecord")),
          (this3, alerts), saved)
    else
      match violation with
      | Some v =>
          if SpeedProcessor.alertSystem this
          then
            let '(_, alerts', events) :=
              run (AlertSystem.processViolation (SpeedProcessor.alertEnv env) (Some v))
                alerts in
            (Return success, (this3, alerts'), saved ++ events)
          else (Return success, (this3, alerts), saved)
      | None => (Return success, (this3, alerts), saved)
      end.
Proof.
  intros Hvalid Hsync ok saved success.
  destruct (synchronous_injections env d this) as (Hstore & Halert & _).
  rewrite Hsync in Hstore, Halert. cbn [snd] in Hstore, Halert.
  unfold Observe.synchronous in Hsync.
  unfold SpeedProcessor.processSpeedData. rewrite Hvalid.
  rewrite run_try_catch, !run_bind.
  cbn -[SpeedProcessor.updateVehicleState SpeedProcessor.checkSpeedViolation
        AlertSystem.processViolation SpeedProcessor.getProcessingStats].
  destruct (SpeedProcessor.updateVehicleState d _) as [vs this2].
  cbn -[SpeedProcessor.checkSpeedViolation AlertSystem.processViolation
        SpeedProcessor.getProcessingStats].
  destruct (SpeedProcessor.checkSpeedViolation _ _ d vs this2) as [viol this3'].
  injection Hsync as -> -> ->.
  cbn -[AlertSystem.processViolation SpeedProcessor.getProcessingStats].
  rewrite Hstore, Halert. subst saved success.
  destruct (SpeedProcessor.dataStore this); fold ok.
  - destruct ok; cbn -[AlertSystem.processViolation SpeedProcessor.getProcessingStats].
    + destruct violation as [v|]; [|reflexivity].
      destruct (SpeedProcessor.alertSystem this); [|reflexivity].
      cbn -[AlertSystem.processViolation SpeedProcessor.getProcessingStats].
      destruct (processViolation_returns (SpeedProcessor.alertEnv env) (Some v) alerts)
        as (result & alerts' & events & ->).
      cbn. now rewrite !app_nil_r.
    + reflexivity.
  - cbn -[AlertSystem.processViolation SpeedProcessor.getProcessingStats].
    destruct violation as [v|]; [|reflexivity].
    destruct (SpeedProcessor.alertSystem this); [|reflexivity].
    cbn -[AlertSystem.processViolation SpeedProcessor.getProcessingStats].
    destruct (processViolation_returns (SpeedProcessor.alertEnv env) (Some v) alerts)
      as (result & alerts' & events & ->).
    cbn. now rewrite !app_nil_r.
Qed.

Lemma processSpeedData_invalid env raw errors this alerts :
  SpeedProcessor.validateSpeedData (SpeedProcessor.now_validate env) raw
  = SpeedProcessor.Invalid errors ->
  run (SpeedProcessor.processSpeedData env raw) (this, alerts)
  = (Return (SpeedProcessor.ValidationFailed errors), (this, alerts), []).
Proof.
  intros Hinvalid. unfold SpeedProcessor.processSpeedData. now rewrite Hinvalid.
Qed.

(** [processSpeedData] never throws. *)
Lemma processSpeedData_returns env raw this alerts :
  exists result s events,
    run (SpeedProcessor.processSpeedData env raw) (this, alerts)
    = (Return result, s, events).
Proof.
  destruct (SpeedProcessor.validateSpeedData (SpeedProcessor.now_validate env) raw)
    as [d|errors] eqn:Hv.
  - destruct (Observe.synchronous env d this) as [[vehicleState violation] this3] eqn:Hs.
    rewrite (processSpeedData_valid env raw d this alerts _ _ _ Hv Hs).
    destruct (SpeedProcessor.dataStore this && negb (SpeedProcessor.saveSpeedRecord_ok env));
      [eauto|].
    destruct violation as [v|]; [|eauto].
    destruct (SpeedProcessor.alertSystem this); [|eauto].
    destruct (run (AlertSystem.processViolation _ _) alerts) as [[c a] e]. eauto.
  - rewrite (processSpeedData_invalid env raw errors this alerts Hv). eauto.
Qed.

End Pipeline.

(** *** The message handler *)

Section Handler.
Context {runtime : JS.Runtime} {validator : SpeedProcessor.Validator}.

Implicit Types (this : MqttSpeedProcessor.t) (env : MqttSpeedProcessor.Env).

Lemma publishAlert_returns penv draft this :
  exists events,
    run (MqttSpeedProcessor.publishAlert penv draft) this = (Return tt, this, events).
Proof.
  unfold MqttSpeedProcessor.publishAlert. rewrite run_try_catch. cbn [call run].
  destruct (MqttSpeedProcessor.publish_ok penv); eexists; reflexivity.
Qed.

Lemma generateAlerts_returns env d violation vehicleState this :
  exists events,
    run (MqttSpeedProcessor.generateAlerts env d violation vehicleState) this
    = (Return tt, this, events) /\
    (violation = None -> events = []).
Proof.
  destruct violation as [v|]; [|eexists; split; reflexivity].
  unfold MqttSpeedProcessor.generateAlerts.
  rewrite run_try_catch, run_bind. cbn [get_this run]. rewrite run_bind.
  set (simple := if JS.Qgtb _ _ then _ else _).
  set (critical := if _ && _ then _ else _).
  assert (Hsimple : exists events, run simple this = (Return tt, this, events)).
  { subst simple. destruct (JS.Qgtb _ _); [apply publishAlert_returns|].
    eexists; reflexivity. }
  assert (Hcritical : exists events, run critical this = (Return tt, this, events)).
  { subst critical. destruct (_ && _); [apply publishAlert_returns|].
    eexists; reflexivity. }
  destruct Hsimple as [e1 ->]. destruct Hcritical as [e2 ->].
  eexists. split; [reflexivity|discriminate].
Qed.

(** A message that the parse step rejects only moves the counters. *)
Lemma handleSpeedMessage_rejected env topic message this :
  MqttSpeedProcessor.parseSpeedMessage (MqttSpeedProcessor.now_timestamp env) message = None ->
  run (MqttSpeedProcessor.handleSpeedMessage env topic message) this
  = (Return tt,
     MqttSpeedProcessor.incr_errorCount
       (MqttSpeedProcessor.receive (MqttSpeedProcessor.now_message env) this),
     []).
Proof.
  intros Hparse. unfold MqttSpeedProcessor.handleSpeedMessage.
  rewrite run_bind. cbn [modify run]. rewrite run_try_catch, Hparse. reflexivity.
Qed.

(** A message that the parse step accepts, by the result of
    [processSpeedData]. *)
Lemma handleSpeedMessage_accepted env topic message raw this result services events :
  MqttSpeedProcessor.parseSpeedMessage (MqttSpeedProcessor.now_timestamp env) message
  = Some raw ->
  run (SpeedProcessor.processSpeedData (MqttSpeedProcessor.processEnv env) raw)
      (MqttSpeedProcessor.speedProcessor this, MqttSpeedProcessor.alertSystem this)
  = (Return result, services, events) ->
  let this1 :=
    MqttSpeedProcessor.set_services services
      (MqttSpeedProcessor.receive (MqttSpeedProcessor.now_message env) this) in
  run (MqttSpeedProcessor.handleSpeedMessage env topic message) this
  = match result with
    | SpeedProcessor.Success d vehicleState violation _ =>
        (Return tt, this1,
         events
         ++ (run (MqttSpeedProcessor.generateAlerts env d violation vehicleState) this1).2)
    | _ => (Return tt, MqttSpeedProcessor.incr_errorCount this1, events)
    end.
Proof.
  intros Hparse Hrun this1. unfold MqttSpeedProcessor.handleSpeedMessage.
  rewrite run_bind. cbn [modify run]. rewrite run_try_catch, Hparse, run_bind.
  unfold MqttSpeedProcessor.on_speedProcessor at 1. cbn [zoom run].
  cbn [MqttSpeedProcessor.receive MqttSpeedProcessor.speedProcessor
       MqttSpeedProcessor.alertSystem].
  rewrite Hrun. fold this1.
  destruct result as [errors|d vehicleState violation stats|error].
  - cbn. now rewrite ?app_nil_r.
  - destruct (generateAlerts_returns env d violation vehicleState this1)
      as (published & -> & _).
    cbn. now rewrite ?app_nil_r.
  - cbn. now rewrite ?app_nil_r.
Qed.

(** The handler never throws. *)
Lemma handleSpeedMessage_returns env topic message this :
  exists this' events,
    run (MqttSpeedProcessor.handleSpeedMessage env topic message) this
    = (Return tt, this', events).
Proof.
  destruct (MqttSpeedProcessor.parseSpeedMessage (MqttSpeedProcessor.now_timestamp env)
              message) as [raw|] eqn:Hparse.
  - destruct (processSpeedData_returns (MqttSpeedProcessor.processEnv env) raw
                (MqttSpeedProcessor.speedProcessor this)
                (MqttSpeedProcessor.alertSystem this))
      as (result & services & events & Hrun).
    rewrite (handleSpeedMessage_accepted env topic message raw this _ _ _ Hparse Hrun).
    destruct result; eauto.
  - rewrite (handleSpeedMessage_rejected env topic message this Hparse). eauto.
Qed.

(** The calls of [generateAlerts] depend on the two limits only. *)
Lemma generateAlerts_events env d violation vehicleState this that :
  MqttSpeedProcessor.speedLimit this = MqttSpeedProcessor.speedLimit that ->
  MqttSpeedProcessor.consecutiveLimit this = MqttSpeedProcessor.consecutiveLimit that ->
  (run (MqttSpeedProcessor.generateAlerts env d violation vehicleState) this).2
  = (run (MqttSpeedProcessor.generateAlerts env d violation vehicleState) that).2.
Proof.
  intros Hlimit Hthreshold.
  destruct violation as [v|]; [|reflexivity].
  unfold MqttSpeedProcessor.generateAlerts.
  rewrite !run_try_catch, !run_bind. cbn [get_this run]. rewrite !run_bind.
  rewrite Hlimit, Hthreshold.
  set (simple := if JS.Qgtb _ _ then _ else _).
  set (critical := if _ && _ then _ else _).
  assert (Hsimple : exists events,
             forall s, run simple s = (Return tt, s, events)).
  { subst simple. destruct (JS.Qgtb _ _).
    - unfold MqttSpeedProcessor.publishAlert.
      destruct (MqttSpeedProcessor.publish_ok (MqttSpeedProcessor.simpleEnv env));
        eexists; intros s; rewrite run_try_catch; cbn [call run]; reflexivity.
    - eexists; intros s; reflexivity. }
  assert (Hcritical : exists events,
             forall s, run critical s = (Return tt, s, events)).
  { subst critical. destruct (_ && _).
    - unfold MqttSpeedProcessor.publishAlert.
      destruct (MqttSpeedProcessor.publish_ok (MqttSpeedProcessor.criticalEnv env));
        eexists; intros s; rewrite run_try_catch; cbn [call run]; reflexivity.
    - eexists; intros s; reflexivity. }
  destruct Hsimple as [e1 H1]. destruct Hcritical as [e2 H2].
  rewrite !H1, !H2. reflexivity.
Qed.

(** The handler treats alike two states that differ in the message
    statistics only: same collaborator calls, same services afterwards. *)
Lemma handleSpeedMessage_sameServices env topic message this that :
  Observe.sameServices this that ->
  let outcome := run (MqttSpeedProcessor.handleSpeedMessage env topic message) this in
  let outcome' := run (MqttSpeedProcessor.handleSpeedMessage env topic message) that in
  outcome.2 = outcome'.2 /\ Observe.sameServices outcome.1.2 outcome'.1.2.
Proof.
  intros (Hservices & Hlimit & Hthreshold) outcome outcome'. subst outcome outcome'.
  unfold Observe.services in Hservices. injection Hservices as Hsp Halerts.
  destruct (MqttSpeedProcessor.parseSpeedMessage (MqttSpeedProcessor.now_timestamp env)
              message) as [raw|] eqn:Hparse.
  - destruct (processSpeedData_returns (MqttSpeedProcessor.processEnv env) raw
                (MqttSpeedProcessor.speedProcessor this)
                (MqttSpeedProcessor.alertSystem this))
      as (result & services & events & Hrun).
    pose proof Hrun as Hrun'. rewrite Hsp, Halerts in Hrun'.
    rewrite (handleSpeedMessage_accepted env topic message raw this _ _ _ Hparse Hrun).
    rewrite (handleSpeedMessage_accepted env topic message raw that _ _ _ Hparse Hrun').
    destruct result as [errors|d vehicleState violation stats|error];
      cbn [fst snd]; (split; [|repeat split; cbn; assumption]); try reflexivity.
    f_equal. now apply generateAlerts_events.
  - rewrite !(handleSpeedMessage_rejected env topic message _ Hparse).
    cbn [fst snd]. split; [reflexivity|].
    repeat split; cbn; try assumption. unfold Observe.services. cbn. now f_equal.
Qed.

(** Nor does the delivery of a whole stream of payloads. *)
Lemma deliverAll_returns (stream : list (MqttSpeedProcessor.Env * string)) topic :
  forall this, exists this' events,
    run (MqttSpeedProcessor.deliverAll stream topic) this = (Return tt, this', events).
Proof.
  induction stream as [|[env payload] stream IH]; intros this; [eexists _, _; reflexivity|].
  cbn [MqttSpeedProcessor.deliverAll]. rewrite run_bind.
  unfold MqttSpeedProcessor.deliver.
  destruct (handleSpeedMessage_returns env topic
              (match JS.JSON_parse payload with
               | Some v => v
               | None => JS.Str payload
               end) this) as (this1 & events1 & ->).
  destruct (IH this1) as (this' & events' & ->). eauto.
Qed.

End Handler.

(** *** Malformed payloads *)

Section MalformedPayloads.
Context {runtime : JS.Runtime} {validator : SpeedProcessor.Validator}.

Implicit Types (this : MqttSpeedProcessor.t) (env : MqttSpeedProcessor.Env).

Lemma normalizeMessage_lacksSpeed now (o : JS.value) :
  Observe.lacksSpeed o -> MqttSpeedProcessor.normalizeMessage now o = None.
Proof.
  intros Hspeed. unfold MqttSpeedProcessor.normalizeMessage.
  destruct (negb (JS.truthy o) || _); [reflexivity|].
  rewrite (bool_decide_eq_false_2 _ Hspeed). cbn [negb].
  now rewrite orb_true_r.
Qed.

Lemma parseSpeedMessage_malformed now (message : JS.value) :
  Observe.malformed message -> MqttSpeedProcessor.parseSpeedMessage now message = None.
Proof.
  intros [text Hblank|text Hparse|text o Hparse Hspeed|o Htype Hspeed];
    unfold MqttSpeedProcessor.parseSpeedMessage.
  - rewrite Hblank. cbn [Nat.eqb]. now rewrite orb_true_r.
  - rewrite Hparse. now destruct (_ || _).
  - rewrite Hparse. destruct (_ || _); [reflexivity|].
    now apply normalizeMessage_lacksSpeed.
  - destruct o; try (destruct (_ && _); [now apply normalizeMessage_lacksSpeed|reflexivity]).
    now destruct Htype.
Qed.

(** C8.  On a malformed payload (a blank text, a text that [JSON.parse]
    rejects, a text or an object without a numeric [speed]) the parse step
    answers [null], never a partly filled reading, and the handler returns
    normally having only counted the message and the error: it calls no
    collaborator, so no reading is stored and no alert published, and it
    leaves the speed processor and the alert engine as they were.  The
    message that follows is handled as if the malformed one had not been
    sent: same collaborator calls, same services afterwards.  No stream of
    payloads, malformed or not, makes the delivery throw. *)
Theorem malformed_payload_is_discarded env topic (message : JS.value) this
    (stream : list (MqttSpeedProcessor.Env * string)) :
  Observe.malformed message ->
  let outcome := run (MqttSpeedProcessor.handleSpeedMessage env topic message) this in
  MqttSpeedProcessor.parseSpeedMessage (MqttSpeedProcessor.now_timestamp env) message
  = None /\
  outcome
  = (Return tt,
     MqttSpeedProcessor.incr_errorCount
       (MqttSpeedProcessor.receive (MqttSpeedProcessor.now_message env) this),
     []) /\
  MqttSpeedProcessor.speedProcessor outcome.1.2 = MqttSpeedProcessor.speedProcessor this /\
  MqttSpeedProcessor.alertSystem outcome.1.2 = MqttSpeedProcessor.alertSystem this /\
  MqttSpeedProcessor.errorCount outcome.1.2 = S (MqttSpeedProcessor.errorCount this) /\
  (forall env' (next : JS.value),
     let after := run (MqttSpeedProcessor.handleSpeedMessage env' topic next) outcome.1.2 in
     let direct := run (MqttSpeedProcessor.handleSpeedMessage env' topic next) this in
     after.1.1 = Return tt /\
     after.2 = direct.2 /\
     Observe.services after.1.2 = Observe.services direct.1.2) /\
  exists this' events,
    run (MqttSpeedProcessor.deliverAll stream topic) outcome.1.2
    = (Return tt, this', events).
Proof.
  intros Hbad outcome.
  pose proof (parseSpeedMessage_malformed (MqttSpeedProcessor.now_timestamp env)
                message Hbad) as Hparse.
  pose proof (handleSpeedMessage_rejected env topic message this Hparse) as Hrun.
  fold outcome in Hrun.
  split; [exact Hparse|]. split; [exact Hrun|].
  rewrite Hrun. cbn [fst snd]. repeat split.
  - destruct (handleSpeedMessage_returns env' topic next
                (MqttSpeedProcessor.incr_errorCount
                   (MqttSpeedProcessor.receive (MqttSpeedProcessor.now_message env) this)))
      as (this' & events & ->).
    reflexivity.
  - apply handleSpeedMessage_sameServices. repeat split.
  - apply handleSpeedMessage_sameServices. repeat split.
  - apply deliverAll_returns.
Qed.

End MalformedPayloads.

Lemma malformed_payload_is_discarded_witness :
  run (@MqttSpeedProcessor.handleSpeedMessage Sample.runtime Sample.validator
         (Sample.env 0 true) "vehicles/speed" (JS.Str Sample.truncated))
      Sample.service
  = (Return tt,
     MqttSpeedProcessor.incr_errorCount (MqttSpeedProcessor.receive 0 Sample.service),
     []).
Proof.
  destruct (@malformed_payload_is_discarded Sample.runtime Sample.validator
              (Sample.env 0 true) "vehicles/speed" (JS.Str Sample.truncated)
              Sample.service []) as (_ & Hrun & _).
  - apply Observe.unparsable. reflexivity.
  - exact Hrun.
Defined.

(** *** Dispatch *)

Section Dispatch.
Context {runtime : JS.Runtime} {validator : SpeedProcessor.Validator}.

Implicit Types (this : MqttSpeedProcessor.t) (env : MqttSpeedProcessor.Env).

Lemma synchronous_within penv d (sp : SpeedProcessor.t) :
  (SpeedData.speed d <= SpeedProcessor.speedLimit sp)%Q ->
  (Observe.synchronous penv d sp).1.2 = None.
Proof.
  intros Hle. unfold Observe.synchronous.
  destruct (SpeedProcessor.updateVehicleState d _) as [vehicleState sp2] eqn:Hupd.
  assert (Hlimit : SpeedProcessor.speedLimit sp2 = SpeedProcessor.speedLimit sp).
  { replace sp2 with (SpeedProcessor.updateVehicleState d
                        (SpeedProcessor.incr_processedCount sp)).2 by now rewrite Hupd.
    reflexivity. }
  rewrite checkSpeedViolation_within by (rewrite Hlimit; exact Hle).
  reflexivity.
Qed.

(** C7.  For a valid reading at or below the limit, no [Violation] is
    produced ([checkSpeedViolation] answers [null] against any snapshot) and
    no alert: the only collaborator that the handler calls is the data
    store, with that reading, and the alert engine is left as it was. *)
Theorem within_limit_is_stored_without_alert env topic (message : JS.value) raw d this :
  MqttSpeedProcessor.parseSpeedMessage (MqttSpeedProcessor.now_timestamp env) message
  = Some raw ->
  SpeedProcessor.validateSpeedData
    (SpeedProcessor.now_validate (MqttSpeedProcessor.processEnv env)) raw
  = SpeedProcessor.Valid d ->
  (SpeedData.speed d
   <= SpeedProcessor.speedLimit (MqttSpeedProcessor.speedProcessor this))%Q ->
  SpeedProcessor.dataStore (MqttSpeedProcessor.speedProcessor this) = true ->
  let penv := MqttSpeedProcessor.processEnv env in
  let sync := Observe.synchronous penv d (MqttSpeedProcessor.speedProcessor this) in
  let outcome := run (MqttSpeedProcessor.handleSpeedMessage env topic message) this in
  (forall now detectedAt snapshot,
     (SpeedProcessor.checkSpeedViolation now detectedAt d snapshot
        (MqttSpeedProcessor.speedProcessor this)).1 = None) /\
  sync.1.2 = None /\
  outcome.1.1 = Return tt /\
  outcome.2 = [SaveSpeedRecord d (SpeedProcessor.saveSpeedRecord_ok penv)] /\
  MqttSpeedProcessor.alertSystem outcome.1.2 = MqttSpeedProcessor.alertSystem this /\
  MqttSpeedProcessor.speedProcessor outcome.1.2 = sync.2.
Proof.
  intros Hparse Hvalid Hle Hstore penv sync outcome.
  pose proof (synchronous_within penv d _ Hle) as Hnone. fold sync in Hnone.
  destruct sync as [[vehicleState violation] sp3] eqn:Hsync. cbn [fst snd] in Hnone.
  subst violation.
  pose proof (processSpeedData_valid penv raw d _ (MqttSpeedProcessor.alertSystem this)
                _ _ _ Hvalid Hsync) as Hrun.
  cbv zeta in Hrun. rewrite Hstore in Hrun.
  split; [intros; now rewrite checkSpeedViolation_within|].
  split; [reflexivity|].
  subst outcome.
  destruct (SpeedProcessor.saveSpeedRecord_ok penv) eqn:Hok;
    cbn [andb negb] in Hrun;
    rewrite (handleSpeedMessage_accepted env topic message raw this _ _ _ Hparse Hrun);
    repeat split.
Qed.

(** What [processSpeedData] does when [saveSpeedRecord] throws: the [catch]
    of the method answers a processing error, with the vehicle state as the
    synchronous part left it and the alert engine not called. *)
Lemma processSpeedData_save_fails penv raw d (sp : SpeedProcessor.t) alerts :
  SpeedProcessor.validateSpeedData (SpeedProcessor.now_validate penv) raw
  = SpeedProcessor.Valid d ->
  SpeedProcessor.dataStore sp = true ->
  SpeedProcessor.saveSpeedRecord_ok penv = false ->
  run (SpeedProcessor.processSpeedData penv raw) (sp, alerts)
  = (Return (SpeedProcessor.ProcessingError (Rejected "dataStore.saveSpeedRecord")),
     ((Observe.synchronous penv d sp).2, alerts),
     [SaveSpeedRecord d false]).
Proof.
  intros Hvalid Hstore Hok.
  destruct (Observe.synchronous penv d sp) as [[vehicleState violation] sp3] eqn:Hsync.
  rewrite (processSpeedData_valid penv raw d sp alerts _ _ _ Hvalid Hsync).
  now rewrite Hstore, Hok.
Qed.

(** And when it resolves: the reading is handed to the store first, and the
    method succeeds with the same vehicle state, whatever the broker does
    with the alert. *)
Lemma processSpeedData_save_succeeds penv raw d (sp : SpeedProcessor.t) alerts :
  SpeedProcessor.validateSpeedData (SpeedProcessor.now_validate penv) raw
  = SpeedProcessor.Valid d ->
  SpeedProcessor.dataStore sp = true ->
  SpeedProcessor.saveSpeedRecord_ok penv = true ->
  let sync := Observe.synchronous penv d sp in
  exists alerts' published,
    run (SpeedProcessor.processSpeedData penv raw) (sp, alerts)
    = (Return (SpeedProcessor.Success d sync.1.1 sync.1.2
                 (SpeedProcessor.getProcessingStats sync.2)),
       (sync.2, alerts'),
       SaveSpeedRecord d true :: published).
Proof.
  intros Hvalid Hstore Hok sync.
  destruct sync as [[vehicleState violation] sp3] eqn:Hsync.
  rewrite (processSpeedData_valid penv raw d sp alerts _ _ _ Hvalid Hsync).
  rewrite Hstore, Hok. cbn [andb negb fst snd].
  destruct violation as [v|]; [|eauto].
  destruct (SpeedProcessor.alertSystem sp); [|eauto].
  destruct (run (AlertSystem.processViolation _ _) alerts) as [[c alerts'] events].
  eauto.
Qed.

(** C2, as the code has it.  When [saveSpeedRecord] throws for a valid
    reading, the throw is caught inside [processSpeedData], which answers a
    processing error; the handler returns normally and counts one error; the
    vehicle state computed for the reading is kept; but the alert engine is
    not called for that reading and nothing is published: the failed write
    is the only collaborator call.  A publication failure, for its part, is
    caught where it occurs: when the write resolves, the reading has been
    handed to the store and the handler returns normally with the same
    vehicle state, whatever the broker answers. *)
Theorem persistence_failure_is_contained env env' topic (message : JS.value)
    raw d raw' d' this :
  MqttSpeedProcessor.parseSpeedMessage (MqttSpeedProcessor.now_timestamp env) message
  = Some raw ->
  SpeedProcessor.validateSpeedData
    (SpeedProcessor.now_validate (MqttSpeedProcessor.processEnv env)) raw
  = SpeedProcessor.Valid d ->
  SpeedProcessor.dataStore (MqttSpeedProcessor.speedProcessor this) = true ->
  SpeedProcessor.saveSpeedRecord_ok (MqttSpeedProcessor.processEnv env) = false ->
  MqttSpeedProcessor.parseSpeedMessage (MqttSpeedProcessor.now_timestamp env') message
  = Some raw' ->
  SpeedProcessor.validateSpeedData
    (SpeedProcessor.now_validate (MqttSpeedProcessor.processEnv env')) raw'
  = SpeedProcessor.Valid d' ->
  SpeedProcessor.saveSpeedRecord_ok (MqttSpeedProcessor.processEnv env') = true ->
  let sp := MqttSpeedProcessor.speedProcessor this in
  let alerts := MqttSpeedProcessor.alertSystem this in
  let sync := Observe.synchronous (MqttSpeedProcessor.processEnv env) d sp in
  let sync' := Observe.synchronous (MqttSpeedProcessor.processEnv env') d' sp in
  let failed := run (MqttSpeedProcessor.handleSpeedMessage env topic message) this in
  let saved := run (MqttSpeedProcessor.handleSpeedMessage env' topic message) this in
  run (SpeedProcessor.processSpeedData (MqttSpeedProcessor.processEnv env) raw) (sp, alerts)
  = (Return (SpeedProcessor.ProcessingError (Rejected "dataStore.saveSpeedRecord")),
     (sync.2, alerts), [SaveSpeedRecord d false]) /\
  failed.1.1 = Return tt /\
  failed.2 = [SaveSpeedRecord d false] /\
  MqttSpeedProcessor.speedProcessor failed.1.2 = sync.2 /\
  MqttSpeedProcessor.alertSystem failed.1.2 = alerts /\
  MqttSpeedProcessor.errorCount failed.1.2 = S (MqttSpeedProcessor.errorCount this) /\
  saved.1.1 = Return tt /\
  (exists published, saved.2 = SaveSpeedRecord d' true :: published) /\
  MqttSpeedProcessor.speedProcessor saved.1.2 = sync'.2.
Proof.
  intros Hparse Hvalid Hstore Hfail Hparse' Hvalid' Hok sp alerts sync sync' failed saved.
  pose proof (processSpeedData_save_fails _ raw d sp alerts Hvalid Hstore Hfail) as Hrun.
  fold sync in Hrun.
  destruct (processSpeedData_save_succeeds _ raw' d' sp alerts Hvalid' Hstore Hok)
    as (alerts' & published & Hrun'). fold sync' in Hrun'.
  split; [exact Hrun|].
  subst failed saved.
  rewrite (handleSpeedMessage_accepted env topic message raw this _ _ _ Hparse Hrun).
  rewrite (handleSpeedMessage_accepted env' topic message raw' this _ _ _ Hparse' Hrun').
  cbn [fst snd]. repeat split.
  eexists. reflexivity.
Qed.

End Dispatch.

Lemma within_limit_is_stored_without_alert_witness :
  (run (@MqttSpeedProcessor.handleSpeedMessage Sample.runtime Sample.validator
          (Sample.env 0 true) "vehicles/speed" (Sample.message "VEH001" 45))
       Sample.service).2
  = [SaveSpeedRecord (Sample.readingAt 0 "VEH001" 45) true].
Proof.
  destruct (@within_limit_is_stored_without_alert Sample.runtime Sample.validator
              (Sample.env 0 true) "vehicles/speed" (Sample.message "VEH001" 45)
              (SpeedMessage.mk "VEH001" (JS.Fin 45) (JS.Str "1970-01-01T00:00:00.000Z")
                 JS.Null (JS.Str "unknown") JS.Null)
              (Sample.readingAt 0 "VEH001" 45) Sample.service)
    as (_ & _ & _ & Hevents & _).
  - reflexivity.
  - reflexivity.
  - vm_compute. discriminate.
  - reflexivity.
  - exact Hevents.
Defined.

Lemma persistence_failure_is_contained_witness :
  let failed :=
    run (@MqttSpeedProcessor.handleSpeedMessage Sample.runtime Sample.validator
           (Sample.env 0 false) "vehicles/speed" (Sample.message "VEH005" 95))
        Sample.service in
  failed.1.1 = Return tt /\
  failed.2 = [SaveSpeedRecord (Sample.readingAt 0 "VEH005" 95) false].
Proof.
  destruct (@persistence_failure_is_contained Sample.runtime Sample.validator
              (Sample.env 0 false) (Sample.env 0 true) "vehicles/speed"
              (Sample.message "VEH005" 95)
              (SpeedMessage.mk "VEH005" (JS.Fin 95) (JS.Str "1970-01-01T00:00:00.000Z")
                 JS.Null (JS.Str "unknown") JS.Null)
              (Sample.readingAt 0 "VEH005" 95)
              (SpeedMessage.mk "VEH005" (JS.Fin 95) (JS.Str "1970-01-01T00:00:00.000Z")
                 JS.Null (JS.Str "unknown") JS.Null)
              (Sample.readingAt 0 "VEH005" 95) Sample.service)
    as (_ & Hreturn & Hevents & _); try reflexivity.
  split; [exact Hreturn | exact Hevents].
Defined.

(** C2, as the specification words it, fails: the same violating reading
    (95 against a limit of 60) that yields an alert when the write resolves
    yields none when [saveSpeedRecord] throws; the alert engine is not called
    and nothing reaches the broker. *)
Lemma persistence_failure_blocks_alert_counterexample :
  let handle saved :=
    run (@MqttSpeedProcessor.handleSpeedMessage Sample.runtime Sample.validator
           (Sample.env 0 saved) "vehicles/speed" (Sample.message "VEH005" 95))
        Sample.service in
  length (AlertSystem.alertHistory (MqttSpeedProcessor.alertSystem (handle true).1.2)) = 1 /\
  existsb Observe.is_publication (handle true).2 = true /\
  AlertSystem.alertHistory (MqttSpeedProcessor.alertSystem (handle false).1.2) = [] /\
  existsb Observe.is_publication (handle false).2 = false /\
  VehicleState.totalViolations
    (Observe.stateOf "VEH005" (MqttSpeedProcessor.speedProcessor (handle false).1.2)) = 1.
Proof.
  cbv zeta. repeat split; vm_compute; reflexivity.
Qed.

(** ** Further properties of the alert engine *)

Section AlertEngine.

Implicit Types (this : AlertSystem.t) (v : Violation.t) (env : AlertSystem.Env).

(** X1.  An alert that [processViolation] creates comes from the critical
    strategy when the violation is CRITICAL, otherwise from the consecutive
    strategy when the streak flag is set, otherwise from the simple one; the
    pattern strategy is never chosen.  The alert is escalated exactly when
    the violation is CRITICAL or part of a streak, and requires an immediate
    response exactly when it is CRITICAL. *)
Theorem created_alert_follows_strategy this env v :
  AlertSystem.shouldSuppressAlert (AlertSystem.now_suppress env) v this = false ->
  exists alert strategy,
    (run (AlertSystem.processViolation env (Some v)) this).1.1
    = Return (AlertSystem.Created alert strategy) /\
    strategy
    = (if decide (Violation.severity v = CRITICAL) then "critical"
       else if Violation.isConsecutive v then "consecutive" else "simple") /\
    strategy <> "pattern" /\
    AlertData.patternDetected (Alert.alertData alert) = None /\
    (AlertData.escalated (Alert.alertData alert) = Some true <->
     Violation.severity v = CRITICAL \/ Violation.isConsecutive v = true) /\
    (AlertData.requiresImmediate (Alert.alertData alert) = Some true <->
     Violation.severity v = CRITICAL) /\
    AlertData.priority (Alert.alertData alert)
    = (if decide (Violation.severity v = CRITICAL) then AlertData.CRITICAL
       else if Violation.isConsecutive v then AlertData.HIGH else AlertData.NORMAL).
Proof.
  intros Hfree.
  pose proof (processViolation_run env v this) as Hrun. cbv zeta in Hrun.
  rewrite Hfree in Hrun. eexists _, _. rewrite Hrun. cbn [fst].
  split; [reflexivity|].
  unfold AlertSystem.determineStrategy.
  destruct (decide (Violation.severity v = CRITICAL)) as [Hc|Hc];
    [|destruct (Violation.isConsecutive v) eqn:Hs]; cbn;
    repeat split; try discriminate; try tauto; intros; auto.
  - destruct H as [H|H]; [contradiction|discriminate].
Qed.

Lemma created_alert_follows_strategy_witness :
  exists alert,
    (run (AlertSystem.processViolation (Sample.alertEnv 0)
            (Some (Sample.violation "VEH005" 70 MEDIUM 3)))
         (AlertSystem.constructor true [])).1.1
    = Return (AlertSystem.Created alert "consecutive").
Proof.
  destruct (created_alert_follows_strategy (AlertSystem.constructor true [])
              (Sample.alertEnv 0) (Sample.violation "VEH005" 70 MEDIUM 3))
    as (alert & strategy & Hrun & Hname & _).
  - reflexivity.
  - exists alert. rewrite Hrun, Hname. reflexivity.
Defined.

(** X2.  In an engine that keeps at least one alert, an alert that
    [processViolation] creates carries the violation's data with status
    ACTIVE, becomes the newest entry of the history, is what [getAlerts]
    returns first for its vehicle, and is the one the vehicle's active entry
    points to, stamped with the time of storing. *)
Theorem created_alert_is_stored this env v :
  AlertSystem.shouldSuppressAlert (AlertSystem.now_suppress env) v this = false ->
  0 < AlertSystem.maxHistorySize this ->
  Violation.vehicleId v <> EmptyString ->
  let outcome := run (AlertSystem.processViolation env (Some v)) this in
  let this' := outcome.1.2 in
  exists alert strategy,
    outcome.1.1 = Return (AlertSystem.Created alert strategy) /\
    Alert.status alert = ACTIVE /\
    Alert.vehicleId alert = Violation.vehicleId v /\
    Alert.severity alert = Violation.severity v /\
    Alert.speed alert = Violation.speed v /\
    Alert.exceedPercentage alert = Violation.exceedPercentage v /\
    Alert.consecutiveCount alert = Violation.consecutiveCount v /\
    Alert.id alert = (AlertSystem.now_alertId env, Violation.vehicleId v) /\
    head (AlertSystem.alertHistory this') = Some alert /\
    head (AlertSystem.getAlerts
            (AlertSystem.mkCriteria (Some (Violation.vehicleId v)) None None None None)
            this') = Some alert /\
    AlertSystem.activeAlerts this' !! Violation.vehicleId v
    = Some {| ActiveAlert.lastAlert := AlertSystem.now_lastAlert env;
              ActiveAlert.alertId := Alert.id alert;
              ActiveAlert.severity := Violation.severity v |}.
Proof.
  intros Hfree Hmax Hid outcome this'.
  pose proof (processViolation_run env v this) as Hrun. cbv zeta in Hrun.
  rewrite Hfree in Hrun. fold outcome in Hrun.
  set (alert := AlertSystem.createAlert _ _ v _) in Hrun.
  assert (Hthis' : this' = AlertSystem.storeAlert (AlertSystem.now_lastAlert env) alert this)
    by (subst this'; now rewrite Hrun).
  assert (Hhist : exists rest, AlertSystem.alertHistory this' = alert :: rest).
  { rewrite Hthis'. cbn [AlertSystem.storeAlert AlertSystem.alertHistory].
    destruct (AlertSystem.maxHistorySize this <? _) eqn:E; [|eauto].
    destruct (AlertSystem.alertHistory this) as [|a l] eqn:Hl.
    - apply Nat.ltb_lt in E. cbn in E. lia.
    - cbn [removelast]. eauto. }
  destruct Hhist as [rest Hhist].
  exists alert, (AlertSystem.name (AlertSystem.determineStrategy v)).
  rewrite Hrun. cbn [fst]. split; [reflexivity|].
  repeat split.
  - now rewrite Hhist.
  - unfold AlertSystem.getAlerts. cbn [AlertSystem.by_vehicleId AlertSystem.by_severity
      AlertSystem.startDate AlertSystem.endDate AlertSystem.limit].
    apply String.eqb_neq in Hid. rewrite Hid. cbn [negb]. rewrite Hhist.
    now rewrite filter_cons_True by reflexivity.
  - rewrite Hthis'. apply (storeAlert_active _ alert).
Qed.

Lemma created_alert_is_stored_witness :
  exists alert,
    head (AlertSystem.alertHistory
            (run (AlertSystem.processViolation (Sample.alertEnv 0)
                    (Some (Sample.violation "VEH005" 95 CRITICAL 1)))
                 (AlertSystem.constructor true [])).1.2) = Some alert /\
    Alert.status alert = ACTIVE.
Proof.
  destruct (created_alert_is_stored (AlertSystem.constructor true []) (Sample.alertEnv 0)
              (Sample.violation "VEH005" 95 CRITICAL 1))
    as (alert & strategy & _ & Hstatus & _ & _ & _ & _ & _ & _ & Hhead & _).
  - reflexivity.
  - cbn. lia.
  - discriminate.
  - exists alert. split; [exact Hhead | exact Hstatus].
Defined.

(** X3.  Suppression is kept per vehicle: whatever [processViolation] does
    with a violation of one vehicle, the active entry of every other vehicle
    and the suppression decision for it stay what they were. *)
Theorem suppression_is_per_vehicle this env violation (other : Violation.t) now :
  (forall v, violation = Some v -> Violation.vehicleId v <> Violation.vehicleId other) ->
  let this' := (run (AlertSystem.processViolation env violation) this).1.2 in
  AlertSystem.activeAlerts this' !! Violation.vehicleId other
  = AlertSystem.activeAlerts this !! Violation.vehicleId other /\
  AlertSystem.shouldSuppressAlert now other this'
  = AlertSystem.shouldSuppressAlert now other this.
Proof.
  intros Hother this'.
  assert (H : AlertSystem.activeAlerts this' !! Violation.vehicleId other
              = AlertSystem.activeAlerts this !! Violation.vehicleId other /\
              AlertSystem.suppressionWindow this' = AlertSystem.suppressionWindow this).
  { subst this'. destruct violation as [v|]; [|split; reflexivity].
    pose proof (processViolation_run env v this) as Hrun. cbv zeta in Hrun.
    destruct (AlertSystem.shouldSuppressAlert _ v this).
    - rewrite Hrun. split; reflexivity.
    - rewrite Hrun. cbn. split; [|reflexivity].
      apply lookup_insert_ne. now apply Hother. }
  destruct H as [Hentry Hwindow]. split; [exact Hentry|].
  unfold AlertSystem.shouldSuppressAlert. now rewrite Hentry, Hwindow.
Qed.

Lemma suppression_is_per_vehicle_witness :
  AlertSystem.shouldSuppressAlert 1 (Sample.violation "VEH009" 95 CRITICAL 1)
    (run (AlertSystem.processViolation (Sample.alertEnv 0)
            (Some (Sample.violation "VEH005" 61 LOW 1)))
         (AlertSystem.constructor true [])).1.2
  = false.
Proof.
  destruct (suppression_is_per_vehicle (AlertSystem.constructor true []) (Sample.alertEnv 0)
              (Some (Sample.violation "VEH005" 61 LOW 1))
              (Sample.violation "VEH009" 95 CRITICAL 1) 1) as [_ H].
  - intros v [= <-]. discriminate.
  - rewrite H. reflexivity.
Defined.


(** X5.  [cleanupOldAlerts] keeps, in their order, exactly the alerts created
    after the cut-off, and returns the number it dropped; it does not touch
    the active entries, so the suppression decisions are unchanged; and a
    second clean-up at the same instant drops nothing. *)
Theorem cleanupOldAlerts_keeps_recent now maxAge this (other : Violation.t) at_ :
  let result := AlertSystem.cleanupOldAlerts now maxAge this in
  let kept := AlertSystem.alertHistory result.2 in
  (forall alert,
     alert ∈ kept <->
     alert ∈ AlertSystem.alertHistory this /\ (now - maxAge < Alert.createdAt alert)%Z) /\
  kept `sublist_of` AlertSystem.alertHistory this /\
  result.1 + length kept = length (AlertSystem.alertHistory this) /\
  AlertSystem.activeAlerts result.2 = AlertSystem.activeAlerts this /\
  AlertSystem.shouldSuppressAlert at_ other result.2
  = AlertSystem.shouldSuppressAlert at_ other this /\
  AlertSystem.cleanupOldAlerts now maxAge result.2 = (0, result.2).
Proof.
  intros result kept. subst result kept. cbn [AlertSystem.cleanupOldAlerts fst snd
    AlertSystem.alertHistory AlertSystem.activeAlerts].
  set (recent := fun alert => (now - maxAge < Alert.createdAt alert)%Z).
  set (history := AlertSystem.alertHistory this).
  pose proof (length_filter recent history) as Hlen.
  split; [|split; [|split; [|split; [|split]]]].
  - intros alert. rewrite list_elem_of_filter. subst recent. cbn. tauto.
  - apply sublist_filter.
  - lia.
  - reflexivity.
  - reflexivity.
  - unfold AlertSystem.cleanupOldAlerts. cbn [AlertSystem.alertHistory].
    fold recent history.
    assert (Hidem : filter recent (filter recent history) = filter recent history).
    { clear Hlen. induction history as [|a l IH]; [reflexivity|].
      destruct (decide (recent a)) as [Ha|Ha].
      - rewrite (filter_cons_True recent a l Ha), (filter_cons_True recent a _ Ha).
        now rewrite IH.
      - now rewrite (filter_cons_False recent a l Ha). }
    rewrite Hidem, Nat.sub_diag. reflexivity.
Qed.

End AlertEngine.

Section AlertQueries.

Implicit Types (this : AlertSystem.t) (criteria : AlertSystem.Criteria).

Lemma date_criterion (c : option AlertSystem.DateCriterion) (P : Z -> Alert.t -> Prop)
    `{!forall time a, Decision (P time a)} (l : list Alert.t) (alert : Alert.t) :
  alert ∈ match c with
          | Some c =>
              if AlertSystem.given c
              then match AlertSystem.timeValue c with
                   | Some time => filter (P time) l
                   | None => []
                   end
              else l
          | None => l
          end <->
  alert ∈ l /\
  (forall c', c = Some c' -> AlertSystem.given c' = true ->
              exists time, AlertSystem.timeValue c' = Some time /\ P time alert).
Proof.
  destruct c as [c|].
  - destruct (AlertSystem.given c) eqn:Hg.
    + destruct (AlertSystem.timeValue c) as [time|] eqn:Ht.
      * rewrite list_elem_of_filter. split.
        -- intros [HPt Hin]. split; [exact Hin|]. intros c' [= <-] _. eauto.
        -- intros [Hin Hall]. destruct (Hall c eq_refl Hg) as (t & Heq & HPt).
           rewrite Ht in Heq. injection Heq as <-. auto.
      * rewrite elem_of_nil. split; [contradiction|].
        intros [_ Hall]. destruct (Hall c eq_refl Hg) as (t & Heq & _).
        rewrite Ht in Heq. discriminate.
    + split; [intros Hin; split; [exact Hin|]; intros c' [= <-]; congruence|tauto].
  - split; [intros Hin; split; [exact Hin|]; intros c' [=]|tauto].
Qed.

Lemma getAlerts_unlimited criteria this (alert : Alert.t) :
  alert ∈ AlertSystem.getAlerts (Observe.unlimited criteria) this <->
  alert ∈ AlertSystem.alertHistory this /\ Observe.matches criteria alert.
Proof.
  destruct criteria as [vehicleId severity startDate endDate limit].
  unfold AlertSystem.getAlerts, Observe.unlimited, Observe.matches. cbn.
  rewrite (date_criterion endDate (fun time a => (Alert.createdAt a <= time)%Z)).
  rewrite (date_criterion startDate (fun time a => (time <= Alert.createdAt a)%Z)).
  assert (Hseverity : forall l : list Alert.t,
             alert ∈ match severity with
                     | Some severity => filter (fun a => Alert.severity a = severity) l
                     | None => l
                     end <->
             alert ∈ l /\
             (forall severity', severity = Some severity' ->
                                Alert.severity alert = severity')).
  { intros l. destruct severity as [severity|].
    - rewrite list_elem_of_filter. split.
      + intros [Hs Hin]. split; [exact Hin|]. now intros ? [= <-].
      + intros [Hin H]. split; [now apply H|exact Hin].
    - split; [intros Hin; split; [exact Hin|]; intros ? [=]|tauto]. }
  rewrite Hseverity.
  assert (Hvehicle :
            alert ∈ match vehicleId with
                    | Some vehicleId =>
                        if negb (String.eqb vehicleId EmptyString)
                        then filter (fun a => Alert.vehicleId a = vehicleId)
                               (AlertSystem.alertHistory this)
                        else AlertSystem.alertHistory this
                    | None => AlertSystem.alertHistory this
                    end <->
            alert ∈ AlertSystem.alertHistory this /\
            (forall vehicleId', vehicleId = Some vehicleId' ->
                                vehicleId' <> EmptyString ->
                                Alert.vehicleId alert = vehicleId')).
  { destruct vehicleId as [vehicleId|].
    - destruct (String.eqb_spec vehicleId EmptyString) as [->|Hne]; cbn [negb].
      + split; [intros Hin; split; [exact Hin|]; intros ? [= <-] H; now destruct H|tauto].
      + rewrite list_elem_of_filter. split.
        * intros [Hv Hin]. split; [exact Hin|]. now intros ? [= <-] _.
        * intros [Hin H]. split; [now apply H|exact Hin].
    - split; [intros Hin; split; [exact Hin|]; intros ? [=]|tauto]. }
  rewrite Hvehicle. tauto.
Qed.

Lemma getAlerts_unlimited_sublist criteria this :
  AlertSystem.getAlerts (Observe.unlimited criteria) this
  `sublist_of` AlertSystem.alertHistory this.
Proof.
  destruct criteria as [vehicleId severity startDate endDate limit].
  unfold AlertSystem.getAlerts, Observe.unlimited. cbn.
  repeat match goal with
         | |- context [match ?o with Some _ => _ | None => _ end] => destruct o
         | |- context [if ?b then _ else _] => destruct b
         end;
    repeat first [reflexivity | apply sublist_nil_l | (etrans; [apply sublist_filter|])].
Qed.

Lemma getAlerts_limit criteria this :
  AlertSystem.getAlerts criteria this
  = match AlertSystem.limit criteria with
    | Some limit =>
        if (limit =? 0)%Z then AlertSystem.getAlerts (Observe.unlimited criteria) this
        else AlertSystem.slice_to limit
               (AlertSystem.getAlerts (Observe.unlimited criteria) this)
    | None => AlertSystem.getAlerts (Observe.unlimited criteria) this
    end.
Proof. destruct criteria as [vehicleId severity startDate endDate [limit|]]; reflexivity. Qed.

(** X6.  [getAlerts] returns alerts of the history, newest first as the
    history has them, and only alerts that meet every criterion given; a
    criterion that is falsy (an empty id, a date of 0) is not given, and
    against a date that is invalid no alert is returned.  Without a limit,
    and also with a limit of 0, it returns all of them; with a positive
    limit n the first n of them; with a negative limit all but the
    last -n. *)
Theorem getAlerts_returns_the_matching_alerts criteria this :
  let result := AlertSystem.getAlerts criteria this in
  let every := AlertSystem.getAlerts (Observe.unlimited criteria) this in
  result `sublist_of` AlertSystem.alertHistory this /\
  (forall alert, alert ∈ result -> Observe.matches criteria alert) /\
  (forall alert,
     alert ∈ every <->
     alert ∈ AlertSystem.alertHistory this /\ Observe.matches criteria alert) /\
  (AlertSystem.limit criteria = None \/ AlertSystem.limit criteria = Some 0%Z ->
   result = every) /\
  (forall n, AlertSystem.limit criteria = Some n -> (0 < n)%Z ->
             result = take (Z.to_nat n) every /\ length result <= Z.to_nat n) /\
  (forall n, AlertSystem.limit criteria = Some n -> (n < 0)%Z ->
             result = take (length every - Z.to_nat (- n)) every).
Proof.
  intros result every.
  pose proof (getAlerts_limit criteria this) as Hlimit. fold result every in Hlimit.
  pose proof (getAlerts_unlimited_sublist criteria this) as Hsub. fold every in Hsub.
  assert (Hresult : result `sublist_of` every).
  { rewrite Hlimit. destruct (AlertSystem.limit criteria) as [n|]; [|reflexivity].
    destruct (n =? 0)%Z; [reflexivity|].
    unfold AlertSystem.slice_to. destruct (n <? 0)%Z; apply sublist_take. }
  split; [etrans; eassumption|].
  split.
  { intros alert Hin. apply (sublist_subseteq _ _ Hresult) in Hin.
    now apply getAlerts_unlimited in Hin. }
  split; [intros alert; apply getAlerts_unlimited|].
  split.
  { intros [H|H]; rewrite Hlimit, H; reflexivity. }
  split.
  - intros n Hn Hpos. rewrite Hlimit, Hn.
    destruct (Z.eqb_spec n 0); [lia|].
    unfold AlertSystem.slice_to. destruct (Z.ltb_spec n 0); [lia|].
    split; [reflexivity|]. rewrite length_take. lia.
  - intros n Hn Hneg. rewrite Hlimit, Hn.
    destruct (Z.eqb_spec n 0); [lia|].
    unfold AlertSystem.slice_to. destruct (Z.ltb_spec n 0); [|lia].
    f_equal. lia.
Qed.

Lemma getAlerts_returns_the_matching_alerts_witness :
  let this :=
    (run (AlertSystem.processViolation (Sample.alertEnv 0)
            (Some (Sample.violation "VEH005" 95 CRITICAL 1)))
         (AlertSystem.constructor true [])).1.2 in
  AlertSystem.getAlerts
    (AlertSystem.mkCriteria None (Some CRITICAL) None
       (Some (AlertSystem.Millis (JS.Fin 0))) (Some 0%Z)) this
  = AlertSystem.alertHistory this.
Proof.
  intros this.
  destruct (getAlerts_returns_the_matching_alerts
              (AlertSystem.mkCriteria None (Some CRITICAL) None
                 (Some (AlertSystem.Millis (JS.Fin 0))) (Some 0%Z)) this)
    as (_ & _ & _ & Hall & _).
  rewrite Hall; [reflexivity|]. right. reflexivity.
Defined.

(** The own property that [tally] leaves under a key, from the number of
    times the key was tallied before. *)
Lemma tally_tallied (k k' : string) (n : nat) (counts : gmap string AlertSystem.Tally) :
  counts !! k = Observe.tallied k n ->
  AlertSystem.tally k' counts !! k
  = Observe.tallied k (if decide (k' = k) then S n else n).
Proof.
  intros Hk. unfold AlertSystem.tally.
  destruct (decide (k' = k)) as [->|Hne].
  - unfold Observe.tallied in *. cbn [Nat.eqb].
    destruct (String.eqb k "__proto__") eqn:Hproto.
    + rewrite Hk. now destruct (n =? 0).
    + destruct (n =? 0) eqn:Hn.
      * apply Nat.eqb_eq in Hn. subst n. rewrite Hk.
        destruct (JS.inherited k); now rewrite lookup_insert_eq.
      * rewrite Hk.
        destruct (JS.inherited k); now rewrite lookup_insert_eq.
  - destruct (String.eqb k' "__proto__"); [exact Hk|].
    destruct (counts !! k') as [[m|ones]|]; [| |destruct (JS.inherited k')];
      now rewrite lookup_insert_ne.
Qed.

(** The own properties that [tally] builds over a list of keys. *)
Lemma tally_counts {A} (key : A -> string) (l : list A) (k : string) :
  forall (counts : gmap string AlertSystem.Tally) (n : nat),
    counts !! k = Observe.tallied k n ->
    foldl (fun m a => AlertSystem.tally (key a) m) counts l !! k
    = Observe.tallied k (n + length (filter (fun a => key a = k) l)).
Proof.
  induction l as [|a l IH]; intros counts n Hk.
  - cbn. now rewrite Nat.add_0_r.
  - cbn [foldl]. rewrite (IH _ _ (tally_tallied k (key a) n counts Hk)).
    destruct (decide (key a = k)) as [Heq|Hne].
    + rewrite (filter_cons_True _ a l) by exact Heq. cbn [length].
      f_equal. rewrite Nat.add_succ_r. reflexivity.
    + now rewrite (filter_cons_False _ a l) by exact Hne.
Qed.

Lemma getAlertStats_fold now this :
  let recentTime := (now - 3600000)%Z in
  forall (l : list Alert.t) (stats : AlertSystem.AlertStats),
    let result :=
      foldl
        (fun stats alert =>
           {| AlertSystem.total := AlertSystem.total stats;
              AlertSystem.active := AlertSystem.active stats;
              AlertSystem.bySeverity :=
                AlertSystem.tally (AlertSystem.severityName (Alert.severity alert))
                  (AlertSystem.bySeverity stats);
              AlertSystem.byVehicle :=
                AlertSystem.tally (Alert.vehicleId alert) (AlertSystem.byVehicle stats);
              AlertSystem.recentCount :=
                if (recentTime <? Alert.createdAt alert)%Z
                then S (AlertSystem.recentCount stats)
                else AlertSystem.recentCount stats |}) stats l in
    AlertSystem.total result = AlertSystem.total stats /\
    AlertSystem.active result = AlertSystem.active stats /\
    AlertSystem.bySeverity result
    = foldl (fun m a => AlertSystem.tally (AlertSystem.severityName (Alert.severity a)) m)
        (AlertSystem.bySeverity stats) l /\
    AlertSystem.byVehicle result
    = foldl (fun m a => AlertSystem.tally (Alert.vehicleId a) m)
        (AlertSystem.byVehicle stats) l /\
    AlertSystem.recentCount result
    = AlertSystem.recentCount stats
      + length (filter (fun a => (recentTime < Alert.createdAt a)%Z) l).
Proof.
  intros recentTime l. induction l as [|a l IH]; intros stats result.
  - cbn. repeat split. lia.
  - subst result. cbn [foldl].
    destruct (IH {| AlertSystem.total := AlertSystem.total stats;
                    AlertSystem.active := AlertSystem.active stats;
                    AlertSystem.bySeverity :=
                      AlertSystem.tally (AlertSystem.severityName (Alert.severity a))
                        (AlertSystem.bySeverity stats);
                    AlertSystem.byVehicle :=
                      AlertSystem.tally (Alert.vehicleId a) (AlertSystem.byVehicle stats);
                    AlertSystem.recentCount :=
                      if (recentTime <? Alert.createdAt a)%Z
                      then S (AlertSystem.recentCount stats)
                      else AlertSystem.recentCount stats |})
      as (Ht & Ha & Hs & Hv & Hr).
    cbn [AlertSystem.total AlertSystem.active AlertSystem.bySeverity
         AlertSystem.byVehicle AlertSystem.recentCount] in *.
    rewrite Ht, Ha, Hs, Hv, Hr. repeat split.
    destruct (Z.ltb_spec recentTime (Alert.createdAt a)).
    + rewrite (filter_cons_True _ a l) by assumption. cbn. lia.
    + rewrite (filter_cons_False _ a l) by lia. lia.
Qed.

(** X7.  In the statistics that [getAlertStats] returns, the total is the
    length of the history; a severity has an entry exactly when the history
    holds an alert of it, and the entry is the number of such alerts; so has
    a vehicle, unless its id names a property of [Object.prototype]: under
    such an id the entry is a text and no count, except that [__proto__]
    gets no entry at all; the recent count is the number of alerts created
    within the last hour, at most the total; [active] is the number of
    vehicles with an active entry. *)
Theorem getAlertStats_counts now this (severity : Severity) (vehicleId : string) :
  let stats := AlertSystem.getAlertStats now this in
  let history := AlertSystem.alertHistory this in
  let ofSeverity := filter (fun alert => Alert.severity alert = severity) history in
  let ofVehicle := filter (fun alert => Alert.vehicleId alert = vehicleId) history in
  AlertSystem.total stats = length history /\
  AlertSystem.active stats = size (AlertSystem.activeAlerts this) /\
  AlertSystem.bySeverity stats !! AlertSystem.severityName severity
  = (if decide (ofSeverity = []) then None
     else Some (AlertSystem.Count (length ofSeverity))) /\
  AlertSystem.byVehicle stats !! vehicleId
  = (if decide (ofVehicle = []) then None
     else if decide (vehicleId = "__proto__") then None
     else if JS.inherited vehicleId
          then Some (AlertSystem.InheritedText (length ofVehicle))
          else Some (AlertSystem.Count (length ofVehicle))) /\
  AlertSystem.recentCount stats
  = length (filter (fun alert => (now - 3600000 < Alert.createdAt alert)%Z) history) /\
  AlertSystem.recentCount stats <= AlertSystem.total stats.
Proof.
  intros stats history ofSeverity ofVehicle.
  destruct (getAlertStats_fold now this history
              {| AlertSystem.total := length history;
                 AlertSystem.active := size (AlertSystem.activeAlerts this);
                 AlertSystem.bySeverity := ∅;
                 AlertSystem.byVehicle := ∅;
                 AlertSystem.recentCount := 0 |}) as (Ht & Ha & Hs & Hv & Hr).
  cbn [AlertSystem.total AlertSystem.active AlertSystem.bySeverity AlertSystem.byVehicle
       AlertSystem.recentCount Nat.add] in Ht, Ha, Hs, Hv, Hr.
  subst stats. unfold AlertSystem.getAlertStats. cbv zeta. fold history.
  assert (Hkey : forall {A} (key : A -> string) (l : list A) (k : string),
             foldl (fun m a => AlertSystem.tally (key a) m)
               (∅ : gmap string AlertSystem.Tally) l !! k
             = Observe.tallied k (length (filter (fun a => key a = k) l))).
  { intros A key l k. apply (tally_counts key l k ∅ 0). now rewrite lookup_empty. }
  assert (Hnil : forall {A} (l : list A), (length l =? 0) = bool_decide (l = [])).
  { intros A l. destruct l; reflexivity. }
  split; [exact Ht|]. split; [exact Ha|]. split; [|split; [|split]].
  - rewrite Hs.
    rewrite (Hkey _ (fun a => AlertSystem.severityName (Alert.severity a)) history).
    assert (Hsame : filter (fun a => AlertSystem.severityName (Alert.severity a)
                                     = AlertSystem.severityName severity) history
                    = ofSeverity).
    { subst ofSeverity. clear. induction history as [|a l IH]; [reflexivity|].
      destruct (decide (Alert.severity a = severity)) as [Heq|Hne].
      - rewrite (filter_cons_True _ a l) by now rewrite Heq.
        rewrite (filter_cons_True _ a l) by exact Heq. now rewrite IH.
      - rewrite (filter_cons_False _ a l)
          by (intros H; apply Hne; destruct (Alert.severity a), severity;
              first [reflexivity | discriminate H]).
        now rewrite (filter_cons_False _ a l) by exact Hne. }
    rewrite Hsame. unfold Observe.tallied. rewrite Hnil.
    destruct (decide (ofSeverity = [])) as [Hempty|Hsome].
    + now rewrite bool_decide_eq_true_2.
    + rewrite bool_decide_eq_false_2 by exact Hsome. now destruct severity.
  - rewrite Hv, (Hkey _ Alert.vehicleId). fold ofVehicle.
    unfold Observe.tallied. rewrite Hnil.
    destruct (decide (ofVehicle = [])) as [Hempty|Hsome].
    + now rewrite bool_decide_eq_true_2.
    + rewrite bool_decide_eq_false_2 by exact Hsome.
      destruct (String.eqb_spec vehicleId "__proto__") as [Hproto|Hproto];
        destruct (decide (vehicleId = "__proto__")); try contradiction; reflexivity.
  - rewrite Hr. reflexivity.
  - rewrite Hr, Ht. cbn. apply length_filter.
Qed.

Lemma getAlertStats_counts_witness :
  let this :=
    (run (AlertSystem.processViolation (Sample.alertEnv 0)
            (Some (Sample.violation "constructor" 95 CRITICAL 1)))
         (AlertSystem.constructor true [])).1.2 in
  AlertSystem.byVehicle (AlertSystem.getAlertStats 0 this) !! "constructor"
  = Some (AlertSystem.InheritedText 1).
Proof.
  intros this.
  destruct (getAlertStats_counts 0 this CRITICAL "constructor") as (_ & _ & _ & Hv & _).
  rewrite Hv. reflexivity.
Defined.

End AlertQueries.

Section AlertInvariants.

Implicit Types (this : AlertSystem.t).

Lemma storeAlert_history_subseteq now alert this (a : Alert.t) :
  a ∈ AlertSystem.alertHistory (AlertSystem.storeAlert now alert this) ->
  a = alert \/ a ∈ AlertSystem.alertHistory this.
Proof.
  cbn [AlertSystem.storeAlert AlertSystem.alertHistory].
  destruct (_ <? _).
  - rewrite removelast_firstn_len. intros Hin.
    apply (sublist_subseteq _ _ (sublist_take _ _)) in Hin.
    now apply elem_of_cons in Hin.
  - intros Hin. now apply elem_of_cons in Hin.
Qed.

(** What every call keeps true of the engine. *)
Lemma engine_call1 (c : Observe.Call) this :
  let sound s :=
    (forall alert, alert ∈ AlertSystem.alertHistory s ->
       Alert.status alert = ACTIVE /\ Alert.type alert = "SPEED_VIOLATION" /\
       is_Some (AlertSystem.activeAlerts s !! Alert.vehicleId alert)) /\
    (forall vehicleId entry, AlertSystem.activeAlerts s !! vehicleId = Some entry ->
       (ActiveAlert.alertId entry).2 = vehicleId) in
  sound this ->
  sound (Observe.call1 c this) /\
  (forall vehicleId, is_Some (AlertSystem.activeAlerts this !! vehicleId) ->
     is_Some (AlertSystem.activeAlerts (Observe.call1 c this) !! vehicleId)).
Proof.
  intros sound [Hhist Hkeys]. subst sound. cbn beta.
  destruct c as [env [v|]|now maxAge]; cbn [Observe.call1].
  - pose proof (processViolation_run env v this) as H. cbv zeta in H.
    destruct (AlertSystem.shouldSuppressAlert (AlertSystem.now_suppress env) v this).
    + rewrite H. cbn [fst snd]. auto.
    + rewrite H. cbn [fst snd]. set (alert := AlertSystem.createAlert _ _ v _).
      split; [split|].
      * intros a Hin. apply storeAlert_history_subseteq in Hin as [->|Hin].
        -- split; [reflexivity|]. split; [reflexivity|].
           cbn [AlertSystem.storeAlert AlertSystem.activeAlerts].
           apply lookup_insert_is_Some. now left.
        -- destruct (Hhist a Hin) as (Hstatus & Htype & Hactive).
           split; [exact Hstatus|]. split; [exact Htype|].
           cbn [AlertSystem.storeAlert AlertSystem.activeAlerts].
           apply lookup_insert_is_Some.
           destruct (decide (Alert.vehicleId alert = Alert.vehicleId a));
             [now left|now right].
      * intros vehicleId entry. cbn [AlertSystem.storeAlert AlertSystem.activeAlerts].
        rewrite lookup_insert. destruct (decide _) as [<-|_].
        -- intros [= <-]. reflexivity.
        -- apply Hkeys.
      * intros vehicleId Hsome. cbn [AlertSystem.storeAlert AlertSystem.activeAlerts].
        apply lookup_insert_is_Some.
        destruct (decide (Alert.vehicleId alert = vehicleId)); [now left|now right].
  - cbn. auto.
  - cbn. split; [split|].
    + intros a Hin. apply list_elem_of_filter in Hin as [_ Hin]. now apply Hhist.
    + exact Hkeys.
    + auto.
Qed.

(** X8.  In an engine reached from a fresh one by any sequence of
    [processViolation] calls and clean-ups: every alert of the history is
    ACTIVE, of type SPEED_VIOLATION, and its vehicle has an active entry;
    an active entry is filed under the vehicle that its alert id names; and
    no call ever removes an active entry, not even a clean-up that drops
    the alerts of the vehicle. *)
Theorem engine_keeps_active_entries mqttClient handlers (cs more : list Observe.Call) :
  let this := Observe.calls cs (AlertSystem.constructor mqttClient handlers) in
  let later := Observe.calls more this in
  (forall alert, alert ∈ AlertSystem.alertHistory this ->
     Alert.status alert = ACTIVE /\ Alert.type alert = "SPEED_VIOLATION" /\
     is_Some (AlertSystem.activeAlerts this !! Alert.vehicleId alert)) /\
  (forall vehicleId entry, AlertSystem.activeAlerts this !! vehicleId = Some entry ->
     (ActiveAlert.alertId entry).2 = vehicleId) /\
  (forall vehicleId, is_Some (AlertSystem.activeAlerts this !! vehicleId) ->
     is_Some (AlertSystem.activeAlerts later !! vehicleId)) /\
  AlertSystem.active (AlertSystem.getAlertStats 0 this)
  <= AlertSystem.active (AlertSystem.getAlertStats 0 later).
Proof.
  intros this later.
  assert (Hall : forall cs s,
             ((forall alert, alert ∈ AlertSystem.alertHistory s ->
                 Alert.status alert = ACTIVE /\ Alert.type alert = "SPEED_VIOLATION" /\
                 is_Some (AlertSystem.activeAlerts s !! Alert.vehicleId alert)) /\
              (forall vehicleId entry, AlertSystem.activeAlerts s !! vehicleId = Some entry ->
                 (ActiveAlert.alertId entry).2 = vehicleId)) ->
             ((forall alert, alert ∈ AlertSystem.alertHistory (Observe.calls cs s) ->
                 Alert.status alert = ACTIVE /\ Alert.type alert = "SPEED_VIOLATION" /\
                 is_Some (AlertSystem.activeAlerts (Observe.calls cs s)
                            !! Alert.vehicleId alert)) /\
              (forall vehicleId entry,
                 AlertSystem.activeAlerts (Observe.calls cs s) !! vehicleId = Some entry ->
                 (ActiveAlert.alertId entry).2 = vehicleId)) /\
             (forall vehicleId, is_Some (AlertSystem.activeAlerts s !! vehicleId) ->
                is_Some (AlertSystem.activeAlerts (Observe.calls cs s) !! vehicleId))).
  { clear. induction cs as [|c cs IH]; intros s Hs; [split; [exact Hs|auto]|].
    destruct (engine_call1 c s Hs) as [Hs' Hmono].
    destruct (IH _ Hs') as [Hfinal Hmono'].
    split; [exact Hfinal|]. intros vehicleId H. apply Hmono', Hmono, H. }
  assert (Hinit : (forall alert,
                     alert ∈ AlertSystem.alertHistory
                               (AlertSystem.constructor mqttClient handlers) ->
                     Alert.status alert = ACTIVE /\ Alert.type alert = "SPEED_VIOLATION" /\
                     is_Some (AlertSystem.activeAlerts
                                (AlertSystem.constructor mqttClient handlers)
                                !! Alert.vehicleId alert)) /\
                  (forall vehicleId entry,
                     AlertSystem.activeAlerts (AlertSystem.constructor mqttClient handlers)
                       !! vehicleId = Some entry ->
                     (ActiveAlert.alertId entry).2 = vehicleId)).
  { split; [intros alert Hin; cbn in Hin; now apply elem_of_nil in Hin|].
    intros vehicleId entry. cbn. rewrite lookup_empty. discriminate. }
  destruct (Hall cs _ Hinit) as [[Hhist Hkeys] _]. fold this in Hhist, Hkeys.
  destruct (Hall more this (conj Hhist Hkeys)) as [_ Hmono]. fold later in Hmono.
  split; [exact Hhist|]. split; [exact Hkeys|]. split; [exact Hmono|].
  assert (Hactive : forall s,
             AlertSystem.active (AlertSystem.getAlertStats 0 s)
             = size (AlertSystem.activeAlerts s)).
  { intros s.
    destruct (getAlertStats_fold 0 s (AlertSystem.alertHistory s)
                {| AlertSystem.total := length (AlertSystem.alertHistory s);
                   AlertSystem.active := size (AlertSystem.activeAlerts s);
                   AlertSystem.bySeverity := ∅;
                   AlertSystem.byVehicle := ∅;
                   AlertSystem.recentCount := 0 |}) as (_ & Ha & _).
    exact Ha. }
  rewrite !Hactive.
  rewrite <- !(size_dom (D := gset string)). apply subseteq_size.
  intros vehicleId. rewrite !elem_of_dom. apply Hmono.
Qed.

End AlertInvariants.

(** ** Further properties of the speed processor *)

Section TrackerExtremes.

Implicit Types (this : SpeedProcessor.t) (r : SpeedData.t) (v : string).

Lemma updateAll_snoc rs r this :
  Observe.updateAll (rs ++ [r]) this
  = (SpeedProcessor.updateVehicleState r (Observe.updateAll rs this)).2.
Proof. unfold Observe.updateAll. now rewrite foldl_app. Qed.

Lemma readingsOf_snoc v rs r :
  Observe.readingsOf v (rs ++ [r])
  = Observe.readingsOf v rs ++ (if decide (SpeedData.vehicleId r = v) then [r] else []).
Proof.
  unfold Observe.readingsOf. rewrite filter_app. reflexivity.
Qed.

(** The maximum and the last-seen time of the snapshot, from those of the
    stored state. *)
Lemma updateVehicleState_extremes r this :
  let old := Observe.stateOf (SpeedData.vehicleId r) this in
  let new := (SpeedProcessor.updateVehicleState r this).1 in
  VehicleState.maxSpeed new = Qmax (VehicleState.maxSpeed old) (SpeedData.speed r) /\
  VehicleState.lastSeen new = SpeedData.timestamp r /\
  VehicleState.vehicleId new = VehicleState.vehicleId old.
Proof. repeat split; reflexivity. Qed.

(** X9.  After any sequence of readings, for a vehicle [v] that the tracker
    did not know before and that sent at least one of them: the maximum
    speed is at least every speed that [v] sent and is one of them, or 0 if
    none is above 0; and the last-seen time is the timestamp of the last
    reading of [v]. *)
Theorem maximum_and_last_seen this v (rs : list SpeedData.t) :
  SpeedProcessor.vehicleStates this !! v = None ->
  let mine := Observe.readingsOf v rs in
  mine <> [] ->
  exists st,
    SpeedProcessor.getVehicleState v (Observe.updateAll rs this) = Some st /\
    VehicleState.vehicleId st = v /\
    Forall (fun r => (SpeedData.speed r <= VehicleState.maxSpeed st)%Q) mine /\
    ((VehicleState.maxSpeed st == 0)%Q \/
     Exists (fun r => (VehicleState.maxSpeed st == SpeedData.speed r)%Q) mine) /\
    (0 <= VehicleState.maxSpeed st)%Q /\
    Some (VehicleState.lastSeen st) = last (map SpeedData.timestamp mine).
Proof.
  intros Hfresh mine Hne.
  assert (Hinv : forall rs,
             let st := Observe.stateOf v (Observe.updateAll rs this) in
             let mine := Observe.readingsOf v rs in
             VehicleState.vehicleId st = v /\
             Forall (fun r => (SpeedData.speed r <= VehicleState.maxSpeed st)%Q) mine /\
             ((VehicleState.maxSpeed st == 0)%Q \/
              Exists (fun r => (VehicleState.maxSpeed st == SpeedData.speed r)%Q) mine) /\
             (0 <= VehicleState.maxSpeed st)%Q /\
             (mine <> [] ->
              Some (VehicleState.lastSeen st) = last (map SpeedData.timestamp mine))).
  { clear rs mine Hne. induction rs as [|r rs IH] using rev_ind.
    - cbn. unfold Observe.stateOf. rewrite Hfresh. cbn.
      repeat split; try constructor; try reflexivity; try lra. now intros [].
    - cbv zeta in IH |- *. rewrite updateAll_snoc, readingsOf_snoc.
      destruct IH as (Hid & Hle & Hmax & Hpos & Hlast).
      destruct (decide (SpeedData.vehicleId r = v)) as [Hv|Hv].
      + subst v. rewrite stateOf_updated.
        destruct (updateVehicleState_extremes r (Observe.updateAll rs this))
          as (Hm & Hl & Hi).
        rewrite Hm, Hl, Hi. clear Hm Hl Hi.
        set (old := Observe.stateOf (SpeedData.vehicleId r) (Observe.updateAll rs this)) in *.
        pose proof (Q.max_spec (VehicleState.maxSpeed old) (SpeedData.speed r)) as Hspec.
        split; [exact Hid|]. split; [|split; [|split]].
        * apply Forall_app. split.
          -- eapply Forall_impl; [exact Hle|]. cbn. intros x Hx.
             destruct Hspec as [[? ->]|[? ->]]; lra.
          -- constructor; [|constructor]. destruct Hspec as [[? ->]|[? ->]]; lra.
        * destruct Hspec as [[Hlt Heq]|[Hge Heq]].
          -- right. apply Exists_app. right. constructor. exact Heq.
          -- destruct Hmax as [Hzero|Hex].
             ++ left. now rewrite Heq.
             ++ right. apply Exists_app. left.
                eapply Exists_impl; [exact Hex|]. cbn. intros x Hx. now rewrite Heq.
        * destruct Hspec as [[? ->]|[? ->]]; lra.
        * intros _. rewrite map_app. cbn [map]. now rewrite last_snoc.
      + rewrite stateOf_other by exact Hv. rewrite app_nil_r. tauto. }
  destruct (Hinv rs) as (Hid & Hle & Hmax & Hpos & Hlast). fold mine in Hle, Hmax, Hlast.
  pose proof (stored_after_updateAll v rs this Hne) as Hst.
  set (st := Observe.stateOf v (Observe.updateAll rs this)) in *.
  exists st. split; [exact Hst|]. split; [exact Hid|]. split; [exact Hle|].
  split; [exact Hmax|]. split; [exact Hpos|]. now apply Hlast.
Qed.

Lemma maximum_and_last_seen_witness :
  let rs := [Sample.reading "VEH003" 65; Sample.reading "VEH009" 40;
             Sample.reading "VEH003" (135 # 2); Sample.reading "VEH003" 70] in
  exists st,
    SpeedProcessor.getVehicleState "VEH003" (Observe.updateAll rs Sample.processor)
    = Some st /\
    (70 <= VehicleState.maxSpeed st)%Q.
Proof.
  intros rs.
  destruct (maximum_and_last_seen Sample.processor "VEH003" rs)
    as (st & Hst & _ & Hle & _).
  - reflexivity.
  - vm_compute. discriminate.
  - exists st. split; [exact Hst|].
    rewrite Forall_forall in Hle. apply (Hle (Sample.reading "VEH003" 70)).
    apply list_elem_of_lookup. exists 2. reflexivity.
Defined.

End TrackerExtremes.

Section TrackerInvariants.
Context {coercions : JS.Coercions}.

Implicit Types (this : SpeedProcessor.t) (r : SpeedData.t).

Lemma wellFormed_update r this :
  (VehicleState.vehicleId (Observe.stateOf (SpeedData.vehicleId r) this)
   = SpeedData.vehicleId r) ->
  (forall st, SpeedProcessor.vehicleStates this !! SpeedData.vehicleId r = Some st ->
              Observe.wellFormed (SpeedData.vehicleId r) st) ->
  Observe.wellFormed (SpeedData.vehicleId r) (SpeedProcessor.updateVehicleState r this).1.
Proof.
  intros Hid Hold.
  destruct (updateVehicleState_counters r this) as [Hc Ht].
  destruct (updateVehicleState_statistics r this) as (Hn & _ & Hh).
  destruct (updateVehicleState_extremes r this) as (_ & _ & Hi).
  cbv zeta in *.
  set (old := Observe.stateOf (SpeedData.vehicleId r) this) in *.
  set (new := (SpeedProcessor.updateVehicleState r this).1) in *.
  assert (Hinv : VehicleState.consecutiveViolations old <= VehicleState.totalViolations old /\
                 VehicleState.totalViolations old <= VehicleState.recordCount old /\
                 length (VehicleState.speedHistory old)
                 = min (VehicleState.recordCount old) 10).
  { subst old. unfold Observe.stateOf.
    destruct (SpeedProcessor.vehicleStates this !! SpeedData.vehicleId r) as [st|] eqn:E.
    - destruct (Hold st eq_refl) as (_ & H1 & H2 & _ & H3). cbn. auto.
    - cbn. auto. }
  destruct Hinv as (H1 & H2 & H3).
  unfold Observe.wellFormed. rewrite Hc, Ht, Hn, Hh, Hi.
  split; [exact Hid|].
  destruct (JS.Qgtb _ _); (split; [lia|]); (split; [lia|]); (split; [lia|]).
  all: rewrite length_app; cbn [length];
    destruct (10 <? length (VehicleState.speedHistory old) + 1) eqn:E;
    [apply Nat.ltb_lt in E | apply Nat.ltb_ge in E];
    rewrite ?tail_drop, ?length_drop, ?length_app; cbn [length]; lia.
Qed.

Lemma wellFormed_trackerOp1 (op : Observe.TrackerOp) this :
  (forall key st, SpeedProcessor.vehicleStates this !! key = Some st ->
                  Observe.wellFormed key st) ->
  forall key st,
    SpeedProcessor.vehicleStates (Observe.trackerOp1 op this) !! key = Some st ->
    Observe.wellFormed key st.
Proof.
  intros Hall key st. destruct op as [r|now detectedAt r snapshot|now maxAge| |newConfig];
    cbn [Observe.trackerOp1].
  - destruct (decide (SpeedData.vehicleId r = key)) as [<-|Hne].
    + rewrite updateVehicleState_stored. intros [= <-].
      apply wellFormed_update; [|apply Hall].
      unfold Observe.stateOf.
      destruct (SpeedProcessor.vehicleStates this !! SpeedData.vehicleId r) as [old|] eqn:E;
        [apply (Hall _ _ E)|reflexivity].
    + rewrite updateVehicleState_other by exact Hne. apply Hall.
  - unfold SpeedProcessor.checkSpeedViolation. destruct (Qle_bool _ _); apply Hall.
  - cbn. intros H. apply map_lookup_filter_Some in H as [H _]. now apply Hall.
  - apply Hall.
  - apply Hall.
Qed.

(** X10.  Every method of the processor keeps the stored vehicle states
    well formed.  If in a processor every stored state is filed under its
    own vehicle id, has seen at least one reading, has its consecutive
    counter at most its lifetime counter and that at most its sample count,
    and holds as many history entries as samples, up to ten, then the same
    is true after any sequence of state updates, classifications, eviction
    sweeps, statistics resets and reconfigurations.  A processor with no
    stored state is such a processor. *)
Theorem stored_states_are_well_formed (ops : list Observe.TrackerOp) this key st :
  (forall k s, SpeedProcessor.getVehicleState k this = Some s ->
     VehicleState.vehicleId s = k /\
     1 <= VehicleState.recordCount s /\
     VehicleState.consecutiveViolations s <= VehicleState.totalViolations s /\
     VehicleState.totalViolations s <= VehicleState.recordCount s /\
     length (VehicleState.speedHistory s) = min (VehicleState.recordCount s) 10) ->
  SpeedProcessor.getVehicleState key (Observe.trackerOps ops this) = Some st ->
  VehicleState.vehicleId st = key /\
  1 <= VehicleState.recordCount st /\
  VehicleState.consecutiveViolations st <= VehicleState.totalViolations st /\
  VehicleState.totalViolations st <= VehicleState.recordCount st /\
  length (VehicleState.speedHistory st) = min (VehicleState.recordCount st) 10.
Proof.
  intros Hthis Hst.
  assert (Hall : forall ops s,
             (forall key st, SpeedProcessor.vehicleStates s !! key = Some st ->
                             Observe.wellFormed key st) ->
             forall key st,
               SpeedProcessor.vehicleStates (Observe.trackerOps ops s) !! key = Some st ->
               Observe.wellFormed key st).
  { clear. induction ops as [|op ops IH]; intros s Hs; [exact Hs|].
    apply (IH (Observe.trackerOp1 op s)). now apply wellFormed_trackerOp1. }
  assert (Hinit : forall key st,
             SpeedProcessor.vehicleStates this !! key = Some st ->
             Observe.wellFormed key st).
  { intros k s Hs. destruct (Hthis k s Hs) as (H1 & H2 & H3 & H4 & H5).
    unfold Observe.wellFormed. auto. }
  destruct (Hall ops _ Hinit key st Hst) as (H1 & H2 & H3 & H4 & H5).
  auto.
Qed.

End TrackerInvariants.

Lemma stored_states_are_well_formed_witness :
  exists st,
    SpeedProcessor.getVehicleState "VEH003"
      (@Observe.trackerOps Sample.coercions
         [Observe.Update (Sample.reading "VEH003" 65);
          Observe.UpdateConfiguration (SpeedProcessor.mkNewConfig (Some 50%Q) None None);
          Observe.Update (Sample.reading "VEH003" 55)]
         Sample.processor) = Some st /\
    VehicleState.consecutiveViolations st <= VehicleState.totalViolations st.
Proof.
  eexists. split; [reflexivity|].
  eapply (@stored_states_are_well_formed Sample.coercions
            [Observe.Update (Sample.reading "VEH003" 65);
             Observe.UpdateConfiguration (SpeedProcessor.mkNewConfig (Some 50%Q) None None);
             Observe.Update (Sample.reading "VEH003" 55)] Sample.processor "VEH003").
  - intros k s Hs. unfold SpeedProcessor.getVehicleState in Hs. cbn in Hs.
    rewrite lookup_empty in Hs. discriminate.
  - reflexivity.
Defined.

Section Eviction.
Context {coercions : JS.Coercions}.

Implicit Types (this : SpeedProcessor.t) (r : SpeedData.t).

Lemma cleanupOldStates_sizes now maxAge this :
  (SpeedProcessor.cleanupOldStates now maxAge this).1
  + size (SpeedProcessor.vehicleStates (SpeedProcessor.cleanupOldStates now maxAge this).2)
  = size (SpeedProcessor.vehicleStates this).
Proof.
  cbn [SpeedProcessor.cleanupOldStates fst snd SpeedProcessor.set_vehicleStates
       SpeedProcessor.vehicleStates].
  set (m := SpeedProcessor.vehicleStates this).
  set (P := fun entry : string * VehicleState.t =>
              SpeedProcessor.expired (now - maxAge) entry = true).
  assert (Hkept : filter (fun entry => SpeedProcessor.expired (now - maxAge) entry = false) m
                  = filter (fun entry => ~ P entry) m).
  { apply map_filter_ext. intros i x _. subst P. cbn.
    destruct (SpeedProcessor.expired (now - maxAge) (i, x)); split; congruence. }
  rewrite Hkept, <- map_size_disj_union by apply map_disjoint_filter_complement.
  now rewrite map_filter_union_complement.
Qed.

(** X11.  The eviction sweep [cleanupOldStates] removes exactly the states
    whose last-seen value compares below the cut-off [now - maxAge], keeps
    the others as they are, and returns the number removed.  A state last
    seen at a date is removed exactly when the date is before the cut-off; a
    state whose last-seen value is a text that is not a number (as an ISO
    date text) is never removed.  A vehicle that was removed starts again
    from nothing at its next reading. *)
Theorem cleanupOldStates_evicts_the_stale now maxAge this key st r :
  SpeedProcessor.getVehicleState key this = Some st ->
  SpeedData.vehicleId r = key ->
  let result := SpeedProcessor.cleanupOldStates now maxAge this in
  let stale := SpeedProcessor.expired (now - maxAge) (key, st) in
  SpeedProcessor.getVehicleState key result.2 = (if stale then None else Some st) /\
  (forall other, SpeedProcessor.getVehicleState other this = None ->
                 SpeedProcessor.getVehicleState other result.2 = None) /\
  result.1 + size (SpeedProcessor.vehicleStates result.2)
  = size (SpeedProcessor.vehicleStates this) /\
  (forall ms, VehicleState.lastSeen st = JS.DateV ms ->
              (stale = true <-> (ms < now - maxAge)%Z)) /\
  (forall text, VehicleState.lastSeen st = JS.Str text ->
                JS.StringToNumber text = JS.NaN -> stale = false) /\
  (stale = true ->
   VehicleState.recordCount (SpeedProcessor.updateVehicleState r result.2).1 = 1 /\
   VehicleState.totalViolations (SpeedProcessor.updateVehicleState r result.2).1 <= 1) /\
  SpeedProcessor.speedLimit result.2 = SpeedProcessor.speedLimit this /\
  SpeedProcessor.processedCount result.2 = SpeedProcessor.processedCount this.
Proof.
  intros Hst Hr result stale. unfold SpeedProcessor.getVehicleState in *.
  assert (Hlookup : SpeedProcessor.vehicleStates result.2 !! key
                    = if stale then None else Some st).
  { subst result stale. cbn [SpeedProcessor.cleanupOldStates snd
      SpeedProcessor.set_vehicleStates SpeedProcessor.vehicleStates].
    destruct (SpeedProcessor.expired (now - maxAge) (key, st)) eqn:E.
    - apply map_lookup_filter_None. right. intros st' Hst'.
      rewrite Hst in Hst'. injection Hst' as <-. rewrite E. discriminate.
    - apply map_lookup_filter_Some. split; [exact Hst|exact E]. }
  split; [exact Hlookup|]. split; [|split; [|split; [|split; [|split]]]].
  - intros other Hnone. subst result. cbn. apply map_lookup_filter_None. now left.
  - apply cleanupOldStates_sizes.
  - intros ms Hms. subst stale. unfold SpeedProcessor.expired. cbn [snd].
    rewrite Hms. cbn [JS.toNumber JS.ltb]. unfold JS.Qltb.
    rewrite negb_true_iff, Qle_bool_false, <- Zlt_Qlt. reflexivity.
  - intros text Htext Hnan. subst stale. unfold SpeedProcessor.expired. cbn [snd].
    rewrite Htext. cbn [JS.toNumber]. rewrite Hnan. reflexivity.
  - intros Hstale. rewrite Hstale in Hlookup.
    destruct (updateVehicleState_statistics r result.2) as (Hn & _).
    destruct (updateVehicleState_counters r result.2) as (_ & Ht).
    cbv zeta in Hn, Ht. unfold Observe.stateOf in Hn, Ht.
    rewrite Hr, Hlookup in Hn, Ht.
    cbn [default SpeedProcessor.initialState VehicleState.recordCount
         VehicleState.totalViolations] in Hn, Ht.
    split; [exact Hn|]. rewrite Ht. destruct (JS.Qgtb _ _); lia.
  - split; reflexivity.
Qed.

End Eviction.

Lemma cleanupOldStates_evicts_the_stale_witness :
  let this :=
    (SpeedProcessor.updateVehicleState (Sample.readingOn 1000 "VEH003" 65)
       Sample.processor).2 in
  SpeedProcessor.getVehicleState "VEH003"
    (@SpeedProcessor.cleanupOldStates Sample.coercions 3700000 3600000 this).2 = None.
Proof.
  intros this.
  destruct (@cleanupOldStates_evicts_the_stale Sample.coercions 3700000 3600000 this
              "VEH003" (SpeedProcessor.updateVehicleState
                          (Sample.readingOn 1000 "VEH003" 65) Sample.processor).1
              (Sample.readingOn 1000 "VEH003" 65)) as (Hgone & _).
  - reflexivity.
  - reflexivity.
  - rewrite Hgone. reflexivity.
Defined.

Section Configuration.
Context {coercions : JS.Coercions}.

Implicit Types (this : SpeedProcessor.t).



End Configuration.


Section Accounting.

Implicit Types (this : SpeedProcessor.t) (d : SpeedData.t).

Lemma synchronous_unfold penv d this :
  let counted := SpeedProcessor.incr_processedCount this in
  let snapshot := (SpeedProcessor.updateVehicleState d counted).1 in
  let this2 := (SpeedProcessor.updateVehicleState d counted).2 in
  Observe.synchronous penv d this
  = (snapshot,
     (SpeedProcessor.checkSpeedViolation (SpeedProcessor.now_violationId penv)
        (SpeedProcessor.now_detectedAt penv) d snapshot this2).1,
     (SpeedProcessor.checkSpeedViolation (SpeedProcessor.now_violationId penv)
        (SpeedProcessor.now_detectedAt penv) d snapshot this2).2).
Proof.
  intros counted snapshot this2. unfold Observe.synchronous. fold counted.
  destruct (SpeedProcessor.updateVehicleState d counted) as [vs s2] eqn:E.
  subst snapshot this2. cbn [fst snd].
  now destruct (SpeedProcessor.checkSpeedViolation _ _ d vs s2).
Qed.

(** X13.  The synchronous part of [processSpeedData] counts the reading,
    stores the snapshot it returns, and agrees with itself on what a
    violation is: a reading above the limit (what the validators'
    [isSpeedViolation] tests) yields a violation, counts one more violation
    and extends the streak, so the violation's streak length is the old
    counter plus one; a reading at or below the limit yields none, puts the
    streak at 0 and leaves both violation counts alone. *)
Theorem violation_iff_counted penv d this :
  let key := SpeedData.vehicleId d in
  let old := Observe.stateOf key this in
  let sync := Observe.synchronous penv d this in
  let snapshot := sync.1.1 in
  SpeedProcessor.processedCount sync.2 = S (SpeedProcessor.processedCount this) /\
  SpeedProcessor.getVehicleState key sync.2 = Some snapshot /\
  (SpeedProcessor.isSpeedViolation d (SpeedProcessor.speedLimit this) = true <->
   is_Some sync.1.2) /\
  (forall v, sync.1.2 = Some v ->
     (SpeedProcessor.speedLimit this < SpeedData.speed d)%Q /\
     Violation.consecutiveCount v = S (VehicleState.consecutiveViolations old) /\
     VehicleState.totalViolations snapshot = S (VehicleState.totalViolations old) /\
     SpeedProcessor.violationCount sync.2 = S (SpeedProcessor.violationCount this)) /\
  (sync.1.2 = None ->
     (SpeedData.speed d <= SpeedProcessor.speedLimit this)%Q /\
     VehicleState.consecutiveViolations snapshot = 0 /\
     VehicleState.totalViolations snapshot = VehicleState.totalViolations old /\
     SpeedProcessor.violationCount sync.2 = SpeedProcessor.violationCount this).
Proof.
  intros key old sync snapshot. subst sync snapshot.
  rewrite synchronous_unfold. cbn [fst snd].
  set (counted := SpeedProcessor.incr_processedCount this).
  set (snapshot := (SpeedProcessor.updateVehicleState d counted).1).
  set (this2 := (SpeedProcessor.updateVehicleState d counted).2).
  destruct (updateVehicleState_counters d counted) as [Hc Ht]. fold snapshot in Hc, Ht.
  change (Observe.stateOf (SpeedData.vehicleId d) counted) with old in Hc, Ht.
  change (SpeedProcessor.speedLimit counted) with (SpeedProcessor.speedLimit this) in Hc, Ht.
  assert (Hstored : SpeedProcessor.vehicleStates this2 !! key = Some snapshot)
    by apply updateVehicleState_stored.
  unfold SpeedProcessor.isSpeedViolation, SpeedProcessor.getVehicleState.
  destruct (JS.Qgtb (SpeedData.speed d) (SpeedProcessor.speedLimit this)) eqn:E.
  - apply Qgtb_spec in E.
    destruct (checkSpeedViolation_over (SpeedProcessor.now_violationId penv)
                (SpeedProcessor.now_detectedAt penv) d snapshot this2 E)
      as (v & Hv & _ & _ & _ & _ & _ & _ & _ & Hcount).
    rewrite Hv. cbn [fst snd]. split; [reflexivity|]. split; [exact Hstored|].
    split; [split; eauto|]. split; [|discriminate].
    intros v' [= <-]. rewrite Hcount, Hc. repeat split; assumption.
  - apply Qgtb_false in E.
    rewrite (checkSpeedViolation_within _ _ d snapshot this2 E). cbn [fst snd].
    split; [reflexivity|]. split; [exact Hstored|].
    split; [split; [discriminate|intros [? [=]]]|]. split; [discriminate|].
    intros _. repeat split; assumption.
Qed.

End Accounting.

(** ** Further properties of the message handler *)

Section StreamAccounting.
Context {runtime : JS.Runtime} {validator : SpeedProcessor.Validator}.

Implicit Types (this : MqttSpeedProcessor.t) (env : MqttSpeedProcessor.Env).

Lemma synchronous_counts penv d (sp : SpeedProcessor.t) :
  let sync := Observe.synchronous penv d sp in
  SpeedProcessor.processedCount sync.2 = S (SpeedProcessor.processedCount sp) /\
  SpeedProcessor.violationCount sp <= SpeedProcessor.violationCount sync.2 /\
  SpeedProcessor.violationCount sync.2 <= S (SpeedProcessor.violationCount sp).
Proof.
  intros sync. subst sync. rewrite synchronous_unfold. cbn [fst snd].
  unfold SpeedProcessor.checkSpeedViolation.
  destruct (Qle_bool _ _); cbn; lia.
Qed.

(** What one run of [processSpeedData] does to the two counters of the
    processor: a failed validation leaves them alone, every other run counts
    the reading and at most one violation. *)
Lemma processSpeedData_counts penv raw (sp : SpeedProcessor.t) alerts :
  let outcome := run (SpeedProcessor.processSpeedData penv raw) (sp, alerts) in
  let sp' := outcome.1.2.1 in
  match outcome.1.1 with
  | Return (SpeedProcessor.ValidationFailed _) =>
      SpeedProcessor.processedCount sp' = SpeedProcessor.processedCount sp /\
      SpeedProcessor.violationCount sp' = SpeedProcessor.violationCount sp
  | Return _ =>
      SpeedProcessor.processedCount sp' = S (SpeedProcessor.processedCount sp) /\
      SpeedProcessor.violationCount sp <= SpeedProcessor.violationCount sp' /\
      SpeedProcessor.violationCount sp' <= S (SpeedProcessor.violationCount sp)
  | Throw _ => False
  end.
Proof.
  intros outcome sp'. subst outcome sp'.
  destruct (SpeedProcessor.validateSpeedData (SpeedProcessor.now_validate penv) raw)
    as [d|errors] eqn:Hv.
  - pose proof (synchronous_counts penv d sp) as Hcounts. cbv zeta in Hcounts.
    destruct (Observe.synchronous penv d sp) as [[vehicleState violation] sp3] eqn:Hs.
    cbn [fst snd] in Hcounts.
    rewrite (processSpeedData_valid penv raw d sp alerts _ _ _ Hv Hs).
    destruct (SpeedProcessor.dataStore sp && negb (SpeedProcessor.saveSpeedRecord_ok penv));
      [exact Hcounts|].
    destruct violation as [v|]; [|exact Hcounts].
    destruct (SpeedProcessor.alertSystem sp); [|exact Hcounts].
    destruct (run (AlertSystem.processViolation _ _) alerts) as [[c a] e]. exact Hcounts.
  - rewrite (processSpeedData_invalid penv raw errors sp alerts Hv). cbn. split; reflexivity.
Qed.

(** One message: it is counted, and it is counted as an error or as a
    processed reading. *)
Lemma handleSpeedMessage_counts env topic message this :
  let this' := (run (MqttSpeedProcessor.handleSpeedMessage env topic message) this).1.2 in
  let sp := MqttSpeedProcessor.speedProcessor this in
  let sp' := MqttSpeedProcessor.speedProcessor this' in
  MqttSpeedProcessor.messageCount this' = S (MqttSpeedProcessor.messageCount this) /\
  MqttSpeedProcessor.lastMessageTime this' = Some (MqttSpeedProcessor.now_message env) /\
  MqttSpeedProcessor.errorCount this <= MqttSpeedProcessor.errorCount this' /\
  MqttSpeedProcessor.errorCount this' <= S (MqttSpeedProcessor.errorCount this) /\
  SpeedProcessor.processedCount sp <= SpeedProcessor.processedCount sp' /\
  SpeedProcessor.processedCount sp' <= S (SpeedProcessor.processedCount sp) /\
  SpeedProcessor.violationCount sp <= SpeedProcessor.violationCount sp' /\
  SpeedProcessor.violationCount sp' + SpeedProcessor.processedCount sp
  <= SpeedProcessor.violationCount sp + SpeedProcessor.processedCount sp' /\
  S (MqttSpeedProcessor.errorCount this + SpeedProcessor.processedCount sp)
  <= MqttSpeedProcessor.errorCount this' + SpeedProcessor.processedCount sp'.
Proof.
  intros this' sp sp'. subst this' sp'.
  destruct (MqttSpeedProcessor.parseSpeedMessage (MqttSpeedProcessor.now_timestamp env)
              message) as [raw|] eqn:Hparse.
  - pose proof (processSpeedData_counts (MqttSpeedProcessor.processEnv env) raw sp
                  (MqttSpeedProcessor.alertSystem this)) as Hcounts.
    cbv zeta in Hcounts.
    destruct (run (SpeedProcessor.processSpeedData _ raw) _)
      as [[[result|error] services] events] eqn:Hrun; [|contradiction].
    cbn [fst snd] in Hcounts.
    rewrite (handleSpeedMessage_accepted env topic message raw this _ _ _ Hparse Hrun).
    destruct result as [errors|d vehicleState violation stats|error];
      cbn [fst snd MqttSpeedProcessor.incr_errorCount MqttSpeedProcessor.set_services
           MqttSpeedProcessor.receive MqttSpeedProcessor.messageCount
           MqttSpeedProcessor.errorCount MqttSpeedProcessor.lastMessageTime
           MqttSpeedProcessor.speedProcessor];
      fold sp; repeat split; lia.
  - rewrite (handleSpeedMessage_rejected env topic message this Hparse).
    cbn. fold sp. repeat split; lia.
Qed.

Lemma deliverAll_counts (stream : list (MqttSpeedProcessor.Env * string)) topic :
  forall this,
    let this' := (run (MqttSpeedProcessor.deliverAll stream topic) this).1.2 in
    let sp := MqttSpeedProcessor.speedProcessor this in
    let sp' := MqttSpeedProcessor.speedProcessor this' in
    MqttSpeedProcessor.messageCount this'
    = MqttSpeedProcessor.messageCount this + length stream /\
    MqttSpeedProcessor.errorCount this <= MqttSpeedProcessor.errorCount this' /\
    MqttSpeedProcessor.errorCount this'
    <= MqttSpeedProcessor.errorCount this + length stream /\
    SpeedProcessor.processedCount sp <= SpeedProcessor.processedCount sp' /\
    SpeedProcessor.processedCount sp'
    <= SpeedProcessor.processedCount sp + length stream /\
    SpeedProcessor.violationCount sp <= SpeedProcessor.violationCount sp' /\
    SpeedProcessor.violationCount sp' + SpeedProcessor.processedCount sp
    <= SpeedProcessor.violationCount sp + SpeedProcessor.processedCount sp' /\
    MqttSpeedProcessor.errorCount this + SpeedProcessor.processedCount sp + length stream
    <= MqttSpeedProcessor.errorCount this' + SpeedProcessor.processedCount sp'.
Proof.
  induction stream as [|[env payload] stream IH]; intros this.
  - cbn. repeat split; lia.
  - cbn [MqttSpeedProcessor.deliverAll length]. rewrite run_bind.
    unfold MqttSpeedProcessor.deliver.
    set (message := match JS.JSON_parse payload with
                    | Some v => v
                    | None => JS.Str payload
                    end).
    pose proof (handleSpeedMessage_counts env topic message this) as H1.
    destruct (handleSpeedMessage_returns env topic message this)
      as (this1 & events1 & Hrun1).
    rewrite Hrun1 in H1 |- *. cbn [fst snd] in H1.
    specialize (IH this1).
    destruct (deliverAll_returns stream topic this1) as (this2 & events2 & Hrun2).
    rewrite Hrun2 in IH |- *. cbn [fst snd] in IH |- *.
    cbv zeta in H1, IH. cbv zeta. repeat split; lia.
Qed.

Lemma toFixed2_percentage (x : Q) :
  (0 <= x)%Q -> (x <= 100)%Q -> (0 <= JS.toFixed2 x)%Q /\ (JS.toFixed2 x <= 100)%Q.
Proof.
  intros H0 H100. unfold JS.toFixed2.
  apply Qle_bool_iff in H0 as Hb. rewrite Hb.
  assert (Hlo : (0 <= Qfloor (x * 100 + (1 # 2)))%Z).
  { change 0%Z with (Qfloor 0). apply Qfloor_resp_le. lra. }
  assert (Hhi : (Qfloor (x * 100 + (1 # 2)) <= 10000)%Z).
  { change 10000%Z with (Qfloor (10000 + (1 # 2))). apply Qfloor_resp_le. lra. }
  rewrite Zle_Qle in Hlo, Hhi.
  set (f := inject_Z (Qfloor (x * 100 + (1 # 2)))) in *.
  change (inject_Z 0) with 0%Q in Hlo. change (inject_Z 10000) with 10000%Q in Hhi.
  split; [apply Qle_shift_div_l | apply Qle_shift_div_r]; lra.
Qed.

Lemma violationRate_percentage (sp : SpeedProcessor.t) :
  SpeedProcessor.violationCount sp <= SpeedProcessor.processedCount sp ->
  let rate := SpeedProcessor.stats_violationRate (SpeedProcessor.getProcessingStats sp) in
  (0 <= rate)%Q /\ (rate <= 100)%Q.
Proof.
  intros Hle rate. subst rate. cbn [SpeedProcessor.getProcessingStats
                                    SpeedProcessor.stats_violationRate].
  destruct (0 <? SpeedProcessor.processedCount sp) eqn:Hp; [|split; lra].
  apply Nat.ltb_lt in Hp.
  assert (Ha : (0 <= inject_Z (Z.of_nat (SpeedProcessor.violationCount sp)))%Q).
  { change 0%Q with (inject_Z 0). rewrite <- Zle_Qle. lia. }
  assert (Hb : (0 < inject_Z (Z.of_nat (SpeedProcessor.processedCount sp)))%Q).
  { change 0%Q with (inject_Z 0). rewrite <- Zlt_Qlt. lia. }
  assert (Hab : (inject_Z (Z.of_nat (SpeedProcessor.violationCount sp))
                 <= inject_Z (Z.of_nat (SpeedProcessor.processedCount sp)))%Q).
  { rewrite <- Zle_Qle. lia. }
  set (a := inject_Z (Z.of_nat (SpeedProcessor.violationCount sp))) in *.
  set (b := inject_Z (Z.of_nat (SpeedProcessor.processedCount sp))) in *.
  assert (H0 : (0 <= a / b)%Q) by (apply Qle_shift_div_l; lra).
  assert (H1 : (a / b <= 1)%Q) by (apply Qle_shift_div_r; lra).
  apply toFixed2_percentage; lra.
Qed.

(** X14.  The counters after a stream of payloads, whatever the payloads and
    whatever the collaborators answer: every payload is counted as a message;
    each one is counted as an error or as a processed reading (a failed write
    counts as both), so neither counter moves by more than the number of
    payloads and together they move by at least that number; no more
    violations are counted than readings processed, so the violation rate
    reported stays a percentage. *)
Theorem stream_accounting (stream : list (MqttSpeedProcessor.Env * string)) topic this :
  let sp := MqttSpeedProcessor.speedProcessor this in
  SpeedProcessor.violationCount sp <= SpeedProcessor.processedCount sp ->
  let this' := (run (MqttSpeedProcessor.deliverAll stream topic) this).1.2 in
  let sp' := MqttSpeedProcessor.speedProcessor this' in
  let rate := SpeedProcessor.stats_violationRate (SpeedProcessor.getProcessingStats sp') in
  MqttSpeedProcessor.messageCount this'
  = MqttSpeedProcessor.messageCount this + length stream /\
  MqttSpeedProcessor.errorCount this <= MqttSpeedProcessor.errorCount this' /\
  MqttSpeedProcessor.errorCount this' <= MqttSpeedProcessor.errorCount this + length stream /\
  SpeedProcessor.processedCount sp <= SpeedProcessor.processedCount sp' /\
  SpeedProcessor.processedCount sp' <= SpeedProcessor.processedCount sp + length stream /\
  MqttSpeedProcessor.errorCount this + SpeedProcessor.processedCount sp + length stream
  <= MqttSpeedProcessor.errorCount this' + SpeedProcessor.processedCount sp' /\
  SpeedProcessor.violationCount sp <= SpeedProcessor.violationCount sp' /\
  SpeedProcessor.violationCount sp' <= SpeedProcessor.processedCount sp' /\
  (0 <= rate)%Q /\ (rate <= 100)%Q.
Proof.
  intros sp Hstart this' sp' rate.
  pose proof (deliverAll_counts stream topic this) as H. cbv zeta in H.
  fold this' in H. fold sp in H. fold sp' in H.
  destruct H as (Hm & He1 & He2 & Hp1 & Hp2 & Hv1 & Hv2 & Hall).
  assert (Hle : SpeedProcessor.violationCount sp' <= SpeedProcessor.processedCount sp')
    by lia.
  pose proof (violationRate_percentage sp' Hle) as Hrate. cbv zeta in Hrate.
  fold rate in Hrate.
  repeat split; try assumption; apply Hrate.
Qed.

End StreamAccounting.

Lemma stream_accounting_witness :
  let stream :=
    [(Sample.env 0 true, Sample.speeding); (Sample.env 1 true, Sample.truncated);
     (Sample.env 2 false, Sample.speeding)] in
  let this' :=
    (run (@MqttSpeedProcessor.deliverAll Sample.runtime Sample.validator stream
            "vehicles/speed") Sample.service).1.2 in
  MqttSpeedProcessor.messageCount this' = 3 /\
  MqttSpeedProcessor.errorCount this' <= 3.
Proof.
  intros stream this'.
  destruct (@stream_accounting Sample.runtime Sample.validator stream "vehicles/speed"
              Sample.service) as (Hm & _ & He & _).
  - cbn. lia.
  - split; [exact Hm | exact He].
Defined.

Section Parsing.
Context {runtime : JS.Runtime}.

Lemma number_in_range (n : JS.number) :
  JS.isNaN n || JS.ltb n (JS.Fin 0) || JS.gtb n (JS.Fin 500) = false <->
  exists q, n = JS.Fin q /\ (0 <= q)%Q /\ (q <= 500)%Q.
Proof.
  destruct n as [q| | |]; cbn.
  - unfold JS.Qltb. rewrite orb_false_iff, !negb_false_iff, !Qle_bool_iff.
    split.
    + intros [H0 H500]. eauto.
    + intros (q' & [= <-] & H0 & H500). auto.
  - split; [discriminate|intros (q & [=] & _)].
  - split; [discriminate|intros (q & [=] & _)].
  - split; [discriminate|intros (q & [=] & _)].
Qed.



End Parsing.


(** ** Further properties of the validator *)

Section Validation.
Context {runtime : JS.Runtime}.

Lemma is_alnum_not_space (c : ascii) :
  JS.is_alnum c = true ->
  JS.is_space c = false /\
  (forall c2, JS.is_space2 c c2 = false) /\
  (forall c2 c3, JS.is_space3 c c2 c3 = false).
Proof.
  destruct c as [[] [] [] [] [] [] [] []]; vm_compute; try congruence;
    intros _; repeat split.
Qed.

Lemma trimStart_alnum (c : ascii) (s : string) :
  JS.is_alnum c = true -> JS.trimStart (String c s) = String c s.
Proof.
  intros Hc. destruct (is_alnum_not_space c Hc) as (H1 & H2 & H3).
  cbn [JS.trimStart]. rewrite H1.
  destruct s as [|c2 s]; [reflexivity|]. rewrite H2.
  destruct s as [|c3 s]; [reflexivity|]. now rewrite H3.
Qed.

Lemma all_space_alnum (c : ascii) (s : string) :
  JS.is_alnum c = true -> JS.all_space (String c s) = false.
Proof.
  intros Hc. destruct (is_alnum_not_space c Hc) as (H1 & H2 & H3).
  cbn [JS.all_space]. rewrite H1.
  destruct s as [|c2 s]; [reflexivity|]. rewrite H2.
  destruct s as [|c3 s]; [reflexivity|]. now rewrite H3.
Qed.

Lemma trimEnd_alnum (s : string) : JS.all_alnum s = true -> JS.trimEnd s = s.
Proof.
  induction s as [|c s IH]; [reflexivity|].
  cbn [JS.all_alnum]. rewrite andb_true_iff. intros [Hc Hs].
  cbn [JS.trimEnd]. rewrite (all_space_alnum c s Hc). now rewrite (IH Hs).
Qed.

(** An id that passes the pattern of the validator has no white space to
    trim. *)
Lemma trim_alnum (s : string) : JS.all_alnum s = true -> JS.trim s = s.
Proof.
  intros H. unfold JS.trim.
  assert (Hstart : JS.trimStart s = s).
  { destruct s as [|c s]; [reflexivity|]. cbn [JS.all_alnum] in H.
    apply andb_true_iff in H as [Hc _]. now apply trimStart_alnum. }
  rewrite Hstart. now apply trimEnd_alnum.
Qed.

Lemma check_vehicleId_passes (vehicleId : string) :
  SpeedProcessor.check_vehicleId vehicleId = [] <->
  3 <= String.length vehicleId /\ String.length vehicleId <= 20 /\
  JS.all_alnum vehicleId = true.
Proof.
  unfold SpeedProcessor.check_vehicleId, JS.test_alnum.
  destruct (String.eqb vehicleId EmptyString) eqn:Hempty.
  - apply String.eqb_eq in Hempty as ->. cbn. split; [discriminate|lia].
  - cbn [negb andb].
    destruct (String.length vehicleId <? 3) eqn:H3; cbn [orb].
    + apply Nat.ltb_lt in H3. split; [discriminate|lia].
    + apply Nat.ltb_ge in H3.
      destruct (20 <? String.length vehicleId) eqn:H20.
      * apply Nat.ltb_lt in H20. split; [discriminate|lia].
      * apply Nat.ltb_ge in H20.
        destruct (JS.all_alnum vehicleId); cbn [negb].
        -- split; [auto|reflexivity].
        -- split; [discriminate|intros (_ & _ & [=])].
Qed.

Lemma check_speed_passes (speed : JS.number) :
  SpeedProcessor.check_speed speed = [] <->
  exists q, speed = JS.Fin q /\ (0 <= q)%Q /\ (q <= 500)%Q.
Proof.
  rewrite <- number_in_range. unfold SpeedProcessor.check_speed.
  destruct (JS.isNaN speed); cbn [orb]; [split; discriminate|].
  destruct (JS.ltb speed (JS.Fin 0) || JS.gtb speed (JS.Fin 500));
    split; (reflexivity || discriminate).
Qed.

Lemma normalize_vehicleType_valid (vehicleType : JS.value) :
  exists s, SpeedProcessor.normalize_vehicleType vehicleType = JS.Str s /\
            s ∈ SpeedProcessor.validVehicleTypes.
Proof.
  assert (Hunknown : "unknown" ∈ SpeedProcessor.validVehicleTypes)
    by (unfold SpeedProcessor.validVehicleTypes; set_solver).
  unfold SpeedProcessor.normalize_vehicleType, JS.or.
  destruct (JS.truthy vehicleType) eqn:Ht; cbn [andb]; [|eauto].
  destruct vehicleType as [| |b|n|s|ms|props|items]; cbn [negb]; eauto.
  destruct (bool_decide (s ∈ SpeedProcessor.validVehicleTypes)) eqn:Hs; cbn [negb]; eauto.
  apply bool_decide_eq_true in Hs. eauto.
Qed.

Lemma check_location_passes (location : JS.value) :
  (SpeedProcessor.check_location location).1 = [] ->
  let normalized := (SpeedProcessor.check_location location).2 in
  let hasLat := negb (SpeedProcessor.is_undefined (JS.get location "lat"))
                || negb (SpeedProcessor.is_undefined (JS.get location "latitude")) in
  let hasLng := negb (SpeedProcessor.is_undefined (JS.get location "lng"))
                || negb (SpeedProcessor.is_undefined (JS.get location "longitude")) in
  (location = JS.Undefined \/ location = JS.Null \/ JS.typeof location = JS.TObject) /\
  (hasLat || hasLng = false -> normalized = location) /\
  (hasLat || hasLng = true ->
   exists lat lng,
     normalized = JS.Obj [("lat", JS.Num lat); ("lng", JS.Num lng)] /\
     JS.Num lat = JS.or (JS.get location "lat") (JS.get location "latitude") /\
     JS.Num lng = JS.or (JS.get location "lng") (JS.get location "longitude") /\
     (forall q, lat = JS.Fin q -> (-90 <= q)%Q /\ (q <= 90)%Q) /\
     (forall q, lng = JS.Fin q -> (-180 <= q)%Q /\ (q <= 180)%Q) /\
     lat <> JS.PosInf /\ lat <> JS.NegInf /\ lng <> JS.PosInf /\ lng <> JS.NegInf).
Proof.
  assert (Hrange : forall lo hi v,
             SpeedProcessor.in_range lo hi v = true ->
             exists n, v = JS.Num n /\
               (forall q, n = JS.Fin q -> (lo <= q)%Q /\ (q <= hi)%Q) /\
               n <> JS.PosInf /\ n <> JS.NegInf).
  { intros lo hi v Hv. destruct v as [| |b|n|s|ms|props|items]; try discriminate.
    exists n. split; [reflexivity|]. cbn [SpeedProcessor.in_range] in Hv.
    apply negb_true_iff, orb_false_iff in Hv as [Hlo Hhi].
    destruct n as [q| | |]; try discriminate.
    - cbn in Hlo, Hhi. unfold JS.Qltb in Hlo, Hhi.
      apply negb_false_iff, Qle_bool_iff in Hlo, Hhi.
      split; [|split; discriminate]. intros q' [= <-]. split; assumption.
    - split; [|split; discriminate]. intros q' [=]. }
  unfold SpeedProcessor.check_location.
  destruct location as [| |b|n|s|ms|props|items];
    cbn [SpeedProcessor.is_undefined JS.is_null negb andb JS.typeof JS.get fst snd orb];
    try discriminate;
    try (intros _; split; [auto|]; split; [reflexivity|discriminate]).
  rewrite bool_decide_eq_true_2 by reflexivity. cbn [negb].
  cbv zeta.
  destruct (negb (SpeedProcessor.is_undefined (JS.assoc "lat" props))
            || negb (SpeedProcessor.is_undefined (JS.assoc "latitude" props))
            || (negb (SpeedProcessor.is_undefined (JS.assoc "lng" props))
                || negb (SpeedProcessor.is_undefined (JS.assoc "longitude" props))));
    cbn [fst snd].
  - intros Herrors. apply app_eq_nil in Herrors as [Hlat Hlng].
    destruct (SpeedProcessor.in_range (-90) 90 _) eqn:Elat; [|discriminate].
    destruct (SpeedProcessor.in_range (-180) 180 _) eqn:Elng; [|discriminate].
    apply Hrange in Elat as (lat & Hlat' & Hlatq & Hlat1 & Hlat2).
    apply Hrange in Elng as (lng & Hlng' & Hlngq & Hlng1 & Hlng2).
    split; [auto|]. split; [discriminate|]. intros _.
    exists lat, lng. rewrite Hlat', Hlng'. repeat split; auto; apply Hlatq || apply Hlngq;
      assumption.
  - intros _. split; [auto|]. split; [reflexivity|discriminate].
Qed.

(** X16.  What a reading is when [validateSpeedData] of the simple validator
    accepts a message: the id has 3 to 20 characters, all letters or digits,
    and is kept as it is (there is nothing to trim); the speed is the
    message's, a finite number from 0 to 500; the vehicle type is one of the
    seven known ones; the reception time is the clock's; a location is
    absent, or an object that is passed on as it is when it names no
    coordinate, and that is otherwise rebuilt as a [lat]/[lng] pair of
    numbers, each within its bounds when finite. *)
Theorem validated_reading_is_normalised now (data : SpeedMessage.t) d :
  SpeedProcessor.simple_validateSpeedData now data = SpeedProcessor.Valid d ->
  let location := SpeedMessage.location data in
  let named key := negb (SpeedProcessor.is_undefined (JS.get location key)) in
  SpeedData.vehicleId d = SpeedMessage.vehicleId data /\
  3 <= String.length (SpeedData.vehicleId d) /\
  String.length (SpeedData.vehicleId d) <= 20 /\
  JS.all_alnum (SpeedData.vehicleId d) = true /\
  SpeedMessage.speed data = JS.Fin (SpeedData.speed d) /\
  (0 <= SpeedData.speed d)%Q /\ (SpeedData.speed d <= 500)%Q /\
  (exists s, SpeedData.vehicleType d = JS.Str s /\ s ∈ SpeedProcessor.validVehicleTypes) /\
  SpeedData.receivedAt d = now /\
  (location = JS.Undefined \/ location = JS.Null \/ JS.typeof location = JS.TObject) /\
  (named "lat" || named "latitude" || (named "lng" || named "longitude") = false ->
   SpeedData.location d = location) /\
  (named "lat" || named "latitude" || (named "lng" || named "longitude") = true ->
   exists lat lng,
     SpeedData.location d = JS.Obj [("lat", JS.Num lat); ("lng", JS.Num lng)] /\
     JS.Num lat = JS.or (JS.get location "lat") (JS.get location "latitude") /\
     JS.Num lng = JS.or (JS.get location "lng") (JS.get location "longitude") /\
     (forall q, lat = JS.Fin q -> (-90 <= q)%Q /\ (q <= 90)%Q) /\
     (forall q, lng = JS.Fin q -> (-180 <= q)%Q /\ (q <= 180)%Q) /\
     lat <> JS.PosInf /\ lat <> JS.NegInf /\ lng <> JS.PosInf /\ lng <> JS.NegInf).
Proof.
  intros Hvalid location named. unfold SpeedProcessor.simple_validateSpeedData in Hvalid.
  destruct (SpeedProcessor.check_timestamp now (SpeedMessage.timestamp data))
    as [[timestampErrors normalizedTimestamp]|error]; [|discriminate].
  pose proof (check_location_passes (SpeedMessage.location data)) as Hlocation.
  destruct (SpeedProcessor.check_location (SpeedMessage.location data))
    as [locationErrors normalizedLocation].
  cbn [fst snd] in Hlocation.
  destruct (0 <? length _) eqn:Herrors; [discriminate|].
  apply Nat.ltb_ge in Herrors. apply Nat.le_0_r, length_zero_iff_nil in Herrors.
  apply app_eq_nil in Herrors as [Hid Herrors].
  apply app_eq_nil in Herrors as [Hspeed Herrors].
  apply app_eq_nil in Herrors as [_ Hloc].
  apply check_vehicleId_passes in Hid as (H3 & H20 & Halnum).
  apply check_speed_passes in Hspeed as (q & Hq & H0 & H500).
  destruct (normalize_vehicleType_valid (SpeedMessage.vehicleType data)) as (s & Hs & Hin).
  specialize (Hlocation Hloc). cbv zeta in Hlocation.
  destruct Hlocation as (Hshape & Hsame & Hpair).
  injection Hvalid as <-. cbn [SpeedData.vehicleId SpeedData.speed SpeedData.vehicleType
                               SpeedData.receivedAt SpeedData.location].
  rewrite (trim_alnum _ Halnum), Hq. cbn [SpeedProcessor.finite].
  split; [reflexivity|]. split; [exact H3|]. split; [exact H20|]. split; [exact Halnum|].
  split; [reflexivity|]. split; [exact H0|]. split; [exact H500|].
  split; [eauto|]. split; [reflexivity|]. split; [exact Hshape|].
  split; [exact Hsame | exact Hpair].
Qed.

Lemma in_range_finite lo hi (q : Q) :
  SpeedProcessor.in_range lo hi (JS.Num (JS.Fin q)) = true <-> (lo <= q)%Q /\ (q <= hi)%Q.
Proof.
  cbn [SpeedProcessor.in_range JS.ltb JS.gtb]. unfold JS.Qltb.
  rewrite negb_true_iff, orb_false_iff, !negb_false_iff, !Qle_bool_iff. reflexivity.
Qed.

(** X17.  A latitude or longitude of 0 given under the short name alone is
    refused: the coordinate is read as [location.lat || location.latitude],
    and 0 is falsy, so the validator sees [undefined] where the equator or
    the prime meridian was meant, reports a location error and answers
    invalid.  The same 0 under the long names passes and is rebuilt as a
    [lat]/[lng] pair. *)
Theorem zero_coordinate_under_short_name now (data : SpeedMessage.t) props (zero : Q) :
  SpeedMessage.location data = JS.Obj props ->
  (zero == 0)%Q ->
  (JS.assoc "lat" props = JS.Num (JS.Fin zero) /\ JS.assoc "latitude" props = JS.Undefined) \/
  (JS.assoc "lng" props = JS.Num (JS.Fin zero) /\ JS.assoc "longitude" props = JS.Undefined) ->
  (exists errors,
     SpeedProcessor.simple_validateSpeedData now data = SpeedProcessor.Invalid errors) /\
  (("location.latitude", "latitude must be a number between -90 and 90")
     ∈ (SpeedProcessor.check_location (JS.Obj props)).1 \/
   ("location.longitude", "longitude must be a number between -180 and 180")
     ∈ (SpeedProcessor.check_location (JS.Obj props)).1) /\
  SpeedProcessor.check_location
    (JS.Obj [("latitude", JS.Num (JS.Fin zero)); ("longitude", JS.Num (JS.Fin zero))])
  = ([], JS.Obj [("lat", JS.Num (JS.Fin zero)); ("lng", JS.Num (JS.Fin zero))]).
Proof.
  intros Hlocation Hzero Hshort.
  assert (Hfalsy : JS.truthy (JS.Num (JS.Fin zero)) = false).
  { cbn [JS.truthy]. apply negb_false_iff, Qeq_bool_iff. exact Hzero. }
  assert (Herror :
            ("location.latitude", "latitude must be a number between -90 and 90")
              ∈ (SpeedProcessor.check_location (JS.Obj props)).1 \/
            ("location.longitude", "longitude must be a number between -180 and 180")
              ∈ (SpeedProcessor.check_location (JS.Obj props)).1).
  { unfold SpeedProcessor.check_location.
    cbn [SpeedProcessor.is_undefined JS.is_null negb andb JS.typeof JS.get].
    rewrite bool_decide_eq_true_2 by reflexivity. cbn [negb].
    destruct Hshort as [[Hshort Hlong]|[Hshort Hlong]]; rewrite Hshort, Hlong;
      cbn [SpeedProcessor.is_undefined negb orb]; rewrite ?orb_true_r;
      cbn [fst]; unfold JS.or; rewrite Hfalsy; cbn [SpeedProcessor.in_range].
    - left. apply elem_of_app. left. apply list_elem_of_here.
    - right. apply elem_of_app. right. apply list_elem_of_here. }
  split; [|split; [exact Herror|]].
  - unfold SpeedProcessor.simple_validateSpeedData.
    destruct (SpeedProcessor.check_timestamp now (SpeedMessage.timestamp data))
      as [[timestampErrors normalizedTimestamp]|error]; [|eauto].
    rewrite Hlocation.
    destruct (SpeedProcessor.check_location (JS.Obj props))
      as [locationErrors normalizedLocation].
    cbn [fst] in Herror.
    assert (Hlen : 0 < length locationErrors).
    { destruct locationErrors; [|cbn; lia].
      destruct Herror as [H|H]; apply elem_of_nil in H; contradiction. }
    destruct (0 <? length _) eqn:Herrors; [eauto|].
    apply Nat.ltb_ge in Herrors. rewrite !length_app in Herrors. lia.
  - unfold SpeedProcessor.check_location.
    cbn -[SpeedProcessor.in_range].
    assert (H90 : SpeedProcessor.in_range (-90) 90 (JS.Num (JS.Fin zero)) = true)
      by (apply in_range_finite; lra).
    assert (H180 : SpeedProcessor.in_range (-180) 180 (JS.Num (JS.Fin zero)) = true)
      by (apply in_range_finite; lra).
    rewrite H90, H180. reflexivity.
Qed.

End Validation.

Lemma validated_reading_is_normalised_witness :
  String.length (SpeedData.vehicleId (Sample.readingAt 0 "VEH001" 45)) <= 20.
Proof.
  destruct (@validated_reading_is_normalised Sample.runtime 0
              (SpeedMessage.mk "VEH001" (JS.Fin 45) (JS.Str "1970-01-01T00:00:00.000Z")
                 JS.Null (JS.Str "unknown") JS.Null)
              (Sample.readingAt 0 "VEH001" 45)) as (_ & _ & Hlength & _).
  - reflexivity.
  - exact Hlength.
Defined.

Lemma zero_coordinate_under_short_name_witness :
  exists errors,
    @SpeedProcessor.simple_validateSpeedData Sample.runtime 0
      (SpeedMessage.mk "VEH001" (JS.Fin 45) (JS.Str "1970-01-01T00:00:00.000Z")
         (JS.Obj [("lat", JS.Num (JS.Fin 0)); ("lng", JS.Num (JS.Fin 10))])
         (JS.Str "car") JS.Null)
    = SpeedProcessor.Invalid errors.
Proof.
  destruct (@zero_coordinate_under_short_name Sample.runtime 0
              (SpeedMessage.mk "VEH001" (JS.Fin 45) (JS.Str "1970-01-01T00:00:00.000Z")
                 (JS.Obj [("lat", JS.Num (JS.Fin 0)); ("lng", JS.Num (JS.Fin 10))])
                 (JS.Str "car") JS.Null)
              [("lat", JS.Num (JS.Fin 0)); ("lng", JS.Num (JS.Fin 10))] 0%Q)
    as (Hinvalid & _).
  - reflexivity.
  - reflexivity.
  - left. split; reflexivity.
  - exact Hinvalid.
Defined.

(** ** Publications of the handler *)

Section Publications.
Context {runtime : JS.Runtime} {validator : SpeedProcessor.Validator}.

Implicit Types (this : MqttSpeedProcessor.t) (env : MqttSpeedProcessor.Env).




End Publications.


(** ** Configuration of the running service *)

Section ServiceConfiguration.
Context {runtime : JS.Runtime} {validator : SpeedProcessor.Validator}.

Implicit Types (this : MqttSpeedProcessor.t) (env : MqttSpeedProcessor.Env).

Lemma synchronous_configuration penv d (sp : SpeedProcessor.t) :
  Observe.processorConfiguration (Observe.synchronous penv d sp).2
  = Observe.processorConfiguration sp.
Proof.
  rewrite synchronous_unfold. cbn [snd]. unfold SpeedProcessor.checkSpeedViolation.
  destruct (Qle_bool _ _); reflexivity.
Qed.

Lemma processViolation_configuration aenv violation (alerts : AlertSystem.t) :
  Observe.engineConfiguration (run (AlertSystem.processViolation aenv violation) alerts).1.2
  = Observe.engineConfiguration alerts.
Proof.
  destruct violation as [v|]; [|reflexivity].
  pose proof (processViolation_run aenv v alerts) as H. cbv zeta in H.
  destruct (AlertSystem.shouldSuppressAlert (AlertSystem.now_suppress aenv) v alerts).
  - now rewrite H.
  - now rewrite H.
Qed.

Lemma processSpeedData_configuration penv raw (sp : SpeedProcessor.t) alerts :
  let services := (run (SpeedProcessor.processSpeedData penv raw) (sp, alerts)).1.2 in
  Observe.processorConfiguration services.1 = Observe.processorConfiguration sp /\
  Observe.engineConfiguration services.2 = Observe.engineConfiguration alerts.
Proof.
  intros services. subst services.
  destruct (SpeedProcessor.validateSpeedData (SpeedProcessor.now_validate penv) raw)
    as [d|errors] eqn:Hv.
  - pose proof (synchronous_configuration penv d sp) as Hsp.
    destruct (Observe.synchronous penv d sp) as [[vehicleState violation] sp3] eqn:Hs.
    cbn [snd] in Hsp.
    rewrite (processSpeedData_valid penv raw d sp alerts _ _ _ Hv Hs).
    destruct (SpeedProcessor.dataStore sp && negb (SpeedProcessor.saveSpeedRecord_ok penv));
      [now split|].
    destruct violation as [v|]; [|now split].
    destruct (SpeedProcessor.alertSystem sp); [|now split].
    pose proof (processViolation_configuration (SpeedProcessor.alertEnv penv) (Some v) alerts)
      as Halerts.
    destruct (run (AlertSystem.processViolation _ _) alerts) as [[c alerts'] events].
    now split.
  - rewrite (processSpeedData_invalid penv raw errors sp alerts Hv). now split.
Qed.

Lemma handleSpeedMessage_configuration env topic message this :
  Observe.configuration
    (run (MqttSpeedProcessor.handleSpeedMessage env topic message) this).1.2
  = Observe.configuration this.
Proof.
  destruct (MqttSpeedProcessor.parseSpeedMessage (MqttSpeedProcessor.now_timestamp env)
              message) as [raw|] eqn:Hparse.
  - pose proof (processSpeedData_configuration (MqttSpeedProcessor.processEnv env) raw
                  (MqttSpeedProcessor.speedProcessor this)
                  (MqttSpeedProcessor.alertSystem this)) as [Hsp Halerts].
    destruct (processSpeedData_returns (MqttSpeedProcessor.processEnv env) raw
                (MqttSpeedProcessor.speedProcessor this)
                (MqttSpeedProcessor.alertSystem this))
      as (result & services & events & Hrun).
    rewrite Hrun in Hsp, Halerts. cbn [fst snd] in Hsp, Halerts.
    rewrite (handleSpeedMessage_accepted env topic message raw this _ _ _ Hparse Hrun).
    destruct result; unfold Observe.configuration; cbn [fst snd];
      cbn [MqttSpeedProcessor.incr_errorCount MqttSpeedProcessor.set_services
           MqttSpeedProcessor.receive MqttSpeedProcessor.speedLimit
           MqttSpeedProcessor.consecutiveLimit MqttSpeedProcessor.isRunning
           MqttSpeedProcessor.startTime MqttSpeedProcessor.speedProcessor
           MqttSpeedProcessor.alertSystem];
      now rewrite Hsp, Halerts.
  - now rewrite (handleSpeedMessage_rejected env topic message this Hparse).
Qed.

Lemma deliverAll_configuration (stream : list (MqttSpeedProcessor.Env * string)) topic :
  forall this,
    Observe.configuration (run (MqttSpeedProcessor.deliverAll stream topic) this).1.2
    = Observe.configuration this.
Proof.
  induction stream as [|[env payload] stream IH]; intros this; [reflexivity|].
  cbn [MqttSpeedProcessor.deliverAll]. rewrite run_bind.
  unfold MqttSpeedProcessor.deliver.
  set (message := match JS.JSON_parse payload with
                  | Some v => v
                  | None => JS.Str payload
                  end).
  pose proof (handleSpeedMessage_configuration env topic message this) as H1.
  destruct (handleSpeedMessage_returns env topic message this)
    as (this1 & events1 & Hrun1).
  rewrite Hrun1 in H1 |- *. cbn [fst snd] in H1.
  specialize (IH this1).
  destruct (deliverAll_returns stream topic this1) as (this2 & events2 & Hrun2).
  rewrite Hrun2 in IH |- *. cbn [fst snd] in IH |- *. now rewrite IH.
Qed.

(** X19.  The handler never changes what is configured.  Through any
    stream of payloads, whatever the collaborators answer, the handler keeps
    its limit, its threshold, its running flag and its start time; the
    processor its limit, threshold, time window, store and alert engine; the
    engine its broker client, its notification handlers, its history bound
    and its suppression window.  So if the handler and the processor hold
    the same limit before the stream, then after it the processor counts a
    reading as a violation exactly when its speed is above the handler's
    limit. *)
Theorem service_keeps_its_configuration (stream : list (MqttSpeedProcessor.Env * string))
    topic this :
  let this' := (run (MqttSpeedProcessor.deliverAll stream topic) this).1.2 in
  let sp := MqttSpeedProcessor.speedProcessor this in
  let sp' := MqttSpeedProcessor.speedProcessor this' in
  let alerts := MqttSpeedProcessor.alertSystem this in
  let alerts' := MqttSpeedProcessor.alertSystem this' in
  MqttSpeedProcessor.speedLimit this' = MqttSpeedProcessor.speedLimit this /\
  MqttSpeedProcessor.consecutiveLimit this' = MqttSpeedProcessor.consecutiveLimit this /\
  MqttSpeedProcessor.isRunning this' = MqttSpeedProcessor.isRunning this /\
  MqttSpeedProcessor.startTime this' = MqttSpeedProcessor.startTime this /\
  SpeedProcessor.speedLimit sp' = SpeedProcessor.speedLimit sp /\
  SpeedProcessor.consecutiveLimit sp' = SpeedProcessor.consecutiveLimit sp /\
  SpeedProcessor.timeWindow sp' = SpeedProcessor.timeWindow sp /\
  SpeedProcessor.dataStore sp' = SpeedProcessor.dataStore sp /\
  SpeedProcessor.alertSystem sp' = SpeedProcessor.alertSystem sp /\
  AlertSystem.mqttClient alerts' = AlertSystem.mqttClient alerts /\
  AlertSystem.notificationHandlers alerts' = AlertSystem.notificationHandlers alerts /\
  AlertSystem.maxHistorySize alerts' = AlertSystem.maxHistorySize alerts /\
  AlertSystem.suppressionWindow alerts' = AlertSystem.suppressionWindow alerts /\
  (MqttSpeedProcessor.speedLimit this = SpeedProcessor.speedLimit sp ->
   forall d, SpeedProcessor.isSpeedViolation d (SpeedProcessor.speedLimit sp')
             = JS.Qgtb (SpeedData.speed d) (MqttSpeedProcessor.speedLimit this')).
Proof.
  intros this' sp sp' alerts alerts'.
  pose proof (deliverAll_configuration stream topic this) as Hconf.
  fold this' in Hconf. unfold Observe.configuration in Hconf.
  fold sp sp' alerts alerts' in Hconf.
  unfold Observe.processorConfiguration, Observe.engineConfiguration in Hconf.
  injection Hconf as H1 H2 H3 H4 H5 H6 H7 H8 H9 H10 H11 H12 H13.
  repeat (split; [assumption|]).
  intros Hsame d. unfold SpeedProcessor.isSpeedViolation. now rewrite H1, H5, Hsame.
Qed.

End ServiceConfiguration.
